(** * aws-securityhubv2-bot: the auto-close decision engine

    A shallow embedding of the Go packages [internal/events],
    [internal/filters], [internal/actions], [internal/notifiers] and
    [internal/app], and the properties of rule matching, rule loading and
    the [Process] pipeline proved about it.

    Conventions.
    - A Go [string] is a byte sequence compared with [==]; it is a
      [string] here, compared with [String.eqb].  A [[]byte] is a
      [list byte].
    - A Go function returning [(T, error)] returns a pair
      [T * option error], [None] being the [nil] error.
    - A [nil] slice and an empty slice are both [[]]: the code only takes
      [len] of them and ranges over them.
    - Logging ([slog]) has no effect on the results and is left out,
      except in the module [pointers], where a logger may be [nil]. *)

From Stdlib Require Import List String Ascii Strings.Byte Bool ZArith NArith Arith Lia.
Import ListNotations.
Local Open Scope string_scope.
Local Open Scope list_scope.

(** ** Errors ([github.com/cockroachdb/errors]) *)

Module errors.

(** An error value: one made by [errors.New]/[errors.Newf] with its
    formatted message, one made by [errors.Wrap]/[errors.Wrapf] around a
    cause, or one coming out of a library outside the repository (the AWS
    SDK, the Slack client, [encoding/json]). *)
Inductive error : Type :=
| Newf (msg : string)
| Wrap (cause : error) (msg : string)
| Foreign (what : string).

Fixpoint Cause (e : error) : error :=
  match e with
  | Wrap c _ => Cause c
  | _ => e
  end.

End errors.
Export errors.

(** ** Package events *)

Module events.

Record Account := { Account_UID : string }.

Record Cloud := {
  Cloud_Account : Account;
  Region : string
}.

Record OCSFCompliance := { Compliance_Status : string }.

Record FindingInfo := {
  Title : string;
  Types : list string
}.

Record MetadataProduct := { Product_Name : string }.

Record Metadata := {
  Product : MetadataProduct;
  UID : string
}.

Record ResourceTag := {
  Tag_Name : string;
  Tag_Value : string
}.

Record OCSFResource := {
  Resource_Name : string;
  Tags : list ResourceTag;
  Resource_Type : string;
  Resource_UID : string
}.

(** The fields of [SecurityHubV2Finding] that the decision engine reads.
    [Compliance] is a pointer in the source: [None] is [nil]. *)
Record SecurityHubV2Finding := {
  Cloud_ : Cloud;
  Compliance : option OCSFCompliance;
  FindingInfo_ : FindingInfo;
  Metadata_ : Metadata;
  Resources : list OCSFResource;
  Severity : string;
  Status : string
}.

(** [SecurityHubV2Finding{}] *)
Definition zeroFinding : SecurityHubV2Finding :=
  {| Cloud_ := {| Cloud_Account := {| Account_UID := "" |}; Region := "" |};
     Compliance := None;
     FindingInfo_ := {| Title := ""; Types := [] |};
     Metadata_ := {| Product := {| Product_Name := "" |}; UID := "" |};
     Resources := [];
     Severity := "";
     Status := "" |}.

(** [slices.Contains] on strings *)
Fixpoint slices_Contains (s : list string) (v : string) : bool :=
  match s with
  | [] => false
  | x :: rest => if String.eqb v x then true else slices_Contains rest v
  end.

Definition IsAlertable (shf : SecurityHubV2Finding) : bool :=
  if negb (String.eqb (Status shf) "New") then false
  else if match Compliance shf with
          | Some c => String.eqb (Compliance_Status c) "Fail"
          | None => false
          end
  then true
  else
    let alertSeverities := ["Critical"; "High"; "Medium"] in
    slices_Contains alertSeverities (Severity shf).

(** [json.RawMessage] *)
Definition RawMessage := list byte.

Record SecurityHubEventInput := {
  EventID : string;
  DetailType : string;
  Detail : RawMessage
}.

End events.

(** ** Package strings (Go standard library) *)

Module strings.

(** [asciiSpace]: the six ASCII white space bytes. *)
Definition asciiSpace (c : byte) : bool :=
  match c with
  | x09 | x0a | x0b | x0c | x0d | x20 => true
  | _ => false
  end.

(** The two-byte UTF-8 encodings of the runes for which [unicode.IsSpace]
    holds: U+0085 and U+00A0. *)
Definition isSpace2 (b0 b1 : byte) : bool :=
  match b0 with
  | xc2 => match b1 with x85 | xa0 => true | _ => false end
  | _ => false
  end.

(** The three-byte ones: U+1680, U+2000..U+200A, U+2028, U+2029, U+202F,
    U+205F and U+3000. *)
Definition isSpace3 (b0 b1 b2 : byte) : bool :=
  match b0 with
  | xe1 => match b1 with
           | x9a => match b2 with x80 => true | _ => false end
           | _ => false
           end
  | xe2 => match b1 with
           | x80 => match b2 with
                    | x80 | x81 | x82 | x83 | x84 | x85 | x86 | x87 | x88
                    | x89 | x8a | xa8 | xa9 | xaf => true
                    | _ => false
                    end
           | x81 => match b2 with x9f => true | _ => false end
           | _ => false
           end
  | xe3 => match b1 with
           | x80 => match b2 with x80 => true | _ => false end
           | _ => false
           end
  | _ => false
  end.

(** Drops white space runes from the front of [s], a rune being
    recognised by the bytes that encode it.  [sp2] and [sp3] say which
    two- and three-byte sequences are white space, so that the same loop
    serves the reversed string. *)
Fixpoint trimRunes (sp2 : byte -> byte -> bool) (sp3 : byte -> byte -> byte -> bool)
         (s : list byte) : list byte :=
  match s with
  | [] => []
  | c0 :: r0 =>
      if asciiSpace c0 then trimRunes sp2 sp3 r0
      else
        match r0 with
        | [] => s
        | c1 :: r1 =>
            if sp2 c0 c1 then trimRunes sp2 sp3 r1
            else
              match r1 with
              | [] => s
              | c2 :: r2 => if sp3 c0 c1 c2 then trimRunes sp2 sp3 r2 else s
              end
        end
  end.

Definition TrimLeftSpace (s : list byte) : list byte := trimRunes isSpace2 isSpace3 s.

Definition TrimRightSpace (s : list byte) : list byte :=
  rev (trimRunes (fun c0 c1 => isSpace2 c1 c0) (fun c0 c1 c2 => isSpace3 c2 c1 c0) (rev s)).

(** [strings.TrimSpace]: leading, then trailing white space as Unicode
    defines it.  A malformed or other byte sequence decodes to a rune
    that is not white space and stops the trimming. *)
Definition TrimSpace (s : list byte) : list byte := TrimRightSpace (TrimLeftSpace s).

(** [strings.HasSuffix] *)
Definition HasSuffix (s suffix : string) : bool :=
  Nat.leb (String.length suffix) (String.length s)
  && String.eqb (substring (String.length s - String.length suffix)
                           (String.length suffix) s) suffix.

End strings.

(** ** Package encoding/json (Go standard library), as far as the rules
    need it *)

Module json.

Set Warnings "-register-all".

(** A JSON text once the scanner has accepted it.  A number keeps its
    literal; object members keep their order and their duplicates. *)
Inductive value : Type :=
| JNull
| JBool (b : bool)
| JNumber (lit : string)
| JString (s : string)
| JArray (elems : list value)
| JObject (members : list (string * value)).

(** What [UnmarshalTypeError] reports as the JSON value. *)
Definition kindName (v : value) : string :=
  match v with
  | JNull => "null"
  | JBool _ => "bool"
  | JNumber _ => "number"
  | JString _ => "string"
  | JArray _ => "array"
  | JObject _ => "object"
  end.

Definition UnmarshalTypeError (v : value) (goType : string) : error :=
  Foreign ("json: cannot unmarshal " ++ kindName v ++ " into Go value of type " ++ goType).

(** The same error for a value met in a field of a struct: its text
    names the struct and the field. *)
Definition UnmarshalFieldTypeError (v : value) (structName field goType : string)
  : error :=
  Foreign ("json: cannot unmarshal " ++ kindName v ++ " into Go struct field "
           ++ structName ++ "." ++ field ++ " of type " ++ goType).

(** The decoder keeps the first error it meets and goes on
    ([d.saveError]). *)
Definition saveError (saved new : option error) : option error :=
  match saved with
  | Some _ => saved
  | None => new
  end.

Definition upperASCII (c : ascii) : ascii :=
  let n := nat_of_ascii c in
  if Nat.leb 97 n && Nat.leb n 122 then ascii_of_nat (n - 32) else c.

(** [foldName]: the key with ASCII letters in upper case and the two
    runes whose case folding is an ASCII letter, U+017F (bytes C5 BF) and
    U+212A (bytes E2 84 AA), replaced by [S] and [K].  Every other byte
    above 127 is kept, where Go writes the folded rune, which is above
    127 as well: the two agree on whether a key folds to a given ASCII
    name. *)
Fixpoint foldName (key : string) : string :=
  match key with
  | EmptyString => EmptyString
  | String c0 r0 =>
      let other := String (upperASCII c0) (foldName r0) in
      match r0 with
      | EmptyString => other
      | String c1 r1 =>
          if Nat.eqb (nat_of_ascii c0) 197 && Nat.eqb (nat_of_ascii c1) 191
          then String "S" (foldName r1)
          else
            match r1 with
            | EmptyString => other
            | String c2 r2 =>
                if Nat.eqb (nat_of_ascii c0) 226 && Nat.eqb (nat_of_ascii c1) 132
                   && Nat.eqb (nat_of_ascii c2) 170
                then String "K" (foldName r2)
                else other
            end
      end
  end.

(** The struct field an object key is stored in: the one whose name is
    the key, else the one whose name folds like the key. *)
Fixpoint fieldByFoldedName {F : Type} (fields : list (string * F)) (key : string) : option F :=
  match fields with
  | [] => None
  | (name, f) :: rest =>
      if String.eqb (foldName name) (foldName key) then Some f
      else fieldByFoldedName rest key
  end.

Fixpoint fieldByExactName {F : Type} (fields : list (string * F)) (key : string) : option F :=
  match fields with
  | [] => None
  | (name, f) :: rest =>
      if String.eqb name key then Some f else fieldByExactName rest key
  end.

Definition fieldFor {F : Type} (fields : list (string * F)) (key : string) : option F :=
  match fieldByExactName fields key with
  | Some f => Some f
  | None => fieldByFoldedName fields key
  end.

(** Storing a JSON value in a [bool] field of a struct: [true] and
    [false] are stored, [null] leaves the bool as it is, anything else is
    a type error that leaves it as it is. *)
Definition decodeBool (structName field : string) (v : value) (cur : bool)
  : bool * option error :=
  match v with
  | JBool b => (b, None)
  | JNull => (cur, None)
  | _ => (cur, Some (UnmarshalFieldTypeError v structName field "bool"))
  end.

End json.

(** ** Package filters: rules and matching *)

Module filters.
Import events.

Record ResourceTagFilter := {
  Filter_Name : string;
  Filter_Value : string
}.

(** [StatusID] is an [int32]; the engine only passes it on. *)
Record RuleAction := {
  StatusID : Z;
  Comment : string
}.

Record RuleFilters := {
  FindingTypes : list string;
  Filter_Severity : list string;
  ProductName : list string;
  ResourceTypes : list string;
  ResourceTags : list ResourceTagFilter;
  Accounts : list string;
  Regions : list string
}.

Record AutoCloseRule := {
  Name : string;
  Enabled : bool;
  Filters : RuleFilters;
  Action : RuleAction;
  SkipNotification : bool
}.

Definition zeroFilters : RuleFilters :=
  {| FindingTypes := []; Filter_Severity := []; ProductName := [];
     ResourceTypes := []; ResourceTags := []; Accounts := []; Regions := [] |}.

Definition zeroAction : RuleAction := {| StatusID := 0%Z; Comment := "" |}.

(** [AutoCloseRule{}], the value of [var rule AutoCloseRule] *)
Definition zeroRule : AutoCloseRule :=
  {| Name := ""; Enabled := false; Filters := zeroFilters;
     Action := zeroAction; SkipNotification := false |}.

Fixpoint contains (slice : list string) (item : string) : bool :=
  match slice with
  | [] => false
  | s :: rest => if String.eqb s item then true else contains rest item
  end.

(** The inner loop of [matchesFindingTypes]: one filter type against the
    finding's types. *)
Fixpoint findingTypesHave (findingTypes : list string) (filterType : string) : bool :=
  match findingTypes with
  | [] => false
  | findingType :: rest =>
      if String.eqb findingType filterType then true
      else findingTypesHave rest filterType
  end.

Fixpoint matchesFindingTypes_loop (findingTypes types : list string) : bool :=
  match types with
  | [] => false
  | filterType :: rest =>
      if findingTypesHave findingTypes filterType then true
      else matchesFindingTypes_loop findingTypes rest
  end.

Definition matchesFindingTypes (finding : SecurityHubV2Finding) (types : list string) : bool :=
  matchesFindingTypes_loop (Types (FindingInfo_ finding)) types.

(** The inner loop of [matchesResourceTypes]: one resource against the
    filter's types. *)
Fixpoint resourceTypeIn (resourceType : string) (types : list string) : bool :=
  match types with
  | [] => false
  | filterType :: rest =>
      if String.eqb resourceType filterType then true
      else resourceTypeIn resourceType rest
  end.

Fixpoint matchesResourceTypes_loop (resources : list OCSFResource) (types : list string) : bool :=
  match resources with
  | [] => false
  | resource :: rest =>
      if resourceTypeIn (Resource_Type resource) types then true
      else matchesResourceTypes_loop rest types
  end.

Definition matchesResourceTypes (finding : SecurityHubV2Finding) (types : list string) : bool :=
  matchesResourceTypes_loop (Resources finding) types.

(** The inner loop of [resourceHasAllTags]: sets [found] and breaks. *)
Fixpoint tagFound (resourceTags : list ResourceTag) (filterTag : ResourceTagFilter) : bool :=
  match resourceTags with
  | [] => false
  | tag :: rest =>
      if String.eqb (Tag_Name tag) (Filter_Name filterTag)
         && String.eqb (Tag_Value tag) (Filter_Value filterTag)
      then true
      else tagFound rest filterTag
  end.

Fixpoint resourceHasAllTags (resourceTags : list ResourceTag)
         (tagFilters : list ResourceTagFilter) : bool :=
  match tagFilters with
  | [] => true
  | filterTag :: rest =>
      if negb (tagFound resourceTags filterTag) then false
      else resourceHasAllTags resourceTags rest
  end.

Fixpoint matchesResourceTags_loop (resources : list OCSFResource)
         (tagFilters : list ResourceTagFilter) : bool :=
  match resources with
  | [] => false
  | resource :: rest =>
      if resourceHasAllTags (Tags resource) tagFilters then true
      else matchesResourceTags_loop rest tagFilters
  end.

Definition matchesResourceTags (finding : SecurityHubV2Finding)
           (tagFilters : list ResourceTagFilter) : bool :=
  if Nat.eqb (List.length (Resources finding)) 0 then false
  else matchesResourceTags_loop (Resources finding) tagFilters.

Definition nonEmpty {A : Type} (l : list A) : bool := Nat.ltb 0 (List.length l).

Definition matchesFilters (finding : SecurityHubV2Finding) (filters : RuleFilters) : bool :=
  if nonEmpty (FindingTypes filters) && negb (matchesFindingTypes finding (FindingTypes filters))
  then false
  else if nonEmpty (Filter_Severity filters)
          && negb (contains (Filter_Severity filters) (Severity finding))
  then false
  else if nonEmpty (ProductName filters)
          && negb (contains (ProductName filters) (Product_Name (Product (Metadata_ finding))))
  then false
  else if nonEmpty (ResourceTypes filters)
          && negb (matchesResourceTypes finding (ResourceTypes filters))
  then false
  else if nonEmpty (ResourceTags filters)
          && negb (matchesResourceTags finding (ResourceTags filters))
  then false
  else if nonEmpty (Accounts filters)
          && negb (contains (Accounts filters) (Account_UID (Cloud_Account (Cloud_ finding))))
  then false
  else if nonEmpty (Regions filters)
          && negb (contains (Regions filters) (Region (Cloud_ finding)))
  then false
  else true.

Record FilterEngine := { Rules : list AutoCloseRule }.

Definition NewFilterEngine (rules : list AutoCloseRule) : FilterEngine :=
  {| Rules := rules |}.

(** A [*AutoCloseRule] pointing into [e.Rules]: the index [i] of
    [&e.Rules[i]] together with the rule stored there. *)
Definition RulePtr : Type := nat * AutoCloseRule.

(** The [for i := range e.Rules] loop, from index [i] on. *)
Fixpoint FindMatchingRule_loop (i : nat) (rules : list AutoCloseRule)
         (finding : SecurityHubV2Finding) : option RulePtr * bool :=
  match rules with
  | [] => (None, false)
  | rule :: rest =>
      if negb (Enabled rule) then FindMatchingRule_loop (S i) rest finding
      else if matchesFilters finding (Filters rule) then (Some (i, rule), true)
      else FindMatchingRule_loop (S i) rest finding
  end.

Definition FindMatchingRule (e : FilterEngine) (finding : SecurityHubV2Finding)
  : option RulePtr * bool :=
  FindMatchingRule_loop 0 (Rules e) finding.

(** *** Decoding rules from JSON ([json.Unmarshal] at the rule types) *)

(** The parts of [encoding/json] the loader relies on and that do not
    depend on the rule types of this package: the scanner, which accepts
    the bytes of a JSON text or fails with a syntax error, and the
    decoders of the field types [string], [RuleFilters] and [RuleAction],
    each taking the JSON value and the field's current content. *)
Record Unmarshaler := {
  scan : list byte -> error + json.value;
  decodeString : json.value -> string -> string * option error;
  decodeRuleFilters : json.value -> RuleFilters -> RuleFilters * option error;
  decodeRuleAction : json.value -> RuleAction -> RuleAction * option error
}.

(** The fields of [AutoCloseRule] by their [json] tags. *)
Inductive ruleField : Type :=
| F_name | F_enabled | F_filters | F_action | F_skip_notification.

Definition ruleFields : list (string * ruleField) :=
  [ ("name", F_name); ("enabled", F_enabled); ("filters", F_filters);
    ("action", F_action); ("skip_notification", F_skip_notification) ].

(** One member of a JSON object stored in the rule: the key selects the
    field, an unknown key is skipped. *)
Definition decodeRuleMember (u : Unmarshaler) (rule : AutoCloseRule)
           (member : string * json.value) : AutoCloseRule * option error :=
  let (key, v) := member in
  match json.fieldFor ruleFields key with
  | None => (rule, None)
  | Some F_name =>
      let (x, err) := decodeString u v (Name rule) in
      ({| Name := x; Enabled := Enabled rule; Filters := Filters rule;
          Action := Action rule; SkipNotification := SkipNotification rule |}, err)
  | Some F_enabled =>
      let (x, err) := json.decodeBool "AutoCloseRule" "enabled" v (Enabled rule) in
      ({| Name := Name rule; Enabled := x; Filters := Filters rule;
          Action := Action rule; SkipNotification := SkipNotification rule |}, err)
  | Some F_filters =>
      let (x, err) := decodeRuleFilters u v (Filters rule) in
      ({| Name := Name rule; Enabled := Enabled rule; Filters := x;
          Action := Action rule; SkipNotification := SkipNotification rule |}, err)
  | Some F_action =>
      let (x, err) := decodeRuleAction u v (Action rule) in
      ({| Name := Name rule; Enabled := Enabled rule; Filters := Filters rule;
          Action := x; SkipNotification := SkipNotification rule |}, err)
  | Some F_skip_notification =>
      let (x, err) :=
        json.decodeBool "AutoCloseRule" "skip_notification" v (SkipNotification rule) in
      ({| Name := Name rule; Enabled := Enabled rule; Filters := Filters rule;
          Action := Action rule; SkipNotification := x |}, err)
  end.

(** The members of an object, in their order, each stored in the rule as
    the previous ones left it. *)
Fixpoint decodeRuleMembers (u : Unmarshaler) (members : list (string * json.value))
         (rule : AutoCloseRule) (saved : option error) : AutoCloseRule * option error :=
  match members with
  | [] => (rule, saved)
  | member :: rest =>
      let (rule', err) := decodeRuleMember u rule member in
      decodeRuleMembers u rest rule' (json.saveError saved err)
  end.

(** A JSON value stored in an [AutoCloseRule]. *)
Definition decodeAutoCloseRule (u : Unmarshaler) (v : json.value) (rule : AutoCloseRule)
  : AutoCloseRule * option error :=
  match v with
  | json.JObject members => decodeRuleMembers u members rule None
  | json.JNull => (rule, None)
  | _ => (rule, Some (json.UnmarshalTypeError v "filters.AutoCloseRule"))
  end.

(** The elements of a JSON array appended to a slice that starts [nil]:
    each element is decoded into a fresh zero rule. *)
Fixpoint decodeRuleElems (u : Unmarshaler) (elems : list json.value)
         (saved : option error) : list AutoCloseRule * option error :=
  match elems with
  | [] => ([], saved)
  | v :: rest =>
      let (rule, err) := decodeAutoCloseRule u v zeroRule in
      let (rules, saved') := decodeRuleElems u rest (json.saveError saved err) in
      (rule :: rules, saved')
  end.

(** A JSON value stored in [var rules []AutoCloseRule]. *)
Definition decodeAutoCloseRules (u : Unmarshaler) (v : json.value)
  : list AutoCloseRule * option error :=
  match v with
  | json.JArray elems => decodeRuleElems u elems None
  | json.JNull => ([], None)
  | _ => ([], Some (json.UnmarshalTypeError v "[]filters.AutoCloseRule"))
  end.

(** [json.Unmarshal(data, &rule)] with [var rule AutoCloseRule] *)
Definition Unmarshal_rule (u : Unmarshaler) (data : list byte) : AutoCloseRule * option error :=
  match scan u data with
  | inl err => (zeroRule, Some err)
  | inr v => decodeAutoCloseRule u v zeroRule
  end.

(** [json.Unmarshal(data, &rules)] with [var rules []AutoCloseRule] *)
Definition Unmarshal_rules (u : Unmarshaler) (data : list byte)
  : list AutoCloseRule * option error :=
  match scan u data with
  | inl err => ([], Some err)
  | inr v => decodeAutoCloseRules u v
  end.

(** *** The S3 rules loader *)

Definition parseRules (u : Unmarshaler) (data : list byte) : list AutoCloseRule * option error :=
  let data := strings.TrimSpace data in
  match data with
  | [] => ([], None)
  | first :: _ =>
      if Byte.eqb first x5b then
        match Unmarshal_rules u data with
        | (_, Some err) => ([], Some (Wrap err "failed to parse rules array"))
        | (rules, None) => (rules, None)
        end
      else
        match Unmarshal_rule u data with
        | (_, Some err) => ([], Some (Wrap err "failed to parse single rule"))
        | (rule, None) => ([rule], None)
        end
  end.

(** The [S3Client] interface as the loader uses it.  [ListPages bucket
    prefix] is the sequence of results of [paginator.NextPage], a page
    being the [Key] pointers of its [Contents]; [GetObject bucket key] is
    the error of the call or the result of [io.ReadAll] on the body. *)
Record S3Client := {
  ListPages : string -> string -> list (list (option string) * option error);
  GetObject : string -> string -> (list byte * option error) * option error
}.

Record S3RulesLoader := {
  client : S3Client;
  unmarshaler : Unmarshaler
}.

(** The [for _, obj := range page.Contents] loop. *)
Fixpoint pageKeys (contents : list (option string)) (keys : list string) : list string :=
  match contents with
  | [] => keys
  | Some key :: rest => pageKeys rest (keys ++ [key])
  | None :: rest => pageKeys rest keys
  end.

(** The [for paginator.HasMorePages()] loop. *)
Fixpoint listObjects_loop (pages : list (list (option string) * option error))
         (keys : list string) : list string * option error :=
  match pages with
  | [] => (keys, None)
  | (_, Some err) :: _ => ([], Some err)
  | (contents, None) :: rest => listObjects_loop rest (pageKeys contents keys)
  end.

Definition listObjects (l : S3RulesLoader) (bucket prefix : string)
  : list string * option error :=
  listObjects_loop (ListPages (client l) bucket prefix) [].

Definition loadRulesFromObject (l : S3RulesLoader) (bucket key : string)
  : list AutoCloseRule * option error :=
  match GetObject (client l) bucket key with
  | (_, Some err) => ([], Some err)
  | ((_, Some err), None) => ([], Some (Wrap err "failed to read object body"))
  | ((data, None), None) => parseRules (unmarshaler l) data
  end.

(** ["s3://%s/%s"] *)
Definition s3url (bucket path : string) : string := "s3://" ++ bucket ++ "/" ++ path.

(** The [for _, key := range keys] loop of [LoadRules]: [inl] is the
    [return nil, err] inside the loop. *)
Fixpoint LoadRules_loop (l : S3RulesLoader) (bucket : string) (keys : list string)
         (allRules : list AutoCloseRule) : error + list AutoCloseRule :=
  match keys with
  | [] => inr allRules
  | key :: rest =>
      if negb (strings.HasSuffix key ".json") then LoadRules_loop l bucket rest allRules
      else
        match loadRulesFromObject l bucket key with
        | (_, Some err) =>
            inl (Wrap err ("failed to load rules from " ++ s3url bucket key))
        | (rules, None) => LoadRules_loop l bucket rest (allRules ++ rules)
        end
  end.

Definition LoadRules (l : S3RulesLoader) (bucket prefix : string)
  : list AutoCloseRule * option error :=
  match listObjects l bucket prefix with
  | (_, Some err) => ([], Some (Wrap err "failed to list S3 objects"))
  | (keys, None) =>
      if Nat.eqb (List.length keys) 0
      then ([], Some (Newf ("no objects found in " ++ s3url bucket prefix)))
      else
        match LoadRules_loop l bucket keys [] with
        | inl err => ([], Some err)
        | inr allRules =>
            if Nat.eqb (List.length allRules) 0
            then ([], Some (Newf ("no rules loaded from " ++ s3url bucket prefix)))
            else (allRules, None)
        end
  end.

End filters.

(** ** Package actions *)

Module actions.
Import events.

Record UnprocessedFinding := {
  ErrorCode : string;
  ErrorMessage : option string
}.

Record BatchUpdateFindingsV2Input := {
  MetadataUids : list string;
  StatusId : Z;
  Input_Comment : string
}.

Record BatchUpdateFindingsV2Output := {
  UnprocessedFindings : list UnprocessedFinding
}.

(** The closer holds the Security Hub client; of the client only the one
    remote call matters. *)
Record FindingCloser := {
  BatchUpdateFindingsV2 : BatchUpdateFindingsV2Input
                          -> BatchUpdateFindingsV2Output * option error
}.

(** [aws.ToString] *)
Definition aws_ToString (p : option string) : string :=
  match p with
  | Some s => s
  | None => ""
  end.

Definition CloseFinding (c : FindingCloser) (finding : SecurityHubV2Finding)
           (statusID : Z) (comment : string) : option error :=
  let input := {| MetadataUids := [UID (Metadata_ finding)];
                  StatusId := statusID;
                  Input_Comment := comment |} in
  match BatchUpdateFindingsV2 c input with
  | (_, Some err) => Some (Wrap err "failed to update finding")
  | (output, None) =>
      match UnprocessedFindings output with
      | unprocessed :: _ =>
          Some (Newf ("failed to update finding " ++ UID (Metadata_ finding) ++ ": "
                      ++ ErrorCode unprocessed ++ " - "
                      ++ aws_ToString (ErrorMessage unprocessed)))
      | [] => None
      end
  end.

End actions.

(** ** Package notifiers *)

Module notifiers.
Import events.

(** The [Notifier] interface. *)
Record Notifier := {
  Notify : SecurityHubV2Finding -> option error
}.

End notifiers.

(** ** Package app *)

Module app.
Import events filters.

Record Config := {
  DebugEnabled : bool;
  AwsConsoleURL : string;
  AwsAccessPortalURL : string;
  AwsAccessRoleName : string;
  AWSSecurityHubv2Region : string;
  AutoCloseRules : list AutoCloseRule;
  AutoCloseRulesS3Bucket : string;
  AutoCloseRulesS3Prefix : string;
  SlackEnabled : bool;
  SlackToken : string;
  SlackChannel : string
}.

(** An application as [New] returns it: the settings, the engine and the
    closer are set, and so is the logger, which is left out.  [Notifier]
    is an interface value: [None] is [nil].  [pointers.AppPtr] below has
    the fields as the pointers they are. *)
Record App := {
  Config_ : Config;
  FilterEngine_ : FilterEngine;
  FindingCloser_ : actions.FindingCloser;
  Notifier_ : option notifiers.Notifier
}.

Record EventDetail := { Findings : list RawMessage }.

(** What [New] and [Process] take from outside the repository: the AWS
    configuration loader and the clients made from it, the Slack notifier
    made from the settings, and [json.Unmarshal] at the event and rule
    types. *)
Record Platform := {
  LoadDefaultConfig : option error;
  securityhub_NewFromConfig : actions.FindingCloser;
  s3_NewFromConfig : S3Client;
  NewSlackNotifier : string -> string -> string -> string -> string -> string
                     -> notifiers.Notifier;
  rulesUnmarshaler : Unmarshaler;
  Unmarshal_EventDetail : RawMessage -> EventDetail * option error;
  Unmarshal_Finding : RawMessage -> SecurityHubV2Finding * option error
}.

(** *** The calls a run makes *)

(** The invocations of the finding parser, of the matching engine, of the
    closer and of the notifier, with their arguments. *)
Inductive Call : Type :=
| CallNewSecurityHubFinding (raw : RawMessage)
| CallFindMatchingRule (finding : SecurityHubV2Finding)
| CallCloseFinding (finding : SecurityHubV2Finding) (statusID : Z) (comment : string)
| CallNotify (finding : SecurityHubV2Finding).

(** A computation that appends to the list of calls made so far. *)
Definition M (A : Type) : Type := list Call -> A * list Call.

Definition ret {A : Type} (x : A) : M A := fun calls => (x, calls).

Definition bind {A B : Type} (m : M A) (k : A -> M B) : M B :=
  fun calls => let (x, calls') := m calls in k x calls'.

Definition invoke (c : Call) : M unit := fun calls => (tt, calls ++ [c]).

Declare Scope app_scope.
Delimit Scope app_scope with app.
Notation "x <- m ;; k" := (bind m (fun x => k))
  (at level 61, m at next level, right associativity) : app_scope.
Notation "m ;; k" := (bind m (fun _ => k))
  (at level 61, right associativity) : app_scope.
Local Open Scope app_scope.

(** What a call of [Process] ends in: it returns an error value, [nil]
    being success, or it dereferences a [nil] pointer. *)
Inductive Outcome : Type :=
| Return (err : option error)
| Panic.

(** [events.NewSecurityHubFinding] *)
Definition NewSecurityHubFinding (p : Platform) (raw : RawMessage)
  : SecurityHubV2Finding * option error :=
  match Unmarshal_Finding p raw with
  | (_, Some err) => (zeroFinding, Some err)
  | (shf, None) => (shf, None)
  end.

(** [LoadRulesFromS3]: the loader's result, logged. *)
Definition LoadRulesFromS3 (loader : S3RulesLoader) (bucket prefix : string)
  : list AutoCloseRule * option error :=
  match LoadRules loader bucket prefix with
  | (_, Some err) => ([], Some err)
  | (rules, None) => (rules, None)
  end.

(** [New]: the pointer result is [None] when an error is returned. *)
Definition New (p : Platform) (cfg : Config) : option App * option error :=
  match LoadDefaultConfig p with
  | Some err =>
      (None, Some (Wrap err "failed to load aws config - check credentials and region"))
  | None =>
      let loaded : error + list AutoCloseRule :=
        if negb (String.eqb (AutoCloseRulesS3Bucket cfg) "") then
          let loader := {| client := s3_NewFromConfig p;
                           unmarshaler := rulesUnmarshaler p |} in
          match LoadRulesFromS3 loader (AutoCloseRulesS3Bucket cfg)
                                (AutoCloseRulesS3Prefix cfg) with
          | (_, Some err) =>
              inl (Wrap err ("failed to load rules from "
                             ++ s3url (AutoCloseRulesS3Bucket cfg) (AutoCloseRulesS3Prefix cfg)))
          | (s3Rules, None) =>
              if nonEmpty (AutoCloseRules cfg)
              then inr (AutoCloseRules cfg ++ s3Rules)
              else inr s3Rules
          end
        else inr (AutoCloseRules cfg) in
      match loaded with
      | inl err => (None, Some err)
      | inr rules =>
          (Some {| Config_ := cfg;
                   FilterEngine_ := NewFilterEngine rules;
                   FindingCloser_ := securityhub_NewFromConfig p;
                   Notifier_ :=
                     if SlackEnabled cfg
                     then Some (NewSlackNotifier p (SlackToken cfg) (SlackChannel cfg)
                                  (AwsConsoleURL cfg) (AwsAccessPortalURL cfg)
                                  (AwsAccessRoleName cfg) (AWSSecurityHubv2Region cfg))
                     else None |}, None)
      end
  end.

(** [ParseEvent]: the pointer result is [None] where the source returns
    [nil]. *)
Definition ParseEvent (p : Platform) (a : App) (e : SecurityHubEventInput)
  : M (option SecurityHubV2Finding * option error) :=
  if negb (String.eqb (DetailType e) "Findings Imported V2") then
    ret (None, Some (Newf ("unsupported event type: " ++ DetailType e
                           ++ " (expected 'Findings Imported V2')")))
  else
    match Unmarshal_EventDetail p (Detail e) with
    | (_, Some err) => ret (None, Some (Wrap err "failed to unmarshal event detail"))
    | (detail, None) =>
        match Findings detail with
        | [] => ret (None, Some (Newf ("event contains no findings (event_id: "
                                       ++ EventID e ++ ")")))
        | first :: _ =>
            invoke (CallNewSecurityHubFinding first) ;;
            let (shf, err) := NewSecurityHubFinding p first in
            ret (Some shf, err)
        end
    end.

Definition CloseFinding (a : App) (finding : SecurityHubV2Finding)
           (statusID : Z) (comment : string) : M (option error) :=
  invoke (CallCloseFinding finding statusID comment) ;;
  ret (actions.CloseFinding (FindingCloser_ a) finding statusID comment).

Definition SendNotification (a : App) (finding : SecurityHubV2Finding) : M Outcome :=
  match Notifier_ a with
  | None => ret Panic
  | Some n =>
      invoke (CallNotify finding) ;;
      ret (Return (notifiers.Notify n finding))
  end.

Definition isNil {A : Type} (x : option A) : bool :=
  match x with
  | None => true
  | Some _ => false
  end.

Definition Process (p : Platform) (a : App) (evt : SecurityHubEventInput) : M Outcome :=
  parsed <- ParseEvent p a evt ;;
  match parsed with
  | (_, Some err) => ret (Return (Some err))
  | (None, None) => ret Panic
  | (Some finding, None) =>
      invoke (CallFindMatchingRule finding) ;;
      match FindMatchingRule (FilterEngine_ a) finding with
      | (None, true) => ret Panic
      | (Some (_, matchedRule), true) =>
          err <- CloseFinding a finding (StatusID (Action matchedRule))
                              (Comment (Action matchedRule)) ;;
          match err with
          | Some err => ret (Return (Some (Wrap err "failed to auto-close finding")))
          | None =>
              if negb (SkipNotification matchedRule) && negb (isNil (Notifier_ a))
              then SendNotification a finding
              else ret (Return None)
          end
      | (_, false) =>
          if negb (isNil (Notifier_ a)) && IsAlertable finding
          then SendNotification a finding
          else ret (Return None)
      end
  end.

(** A run of [Process] from no calls made: the outcome and the calls in
    the order they were made. *)
Definition run (p : Platform) (a : App) (evt : SecurityHubEventInput)
  : Outcome * list Call :=
  Process p a evt [].

End app.

(** ** Presentation of a finding (package events, finding.go) *)

Module presentation.
Import events.

(** [strings.Contains] *)
Fixpoint strings_Contains (s substr : string) : bool :=
  if String.prefix substr s then true
  else
    match s with
    | EmptyString => false
    | String _ rest => strings_Contains rest substr
    end.

(** The body of the loop of [GetFindingCategory]: the category one
    finding type names, if it names one. *)
Definition categoryOfType (findingType : string) : option string :=
  if strings_Contains findingType "Threats" then Some "Threats"
  else if strings_Contains findingType "Posture Management" then Some "Posture Management"
  else if strings_Contains findingType "Exposure" then Some "Exposure"
  else if strings_Contains findingType "Vulnerabilities" then Some "Vulnerabilities"
  else if strings_Contains findingType "Sensitive data" then Some "Sensitive Data"
  else None.

Fixpoint GetFindingCategory_loop (types : list string) (CategoryName : string) : string :=
  match types with
  | [] => CategoryName
  | findingType :: rest =>
      match categoryOfType findingType with
      | Some category => category
      | None => GetFindingCategory_loop rest CategoryName
      end
  end.

(** [GetFindingCategory].  [CategoryName] is the finding's field of that
    name, which the decision engine does not read; it is passed beside
    the record. *)
Definition GetFindingCategory (shf : SecurityHubV2Finding) (CategoryName : string) : string :=
  if Nat.eqb (List.length (Types (FindingInfo_ shf))) 0 then CategoryName
  else GetFindingCategory_loop (Types (FindingInfo_ shf)) CategoryName.

(** The [switch] of [BuildConsoleUrl]: [view] stays empty for the other
    categories. *)
Definition viewOf (findingType : string) : string :=
  if String.eqb findingType "Exposure" then "exposure"
  else if String.eqb findingType "Posture Management" then "postureManagement"
  else if String.eqb findingType "Threats" then "threats"
  else if String.eqb findingType "Vulnerabilities" then "vulnerabilities"
  else "".

Definition isAlnum (c : ascii) : bool :=
  let n := nat_of_ascii c in
  (Nat.leb 97 n && Nat.leb n 122) || (Nat.leb 65 n && Nat.leb n 90)
  || (Nat.leb 48 n && Nat.leb n 57).

(** [shouldEscape] of [net/url] in the mode of a query component. *)
Definition shouldEscape (c : ascii) : bool :=
  if isAlnum c then false
  else if Ascii.eqb c "-" || Ascii.eqb c "_" || Ascii.eqb c "." || Ascii.eqb c "~"
  then false
  else true.

Definition upperhex (n : nat) : ascii :=
  match String.get n "0123456789ABCDEF" with
  | Some c => c
  | None => "0"%char
  end.

(** [url.QueryEscape] *)
Fixpoint url_QueryEscape (s : string) : string :=
  match s with
  | EmptyString => EmptyString
  | String c rest =>
      if shouldEscape c then
        if Ascii.eqb c " " then String "+" (url_QueryEscape rest)
        else String "%" (String (upperhex (nat_of_ascii c / 16))
                           (String (upperhex (nat_of_ascii c mod 16))
                              (url_QueryEscape rest)))
      else String c (url_QueryEscape rest)
  end.

(** The console address of the finding, before the access portal is
    considered: the [dst] of [BuildConsoleUrl]. *)
Definition consoleDestination (shf : SecurityHubV2Finding) (CategoryName : string)
           (consoleURL shRegion : string) : string :=
  let region := if String.eqb shRegion "" then Region (Cloud_ shf) else shRegion in
  let view := viewOf (GetFindingCategory shf CategoryName) in
  consoleURL ++ "/securityhub/v2/home?region=" ++ region ++ "#/" ++ view
             ++ "?findingDetailId=" ++ UID (Metadata_ shf).

Definition BuildConsoleUrl (shf : SecurityHubV2Finding) (CategoryName : string)
           (consoleURL accessPortalURL accessRoleName shRegion : string) : string :=
  let dst := consoleDestination shf CategoryName consoleURL shRegion in
  if negb (String.eqb accessPortalURL "") && negb (String.eqb accessRoleName "") then
    let dstEncoded := url_QueryEscape dst in
    accessPortalURL ++ "/#/console?account_id=" ++ Account_UID (Cloud_Account (Cloud_ shf))
                    ++ "&role_name=" ++ accessRoleName ++ "&destination=" ++ dstEncoded
  else dst.

End presentation.

(** ** Configuration (package app, config.go) *)

Module appconfig.
Import events filters app.

(** [strconv.ParseBool] *)
Definition ParseBool (str : string) : bool * option error :=
  if String.eqb str "1" || String.eqb str "t" || String.eqb str "T"
     || String.eqb str "true" || String.eqb str "TRUE" || String.eqb str "True"
  then (true, None)
  else if String.eqb str "0" || String.eqb str "f" || String.eqb str "F"
          || String.eqb str "false" || String.eqb str "FALSE" || String.eqb str "False"
  then (false, None)
  else (false, Some (Foreign "strconv.ParseBool: invalid syntax")).

(** Storing a JSON value in a Go [string]: a JSON string is stored,
    [null] leaves the string as it is, anything else is a type error. *)
Definition decodeGoString (v : json.value) (cur : string) : string * option error :=
  match v with
  | json.JString s => (s, None)
  | json.JNull => (cur, None)
  | _ => (cur, Some (json.UnmarshalTypeError v "string"))
  end.

(** [json.Unmarshal(data, &unescaped)] with [var unescaped string] *)
Definition Unmarshal_string (u : Unmarshaler) (data : list byte) : string * option error :=
  match scan u data with
  | inl err => ("", Some err)
  | inr v => decodeGoString v ""
  end.

(** [parseAutoCloseRules].  The last [Unmarshal] stores into the [rules]
    of the first attempt, which is still [nil] there: the first attempt
    stored nothing, its input being a JSON string. *)
Definition parseAutoCloseRules (u : Unmarshaler) (input : string)
  : list AutoCloseRule * option error :=
  match Unmarshal_rules u (list_byte_of_string input) with
  | (rules, None) => (rules, None)
  | (_, Some _) =>
      match Unmarshal_string u (list_byte_of_string input) with
      | (_, Some err) =>
          ([], Some (Wrap err "invalid JSON format - expected array or JSON-encoded string"))
      | (unescaped, None) =>
          match Unmarshal_rules u (list_byte_of_string unescaped) with
          | (_, Some err) => ([], Some (Wrap err "invalid JSON in encoded string"))
          | (rules, None) => (rules, None)
          end
      end
  end.

(** [NewConfig], [getenv] being [os.Getenv].  The pointer result is
    [None] when an error is returned. *)
Definition NewConfig (getenv : string -> string) (u : Unmarshaler)
  : option Config * option error :=
  let debugEnabled := fst (ParseBool (getenv "APP_DEBUG_ENABLED")) in
  let consoleURL :=
    if String.eqb (getenv "APP_AWS_CONSOLE_URL") "" then "https://console.aws.amazon.com"
    else getenv "APP_AWS_CONSOLE_URL" in
  let prefix :=
    if String.eqb (getenv "APP_AUTO_CLOSE_RULES_S3_PREFIX") "" then "rules/"
    else getenv "APP_AUTO_CLOSE_RULES_S3_PREFIX" in
  let token := getenv "APP_SLACK_TOKEN" in
  let channel := getenv "APP_SLACK_CHANNEL" in
  let rulesJSON := getenv "APP_AUTO_CLOSE_RULES" in
  let parsed : list AutoCloseRule * option error :=
    if negb (String.eqb rulesJSON "") then parseAutoCloseRules u rulesJSON
    else ([], None) in
  match parsed with
  | (_, Some err) => (None, Some (Wrap err "failed to parse APP_AUTO_CLOSE_RULES"))
  | (rules, None) =>
      if negb (String.eqb token "") && String.eqb channel "" then
        (None, Some (Newf "APP_SLACK_TOKEN requires APP_SLACK_CHANNEL"))
      else if String.eqb token "" && negb (String.eqb channel "") then
        (None, Some (Newf "APP_SLACK_CHANNEL requires APP_SLACK_TOKEN"))
      else
        (Some {| DebugEnabled := debugEnabled;
                 AwsConsoleURL := consoleURL;
                 AwsAccessPortalURL := getenv "APP_AWS_ACCESS_PORTAL_URL";
                 AwsAccessRoleName := getenv "APP_AWS_ACCESS_ROLE_NAME";
                 AWSSecurityHubv2Region := getenv "APP_AWS_SECURITYHUBV2_REGION";
                 AutoCloseRules := rules;
                 AutoCloseRulesS3Bucket := getenv "APP_AUTO_CLOSE_RULES_S3_BUCKET";
                 AutoCloseRulesS3Prefix := prefix;
                 SlackEnabled := negb (String.eqb token "") && negb (String.eqb channel "");
                 SlackToken := token;
                 SlackChannel := channel |}, None)
  end.

End appconfig.

(** ** The Lambda entry point (cmd/lambda) *)

Module lambda.
Import events filters app.

Record CloudWatchEvent := {
  ID : string;
  CloudWatch_DetailType : string;
  CloudWatch_Detail : RawMessage
}.

(** The package variables: whether [once] has run, [a] and [initErr]. *)
Record Globals := {
  onceDone : bool;
  a : option App;
  initErr : option error
}.

(** The variables when the process starts. *)
Definition start : Globals := {| onceDone := false; a := None; initErr := None |}.

(** The function given to [once.Do]. *)
Definition initialize (p : Platform) (getenv : string -> string) : Globals :=
  match appconfig.NewConfig getenv (rulesUnmarshaler p) with
  | (_, Some err) => {| onceDone := true; a := None; initErr := Some err |}
  | (None, None) => {| onceDone := true; a := None; initErr := None |}
  | (Some cfg, None) =>
      let (a', err) := New p cfg in
      {| onceDone := true; a := a'; initErr := err |}
  end.

(** [LambdaHandler]: the variables it leaves, what it returns and the
    calls it made. *)
Definition LambdaHandler (p : Platform) (getenv : string -> string) (g : Globals)
           (evt : CloudWatchEvent) : Globals * (Outcome * list Call) :=
  let g := if onceDone g then g else initialize p getenv in
  match initErr g with
  | Some err => (g, (Return (Some err), []))
  | None =>
      match a g with
      | None => (g, (Panic, []))
      | Some app =>
          let input := {| EventID := ID evt;
                          DetailType := CloudWatch_DetailType evt;
                          Detail := CloudWatch_Detail evt |} in
          (g, run p app input)
      end
  end.

(** An invocation: the event, and the platform and the environment as
    they are when it arrives, which may differ from one invocation to
    the next. *)
Record Invocation := {
  inv_platform : Platform;
  inv_getenv : string -> string;
  inv_event : CloudWatchEvent
}.

(** The handler invoked again and again in one process, the package
    variables passing from each invocation to the next. *)
Fixpoint serve (g : Globals) (invocations : list Invocation)
  : list (Outcome * list Call) :=
  match invocations with
  | [] => []
  | inv :: rest =>
      let (g', result) := LambdaHandler (inv_platform inv) (inv_getenv inv) g (inv_event inv) in
      result :: serve g' rest
  end.

End lambda.

(** ** [Process] with the pointers of [App] as pointers *)

Module pointers.
Import events filters app.
Local Open Scope app_scope.

(** [App] as the source declares it: [Config], [FilterEngine],
    [FindingCloser] and [Logger] are pointers and [Notifier] is an
    interface value, [None] being [nil].  A logger that is not [nil] is
    one made by [slog.New], whose methods return; what it writes is not
    modelled. *)
Record AppPtr := {
  Config : option app.Config;
  FilterEngine : option filters.FilterEngine;
  FindingCloser : option actions.FindingCloser;
  Notifier : option notifiers.Notifier;
  Logger : option unit
}.


(** A statement [a.Logger.Debug(...)], [Info] or [Error], followed by
    [k]: a method of a [nil] logger dereferences it.  The arguments of
    these statements are fields of the finding and of the matched rule,
    which are not [nil] where the statements stand. *)
Definition logging (a : AppPtr) (k : M Outcome) : M Outcome :=
  match Logger a with
  | None => ret Panic
  | Some _ => k
  end.

(** [if a.Config.DebugEnabled { a.Logger.Debug(...) }] followed by [k],
    [a.Config] being [cfg]. *)
Definition debugging (a : AppPtr) (cfg : app.Config) (k : M Outcome) : M Outcome :=
  if DebugEnabled cfg then logging a k else k.

(** [ParseEvent], which reads no field of [a]. *)
Definition ParseEvent (p : Platform) (e : SecurityHubEventInput)
  : M (option SecurityHubV2Finding * option error) :=
  if negb (String.eqb (DetailType e) "Findings Imported V2") then
    ret (None, Some (Newf ("unsupported event type: " ++ DetailType e
                           ++ " (expected 'Findings Imported V2')")))
  else
    match Unmarshal_EventDetail p (Detail e) with
    | (_, Some err) => ret (None, Some (Wrap err "failed to unmarshal event detail"))
    | (detail, None) =>
        match Findings detail with
        | [] => ret (None, Some (Newf ("event contains no findings (event_id: "
                                       ++ EventID e ++ ")")))
        | first :: _ =>
            invoke (CallNewSecurityHubFinding first) ;;
            let (shf, err) := NewSecurityHubFinding p first in
            ret (Some shf, err)
        end
    end.

(** [CloseFinding] followed by [k] on its result: the logging statement,
    then the call of the closer's method, which is entered with a [nil]
    receiver as well and dereferences it when it reads [c.client]. *)
Definition CloseFinding (a : AppPtr) (finding : SecurityHubV2Finding)
           (statusID : Z) (comment : string) (k : option error -> M Outcome) : M Outcome :=
  logging a
    (invoke (CallCloseFinding finding statusID comment) ;;
     match FindingCloser a with
     | None => ret Panic
     | Some c => k (actions.CloseFinding c finding statusID comment)
     end).

(** [SendNotification]: the logging statement, the call of the notifier,
    and the logging of its result. *)
Definition SendNotification (a : AppPtr) (finding : SecurityHubV2Finding) : M Outcome :=
  logging a
    match Notifier a with
    | None => ret Panic
    | Some n =>
        invoke (CallNotify finding) ;;
        logging a (ret (Return (notifiers.Notify n finding)))
    end.

(** [Process]: [a.Config] is read for the debugging flag, the engine's
    method is entered with a [nil] receiver as well and dereferences it
    when it reads [e.rules]. *)
Definition Process (p : Platform) (a : AppPtr) (evt : SecurityHubEventInput) : M Outcome :=
  parsed <- ParseEvent p evt ;;
  match parsed with
  | (_, Some err) => ret (Return (Some err))
  | (None, None) => ret Panic
  | (Some finding, None) =>
      match Config a with
      | None => ret Panic
      | Some cfg =>
          debugging a cfg
            (invoke (CallFindMatchingRule finding) ;;
             match FilterEngine a with
             | None => ret Panic
             | Some e =>
                 match FindMatchingRule e finding with
                 | (None, true) => ret Panic
                 | (Some (_, matchedRule), true) =>
                     debugging a cfg
                       (CloseFinding a finding (StatusID (Action matchedRule))
                          (Comment (Action matchedRule))
                          (fun err =>
                             match err with
                             | Some err =>
                                 ret (Return (Some (Wrap err "failed to auto-close finding")))
                             | None =>
                                 logging a
                                   (if negb (SkipNotification matchedRule)
                                       && negb (isNil (Notifier a))
                                    then SendNotification a finding
                                    else ret (Return None))
                             end))
                 | (_, false) =>
                     if negb (isNil (Notifier a)) && IsAlertable finding
                     then SendNotification a finding
                     else ret (Return None)
                 end
             end)
      end
  end.

Definition run (p : Platform) (a : AppPtr) (evt : SecurityHubEventInput)
  : Outcome * list Call :=
  Process p a evt [].

End pointers.

(** * Properties *)

Import events filters.

(** ** What the specification calls a satisfied category *)

Module Spec.

(** A resource carries a required tag when one of its tags has that name
    and that value. *)
Definition carries (r : OCSFResource) (t : ResourceTagFilter) : Prop :=
  exists tag, In tag (Tags r) /\ Tag_Name tag = Filter_Name t
              /\ Tag_Value tag = Filter_Value t.

Definition carriesAll (r : OCSFResource) (tagFilters : list ResourceTagFilter) : Prop :=
  forall t, In t tagFilters -> carries r t.

(** Finding types: some entry of the finding's type set is in the list. *)
Definition typesSatisfied (f : SecurityHubV2Finding) (types : list string) : Prop :=
  exists t, In t types /\ In t (Types (FindingInfo_ f)).

(** Resource types: some resource has a type in the list. *)
Definition resourceTypesSatisfied (f : SecurityHubV2Finding) (types : list string) : Prop :=
  exists r, In r (Resources f) /\ In (Resource_Type r) types.

(** Resource tags: one single resource carries every required pair. *)
Definition resourceTagsSatisfied (f : SecurityHubV2Finding)
           (tagFilters : list ResourceTagFilter) : Prop :=
  exists r, In r (Resources f) /\ carriesAll r tagFilters.

(** A byte sequence that is a sequence of white space runes, [sp2] and
    [sp3] telling the two- and three-byte ones. *)
Inductive runsOf (sp2 : byte -> byte -> bool) (sp3 : byte -> byte -> byte -> bool)
  : list byte -> Prop :=
| runs_nil : runsOf sp2 sp3 []
| runs_ascii c0 r : strings.asciiSpace c0 = true -> runsOf sp2 sp3 r ->
                    runsOf sp2 sp3 (c0 :: r)
| runs_two c0 c1 r : sp2 c0 c1 = true -> runsOf sp2 sp3 r ->
                     runsOf sp2 sp3 (c0 :: c1 :: r)
| runs_three c0 c1 c2 r : sp3 c0 c1 c2 = true -> runsOf sp2 sp3 r ->
                          runsOf sp2 sp3 (c0 :: c1 :: c2 :: r).

(** Content that is empty or white space only. *)
Definition whitespaceOnly (data : list byte) : Prop :=
  runsOf strings.isSpace2 strings.isSpace3 data.

(** The first byte after the leading white space, if there is one. *)
Definition firstNonSpace (data : list byte) : option byte :=
  hd_error (strings.TrimLeftSpace data).

(** The closer's and the notifier's invocations among the calls of a run. *)
Definition closeCalls (calls : list app.Call) : list app.Call :=
  filter (fun c => match c with app.CallCloseFinding _ _ _ => true | _ => false end) calls.

Definition notifyCalls (calls : list app.Call) : list app.Call :=
  filter (fun c => match c with app.CallNotify _ => true | _ => false end) calls.

(** A rule applies to a finding when it is enabled and its filters match. *)
Definition applies (f : SecurityHubV2Finding) (rule : AutoCloseRule) : Prop :=
  Enabled rule = true /\ matchesFilters f (Filters rule) = true.

(** The keys a page contributes: those of its objects that have one. *)
Definition presentKeys (contents : list (option string)) : list string :=
  flat_map (fun k => match k with Some key => [key] | None => [] end) contents.

(** A key the loader reads. *)
Definition isRuleKey (key : string) : bool := strings.HasSuffix key ".json".

(** A pointer into a rule sequence that follows [n] other rules. *)
Definition shifted (n : nat) (r : option RulePtr * bool) : option RulePtr * bool :=
  match r with
  | (Some (i, rule), matched) => (Some (n + i, rule), matched)
  | (None, matched) => (None, matched)
  end.

(** The rule a result of [FindMatchingRule] points at. *)
Definition pointee (r : option RulePtr * bool) : option AutoCloseRule :=
  match fst r with
  | Some (_, rule) => Some rule
  | None => None
  end.

(** [wide] asks no more of a finding than [narrow] in a category of
    alternatives: it is empty, or [narrow] is not and all its entries are
    in [wide]. *)
Definition widens {A : Type} (narrow wide : list A) : Prop :=
  wide = [] \/ (narrow <> [] /\ incl narrow wide).

(** A character [url.QueryEscape] can produce. *)
Definition queryChar (c : ascii) : bool :=
  presentation.isAlnum c
  || Ascii.eqb c "-" || Ascii.eqb c "_" || Ascii.eqb c "." || Ascii.eqb c "~"
  || Ascii.eqb c "+" || Ascii.eqb c "%".

Fixpoint allChars (f : ascii -> bool) (s : string) : bool :=
  match s with
  | EmptyString => true
  | String c rest => f c && allChars f rest
  end.

(** A byte that continues a UTF-8 sequence: 80 to BF. *)
Definition continuation (b : byte) : bool :=
  N.leb 128 (Byte.to_N b) && N.leb (Byte.to_N b) 191.

(** [sub] occurs in [s]. *)
Definition occursIn (sub s : string) : Prop :=
  exists before after, s = (before ++ sub ++ after)%string.

(** The words [GetFindingCategory] looks for in a finding type. *)
Definition categoryWords : list string :=
  ["Threats"; "Posture Management"; "Exposure"; "Vulnerabilities"; "Sensitive data"].

(** What an invocation of the Lambda handler does once the package
    variables are [g]. *)
Definition handled (p : app.Platform) (g : lambda.Globals) (evt : lambda.CloudWatchEvent)
  : app.Outcome * list app.Call :=
  match lambda.initErr g with
  | Some err => (app.Return (Some err), [])
  | None =>
      match lambda.a g with
      | Some application =>
          app.run p application
                  {| EventID := lambda.ID evt;
                     DetailType := lambda.CloudWatch_DetailType evt;
                     Detail := lambda.CloudWatch_Detail evt |}
      | None => (app.Panic, [])
      end
  end.



End Spec.

(** ** Concrete findings, rules and collaborators used in the examples *)

Module Samples.

Definition mkFinding (status severity account region : string) (types : list string)
           (product : string) (compliance : option OCSFCompliance)
           (resources : list OCSFResource) : SecurityHubV2Finding :=
  {| Cloud_ := {| Cloud_Account := {| Account_UID := account |}; Region := region |};
     Compliance := compliance;
     FindingInfo_ := {| Title := "sample"; Types := types |};
     Metadata_ := {| Product := {| Product_Name := product |}; UID := "finding-1" |};
     Resources := resources;
     Severity := severity;
     Status := status |}.

Definition mkResource (type : string) (tags : list ResourceTag) : OCSFResource :=
  {| Resource_Name := ""; Tags := tags; Resource_Type := type; Resource_UID := "res" |}.

Definition tag (n v : string) : ResourceTag := {| Tag_Name := n; Tag_Value := v |}.
Definition want (n v : string) : ResourceTagFilter := {| Filter_Name := n; Filter_Value := v |}.

(** Severity "High" in account 222222222222. *)
Definition highIn222 : SecurityHubV2Finding :=
  mkFinding "New" "High" "222222222222" "us-east-1" ["Execution:Runtime/NewBinaryExecuted"]
            "GuardDuty" None [].

(** Tag provider=a on one resource, team=b on another. *)
Definition splitTags : SecurityHubV2Finding :=
  mkFinding "New" "Low" "111111111111" "us-east-1" [] "GuardDuty" None
            [ mkResource "AWS::EC2::Instance" [tag "provider" "a"];
              mkResource "AWS::EC2::Instance" [tag "team" "b"] ].

(** Both tags on the second resource. *)
Definition joinedTags : SecurityHubV2Finding :=
  mkFinding "New" "Low" "111111111111" "us-east-1" [] "GuardDuty" None
            [ mkResource "AWS::EC2::Instance" [tag "provider" "a"];
              mkResource "AWS::EC2::Instance" [tag "team" "b"; tag "provider" "a"] ].

Definition bothTags : list ResourceTagFilter := [want "provider" "a"; want "team" "b"].

Definition highAnd111 : RuleFilters :=
  {| FindingTypes := []; Filter_Severity := ["High"]; ProductName := [];
     ResourceTypes := []; ResourceTags := []; Accounts := ["111111111111"];
     Regions := [] |}.

Definition onlyHigh : RuleFilters :=
  {| FindingTypes := []; Filter_Severity := ["High"]; ProductName := [];
     ResourceTypes := []; ResourceTags := []; Accounts := []; Regions := [] |}.

Definition mkRule (name : string) (enabled : bool) (f : RuleFilters) (status : Z)
           (skip : bool) : AutoCloseRule :=
  {| Name := name; Enabled := enabled; Filters := f;
     Action := {| StatusID := status; Comment := "Auto-closed" |};
     SkipNotification := skip |}.

(** A disabled rule, a rule that does not match [highIn222], and two
    enabled rules that both match it. *)
Definition fourRules : list AutoCloseRule :=
  [ mkRule "off" false zeroFilters 5%Z true;
    mkRule "other-account" true highAnd111 5%Z true;
    mkRule "first" true onlyHigh 5%Z true;
    mkRule "second" true zeroFilters 3%Z false ].

Definition allOff : list AutoCloseRule :=
  [ mkRule "off-1" false zeroFilters 5%Z true;
    mkRule "off-2" false onlyHigh 3%Z false ].

(** *** Collaborators *)

Definition closerOk : actions.FindingCloser :=
  {| actions.BatchUpdateFindingsV2 :=
       fun _ => ({| actions.UnprocessedFindings := [] |}, None) |}.

(** The remote call answers, leaving the finding unprocessed. *)
Definition closerUnprocessed : actions.FindingCloser :=
  {| actions.BatchUpdateFindingsV2 :=
       fun _ => ({| actions.UnprocessedFindings :=
                      [ {| actions.ErrorCode := "FindingNotFound";
                           actions.ErrorMessage := Some "no such finding" |} ] |}, None) |}.

Definition notifierOk : notifiers.Notifier := {| notifiers.Notify := fun _ => None |}.

Definition notifierDown : notifiers.Notifier :=
  {| notifiers.Notify := fun _ => Some (Foreign "slack: channel_not_found") |}.

Definition noS3 : S3Client :=
  {| ListPages := fun _ _ => [([], None)];
     GetObject := fun _ _ => (([], None), Some (Foreign "NoSuchKey")) |}.

(** A decoder of the field types that stores nothing. *)
Definition idleUnmarshaler : Unmarshaler :=
  {| scan := fun _ => inl (Foreign "json: syntax error");
     decodeString := fun _ cur => (cur, None);
     decodeRuleFilters := fun _ cur => (cur, None);
     decodeRuleAction := fun _ cur => (cur, None) |}.

(** A platform whose event decoder finds the given raw findings in every
    detail and whose finding decoder yields the given finding. *)
Definition platform (raws : list RawMessage) (finding : SecurityHubV2Finding)
  : app.Platform :=
  {| app.LoadDefaultConfig := None;
     app.securityhub_NewFromConfig := closerOk;
     app.s3_NewFromConfig := noS3;
     app.NewSlackNotifier := fun _ _ _ _ _ _ => notifierOk;
     app.rulesUnmarshaler := idleUnmarshaler;
     app.Unmarshal_EventDetail := fun _ => ({| app.Findings := raws |}, None);
     app.Unmarshal_Finding := fun _ => (finding, None) |}.

Definition config (rules : list AutoCloseRule) (bucket : string) (slack : bool)
  : app.Config :=
  {| app.DebugEnabled := false;
     app.AwsConsoleURL := "https://console.aws.amazon.com";
     app.AwsAccessPortalURL := "";
     app.AwsAccessRoleName := "";
     app.AWSSecurityHubv2Region := "";
     app.AutoCloseRules := rules;
     app.AutoCloseRulesS3Bucket := bucket;
     app.AutoCloseRulesS3Prefix := "rules/";
     app.SlackEnabled := slack;
     app.SlackToken := if slack then "xoxb" else "";
     app.SlackChannel := if slack then "C1" else "" |}.

Definition mkApp (rules : list AutoCloseRule) (closer : actions.FindingCloser)
           (notifier : option notifiers.Notifier) : app.App :=
  {| app.Config_ := config rules "" (negb (app.isNil notifier));
     app.FilterEngine_ := NewFilterEngine rules;
     app.FindingCloser_ := closer;
     app.Notifier_ := notifier |}.

(** *** Rule documents and buckets *)

(** The text with every apostrophe turned into a double quote. *)
Fixpoint dq (s : string) : string :=
  match s with
  | EmptyString => EmptyString
  | String c r =>
      String (if Ascii.eqb c "'"%char then ascii_of_nat 34 else c) (dq r)
  end.

Definition bytes (s : string) : list byte := list_byte_of_string (dq s).

Definition docSingle : list byte := bytes "{'name':'r1','enabled':true}".
Definition docArray : list byte := bytes "[{'name':'r2','enabled':true},{'name':'r3'}]".
Definition docEmptyArray : list byte := bytes "[]".
Definition docBroken : list byte := bytes "{invalid json".

Definition astSingle : json.value :=
  json.JObject [("name", json.JString "r1"); ("enabled", json.JBool true)].

Definition astArray : json.value :=
  json.JArray [ json.JObject [("name", json.JString "r2"); ("enabled", json.JBool true)];
                json.JObject [("name", json.JString "r3")] ].

Definition sameBytes (x y : list byte) : bool :=
  String.eqb (string_of_list_byte x) (string_of_list_byte y).

(** A scanner that knows the documents above and rejects the rest. *)
Definition scanSamples (data : list byte) : error + json.value :=
  if sameBytes data docSingle then inr astSingle
  else if sameBytes data docArray then inr astArray
  else if sameBytes data docEmptyArray then inr (json.JArray [])
  else inl (Foreign "json: syntax error").

Definition storeString (v : json.value) (cur : string) : string * option error :=
  match v with
  | json.JString s => (s, None)
  | json.JNull => (cur, None)
  | _ => (cur, Some (json.UnmarshalTypeError v "string"))
  end.

Definition storeObject {A : Type} (goType : string) (v : json.value) (cur : A)
  : A * option error :=
  match v with
  | json.JObject _ | json.JNull => (cur, None)
  | _ => (cur, Some (json.UnmarshalTypeError v goType))
  end.

Definition codec : Unmarshaler :=
  {| scan := scanSamples;
     decodeString := storeString;
     decodeRuleFilters := storeObject "filters.RuleFilters";
     decodeRuleAction := storeObject "filters.RuleAction" |}.

Fixpoint lookup (objects : list (string * list byte)) (key : string) : option (list byte) :=
  match objects with
  | [] => None
  | (k, body) :: rest => if String.eqb k key then Some body else lookup rest key
  end.

(** A bucket holding the given objects, listed in one page. *)
Definition bucketOf (objects : list (string * list byte)) : S3Client :=
  {| ListPages := fun _ _ => [(map (fun o => Some (fst o)) objects, None)];
     GetObject := fun _ key =>
       match lookup objects key with
       | Some body => ((body, None), None)
       | None => (([], None), Some (Foreign "NoSuchKey"))
       end |}.

Definition loaderOf (objects : list (string * list byte)) : S3RulesLoader :=
  {| client := bucketOf objects; unmarshaler := codec |}.

Definition r1 : AutoCloseRule :=
  {| Name := "r1"; Enabled := true; Filters := zeroFilters; Action := zeroAction;
     SkipNotification := false |}.
Definition r2 : AutoCloseRule :=
  {| Name := "r2"; Enabled := true; Filters := zeroFilters; Action := zeroAction;
     SkipNotification := false |}.
Definition r3 : AutoCloseRule :=
  {| Name := "r3"; Enabled := false; Filters := zeroFilters; Action := zeroAction;
     SkipNotification := false |}.

(** Space, NO-BREAK SPACE, line feed, EM SPACE. *)
Definition blanks : list byte := [x20; xc2; xa0; x0a; xe2; x80; x83].

(** A platform whose S3 bucket holds the given objects. *)
Definition s3Platform (objects : list (string * list byte)) : app.Platform :=
  {| app.LoadDefaultConfig := None;
     app.securityhub_NewFromConfig := closerOk;
     app.s3_NewFromConfig := bucketOf objects;
     app.NewSlackNotifier := fun _ _ _ _ _ _ => notifierOk;
     app.rulesUnmarshaler := codec;
     app.Unmarshal_EventDetail := fun _ => ({| app.Findings := [] |}, None);
     app.Unmarshal_Finding := fun _ => (zeroFinding, None) |}.

Definition rawFinding : RawMessage := [x7b; x7d].

Definition importedEvent : SecurityHubEventInput :=
  {| EventID := "evt-1"; DetailType := "Findings Imported V2"; Detail := [x7b; x7d] |}.

Definition otherEvent : SecurityHubEventInput :=
  {| EventID := "evt-2"; DetailType := "Something Else"; Detail := [x7b; x7d] |}.

(** A new binary executed on a GitHub Actions runner, and the rule that
    closes such findings without a notification. *)
Definition runnerFinding : SecurityHubV2Finding :=
  mkFinding "New" "High" "111111111111" "us-east-1"
            ["Execution:Runtime/NewBinaryExecuted"] "GuardDuty" None
            [mkResource "AWS::EC2::Instance" [tag "component-type" "github-action-runners"]].

Definition runnerRule : AutoCloseRule :=
  {| Name := "auto-close-github-runner-new-binaries";
     Enabled := true;
     Filters := {| FindingTypes := ["Execution:Runtime/NewBinaryExecuted"];
                   Filter_Severity := []; ProductName := []; ResourceTypes := [];
                   ResourceTags := [want "component-type" "github-action-runners"];
                   Accounts := []; Regions := [] |};
     Action := {| StatusID := 5%Z;
                  Comment := "Auto-closed: Expected behavior for GitHub Actions CI/CD runners" |};
     SkipNotification := true |}.

(** A rule that closes every finding and lets the notification go out. *)
Definition closeAll : AutoCloseRule := mkRule "close-all" true zeroFilters 5%Z false.

(** The same with the notification skipped. *)
Definition closeAllQuietly : AutoCloseRule := mkRule "close-quietly" true zeroFilters 5%Z true.

(** *** Settings *)

(** An environment with the given variables, the others unset. *)
Fixpoint envOf (vars : list (string * string)) (name : string) : string :=
  match vars with
  | [] => ""
  | (k, v) :: rest => if String.eqb k name then v else envOf rest name
  end.

(** The array of [docArray] as the text of a JSON string, and that text
    as a JSON string once more. *)
Definition encodedArray : string := "'[{\'name\':\'r2\',\'enabled\':true},{\'name\':\'r3\'}]'".
Definition twiceEncoded : string := "'\'[]\''".

(** A scanner that knows the documents above and the two strings. *)
Definition scanSettings (data : list byte) : error + json.value :=
  if sameBytes data (bytes encodedArray)
  then inr (json.JString (string_of_list_byte docArray))
  else if sameBytes data (bytes twiceEncoded)
  then inr (json.JString (dq "'[]'"))
  else if sameBytes data (bytes "'[]'")
  then inr (json.JString "[]")
  else scanSamples data.

Definition settingsCodec : Unmarshaler :=
  {| scan := scanSettings;
     decodeString := storeString;
     decodeRuleFilters := storeObject "filters.RuleFilters";
     decodeRuleAction := storeObject "filters.RuleAction" |}.

(** The platform of a process with rule objects in its bucket. *)
Definition lambdaPlatform (finding : SecurityHubV2Finding) : app.Platform :=
  {| app.LoadDefaultConfig := None;
     app.securityhub_NewFromConfig := closerOk;
     app.s3_NewFromConfig := bucketOf [("rules/a.json", docSingle)];
     app.NewSlackNotifier := fun _ _ _ _ _ _ => notifierOk;
     app.rulesUnmarshaler := settingsCodec;
     app.Unmarshal_EventDetail := fun _ => ({| app.Findings := [rawFinding] |}, None);
     app.Unmarshal_Finding := fun _ => (finding, None) |}.

(** A store that lists its keys in two pages, one object having no key,
    and the same store when the second page fails. *)
Definition twoPages : S3Client :=
  {| ListPages := fun _ _ => [ ([Some "rules/a.json"; None; Some "rules/b.txt"], None);
                               ([Some "rules/c.json"], None) ];
     GetObject := fun _ _ => (([], None), Some (Foreign "NoSuchKey")) |}.

Definition secondPageFails : S3Client :=
  {| ListPages := fun _ _ => [ ([Some "rules/a.json"; None; Some "rules/b.txt"], None);
                               ([], Some (Foreign "AccessDenied"));
                               ([Some "rules/c.json"], None) ];
     GetObject := fun _ _ => (([], None), Some (Foreign "NoSuchKey")) |}.

(** A platform whose finding decoder fails, and one whose detail
    decoder fails. *)
Definition findingBroken : app.Platform :=
  {| app.LoadDefaultConfig := None;
     app.securityhub_NewFromConfig := closerOk;
     app.s3_NewFromConfig := noS3;
     app.NewSlackNotifier := fun _ _ _ _ _ _ => notifierOk;
     app.rulesUnmarshaler := idleUnmarshaler;
     app.Unmarshal_EventDetail := fun _ => ({| app.Findings := [rawFinding] |}, None);
     app.Unmarshal_Finding := fun _ => (zeroFinding, Some (Foreign "json: syntax error")) |}.

Definition detailBroken : app.Platform :=
  {| app.LoadDefaultConfig := None;
     app.securityhub_NewFromConfig := closerOk;
     app.s3_NewFromConfig := noS3;
     app.NewSlackNotifier := fun _ _ _ _ _ _ => notifierOk;
     app.rulesUnmarshaler := idleUnmarshaler;
     app.Unmarshal_EventDetail :=
       fun _ => ({| app.Findings := [rawFinding] |}, Some (Foreign "json: syntax error"));
     app.Unmarshal_Finding := fun _ => (highIn222, None) |}.

(** Settings with a bucket and no Slack, and with a token but no
    channel. *)
Definition bucketEnv : string -> string :=
  envOf [("APP_AUTO_CLOSE_RULES_S3_BUCKET", "b"); ("APP_DEBUG_ENABLED", "TRUE")].

Definition tokenOnlyEnv : string -> string :=
  envOf [("APP_SLACK_TOKEN", "xoxb-1")].

Definition cloudWatchEvent (id : string) : lambda.CloudWatchEvent :=
  {| lambda.ID := id;
     lambda.CloudWatch_DetailType := "Findings Imported V2";
     lambda.CloudWatch_Detail := [x7b; x7d] |}.

(** An invocation that finds the given platform and environment. *)
Definition invocation (p : app.Platform) (getenv : string -> string) (id : string)
  : lambda.Invocation :=
  {| lambda.inv_platform := p;
     lambda.inv_getenv := getenv;
     lambda.inv_event := cloudWatchEvent id |}.



End Samples.

(** ** Proofs *)

(** *** Matching *)

Section Matching.

Variable finding : SecurityHubV2Finding.

Lemma contains_In (slice : list string) (item : string) :
  contains slice item = true <-> In item slice.
Proof.
  induction slice as [|s rest IH]; simpl.
  - split; [discriminate | tauto].
  - destruct (String.eqb s item) eqn:E.
    + apply String.eqb_eq in E. subst. tauto.
    + apply String.eqb_neq in E. rewrite IH. split; [tauto|].
      intros [H|H]; [congruence | exact H].
Qed.

Lemma findingTypesHave_In (findingTypes : list string) (filterType : string) :
  findingTypesHave findingTypes filterType = true <-> In filterType findingTypes.
Proof.
  induction findingTypes as [|t rest IH]; simpl.
  - split; [discriminate | tauto].
  - destruct (String.eqb t filterType) eqn:E.
    + apply String.eqb_eq in E. subst. tauto.
    + apply String.eqb_neq in E. rewrite IH. split; [tauto|].
      intros [H|H]; [congruence | exact H].
Qed.

Lemma matchesFindingTypes_spec (types : list string) :
  matchesFindingTypes finding types = true <-> Spec.typesSatisfied finding types.
Proof.
  unfold matchesFindingTypes, Spec.typesSatisfied.
  induction types as [|t rest IH]; simpl.
  - split; [discriminate | intros (t & [] & _)].
  - destruct (findingTypesHave _ t) eqn:E.
    + apply findingTypesHave_In in E. split; [|reflexivity].
      intros _. exists t. tauto.
    + rewrite IH. split.
      * intros (t' & Hin & Hf). exists t'. tauto.
      * intros (t' & [Heq|Hin] & Hf).
        -- subst t'. apply findingTypesHave_In in Hf. congruence.
        -- exists t'. tauto.
Qed.

Lemma resourceTypeIn_In (resourceType : string) (types : list string) :
  resourceTypeIn resourceType types = true <-> In resourceType types.
Proof.
  induction types as [|t rest IH]; simpl.
  - split; [discriminate | tauto].
  - destruct (String.eqb resourceType t) eqn:E.
    + apply String.eqb_eq in E. subst. tauto.
    + apply String.eqb_neq in E. rewrite IH. split; [tauto|].
      intros [H|H]; [congruence | exact H].
Qed.

Lemma matchesResourceTypes_loop_spec (resources : list OCSFResource) (types : list string) :
  matchesResourceTypes_loop resources types = true
  <-> exists r, In r resources /\ In (Resource_Type r) types.
Proof.
  induction resources as [|r rest IH]; simpl.
  - split; [discriminate | intros (r & [] & _)].
  - destruct (resourceTypeIn _ types) eqn:E.
    + apply resourceTypeIn_In in E. split; [|reflexivity].
      intros _. exists r. tauto.
    + rewrite IH. split.
      * intros (r' & Hin & Ht). exists r'. tauto.
      * intros (r' & [Heq|Hin] & Ht).
        -- subst r'. apply resourceTypeIn_In in Ht. congruence.
        -- exists r'. tauto.
Qed.

Lemma tagFound_spec (r : OCSFResource) (t : ResourceTagFilter) :
  tagFound (Tags r) t = true <-> Spec.carries r t.
Proof.
  unfold Spec.carries. induction (Tags r) as [|tg rest IH]; simpl.
  - split; [discriminate | intros (tg & [] & _)].
  - destruct (String.eqb (Tag_Name tg) (Filter_Name t)
              && String.eqb (Tag_Value tg) (Filter_Value t)) eqn:E.
    + apply andb_true_iff in E. destruct E as [E1 E2].
      apply String.eqb_eq in E1, E2. split; [|reflexivity].
      intros _. exists tg. tauto.
    + rewrite IH. split.
      * intros (tg' & Hin & Hn). exists tg'. tauto.
      * intros (tg' & [Heq|Hin] & Hn & Hv).
        -- subst tg'. rewrite <- Hn, <- Hv, !String.eqb_refl in E. discriminate.
        -- exists tg'. tauto.
Qed.

Lemma resourceHasAllTags_spec (r : OCSFResource) (tagFilters : list ResourceTagFilter) :
  resourceHasAllTags (Tags r) tagFilters = true <-> Spec.carriesAll r tagFilters.
Proof.
  unfold Spec.carriesAll. induction tagFilters as [|t rest IH]; simpl.
  - split; [intros _ t [] | reflexivity].
  - destruct (tagFound (Tags r) t) eqn:E; simpl.
    + apply tagFound_spec in E. rewrite IH. split.
      * intros H t' [Heq|Hin]; [subst; exact E | auto].
      * intros H t' Hin. auto.
    + split; [discriminate|]. intros H.
      assert (Hc : Spec.carries r t) by (apply H; left; reflexivity).
      apply tagFound_spec in Hc. congruence.
Qed.

Lemma matchesResourceTags_loop_spec (resources : list OCSFResource)
      (tagFilters : list ResourceTagFilter) :
  matchesResourceTags_loop resources tagFilters = true
  <-> exists r, In r resources /\ Spec.carriesAll r tagFilters.
Proof.
  induction resources as [|r rest IH]; simpl.
  - split; [discriminate | intros (r & [] & _)].
  - destruct (resourceHasAllTags (Tags r) tagFilters) eqn:E.
    + apply resourceHasAllTags_spec in E. split; [|reflexivity].
      intros _. exists r. tauto.
    + rewrite IH. split.
      * intros (r' & Hin & Hc). exists r'. tauto.
      * intros (r' & [Heq|Hin] & Hc).
        -- subst r'. apply resourceHasAllTags_spec in Hc. congruence.
        -- exists r'. tauto.
Qed.

Lemma matchesResourceTags_spec (tagFilters : list ResourceTagFilter) :
  matchesResourceTags finding tagFilters = true
  <-> Spec.resourceTagsSatisfied finding tagFilters.
Proof.
  unfold matchesResourceTags, Spec.resourceTagsSatisfied.
  destruct (Resources finding) as [|r rest] eqn:E.
  - simpl. split; [discriminate | intros (r & [] & _)].
  - change (Nat.eqb (List.length (r :: rest)) 0) with false. cbv iota.
    apply matchesResourceTags_loop_spec.
Qed.

Lemma nonEmpty_false {A : Type} (l : list A) : nonEmpty l = false <-> l = [].
Proof. destruct l; unfold nonEmpty, Nat.ltb; simpl; split; intros H; congruence. Qed.

(** A category test of [matchesFilters] lets the finding through exactly
    when the list is empty or the category holds. *)
Lemma guard_false {A : Type} (l : list A) (b : bool) (P : Prop) :
  (b = true <-> P) ->
  (nonEmpty l && negb b = false <-> (l <> [] -> P)).
Proof.
  intros Hb. destruct l as [|x l]; unfold nonEmpty, Nat.ltb; simpl.
  - split; [intros _ H; congruence | reflexivity].
  - destruct b; simpl.
    + split; [intros _ _; apply Hb; reflexivity | reflexivity].
    + split; [discriminate|]. intros H.
      assert (HP : P) by (apply H; discriminate).
      apply Hb in HP. discriminate.
Qed.

End Matching.

Lemma matchesFilters_guards (finding : SecurityHubV2Finding) (filters : RuleFilters) :
  matchesFilters finding filters = true <->
  nonEmpty (FindingTypes filters)
    && negb (matchesFindingTypes finding (FindingTypes filters)) = false
  /\ nonEmpty (Filter_Severity filters)
       && negb (contains (Filter_Severity filters) (Severity finding)) = false
  /\ nonEmpty (ProductName filters)
       && negb (contains (ProductName filters)
                         (Product_Name (Product (Metadata_ finding)))) = false
  /\ nonEmpty (ResourceTypes filters)
       && negb (matchesResourceTypes finding (ResourceTypes filters)) = false
  /\ nonEmpty (ResourceTags filters)
       && negb (matchesResourceTags finding (ResourceTags filters)) = false
  /\ nonEmpty (Accounts filters)
       && negb (contains (Accounts filters)
                         (Account_UID (Cloud_Account (Cloud_ finding)))) = false
  /\ nonEmpty (Regions filters)
       && negb (contains (Regions filters) (Region (Cloud_ finding))) = false.
Proof.
  unfold matchesFilters.
  repeat match goal with
         | |- context [if ?g then false else _] => destruct g
         end;
    split; intros H; try discriminate; try reflexivity; repeat split;
    repeat match goal with
           | H : _ /\ _ |- _ => destruct H
           end; congruence.
Qed.

(** C2: [matchesFilters] is the conjunction of the seven categories, an
    empty category holding of every finding; filters with every category
    empty match every finding; filters on severity "High" and account
    "111111111111" reject a "High" finding of account "222222222222",
    which satisfies the severity category alone. *)
Theorem matchesFilters_is_conjunction :
  forall (finding : SecurityHubV2Finding) (filters : RuleFilters),
    (matchesFilters finding filters = true <->
       (FindingTypes filters <> [] -> Spec.typesSatisfied finding (FindingTypes filters))
       /\ (Filter_Severity filters <> [] -> In (Severity finding) (Filter_Severity filters))
       /\ (ProductName filters <> [] ->
           In (Product_Name (Product (Metadata_ finding))) (ProductName filters))
       /\ (ResourceTypes filters <> [] ->
           Spec.resourceTypesSatisfied finding (ResourceTypes filters))
       /\ (ResourceTags filters <> [] ->
           Spec.resourceTagsSatisfied finding (ResourceTags filters))
       /\ (Accounts filters <> [] ->
           In (Account_UID (Cloud_Account (Cloud_ finding))) (Accounts filters))
       /\ (Regions filters <> [] -> In (Region (Cloud_ finding)) (Regions filters)))
    /\ (FindingTypes filters = [] -> Filter_Severity filters = [] ->
        ProductName filters = [] -> ResourceTypes filters = [] ->
        ResourceTags filters = [] -> Accounts filters = [] -> Regions filters = [] ->
        matchesFilters finding filters = true)
    /\ matchesFilters finding zeroFilters = true
    /\ (In (Severity Samples.highIn222) (Filter_Severity Samples.highAnd111)
        /\ matchesFilters Samples.highIn222 Samples.highAnd111 = false).
Proof.
  intros finding filters.
  assert (Hiff : matchesFilters finding filters = true <->
       (FindingTypes filters <> [] -> Spec.typesSatisfied finding (FindingTypes filters))
       /\ (Filter_Severity filters <> [] -> In (Severity finding) (Filter_Severity filters))
       /\ (ProductName filters <> [] ->
           In (Product_Name (Product (Metadata_ finding))) (ProductName filters))
       /\ (ResourceTypes filters <> [] ->
           Spec.resourceTypesSatisfied finding (ResourceTypes filters))
       /\ (ResourceTags filters <> [] ->
           Spec.resourceTagsSatisfied finding (ResourceTags filters))
       /\ (Accounts filters <> [] ->
           In (Account_UID (Cloud_Account (Cloud_ finding))) (Accounts filters))
       /\ (Regions filters <> [] -> In (Region (Cloud_ finding)) (Regions filters))).
  { rewrite matchesFilters_guards.
    rewrite (guard_false (FindingTypes filters) _ _
               (matchesFindingTypes_spec finding (FindingTypes filters))).
    rewrite (guard_false (Filter_Severity filters) _ _
               (contains_In (Filter_Severity filters) (Severity finding))).
    rewrite (guard_false (ProductName filters) _ _
               (contains_In (ProductName filters) _)).
    rewrite (guard_false (ResourceTypes filters) _ _
               (matchesResourceTypes_loop_spec (Resources finding) (ResourceTypes filters))).
    rewrite (guard_false (ResourceTags filters) _ _
               (matchesResourceTags_spec finding (ResourceTags filters))).
    rewrite (guard_false (Accounts filters) _ _ (contains_In (Accounts filters) _)).
    rewrite (guard_false (Regions filters) _ _ (contains_In (Regions filters) _)).
    reflexivity. }
  split; [exact Hiff|]. split; [|split].
  - intros H1 H2 H3 H4 H5 H6 H7. apply Hiff.
    repeat split; intros Hne; congruence.
  - reflexivity.
  - split; [left; reflexivity | reflexivity].
Qed.

(** Every category of [Samples.onlyHigh] but severity is empty, and
    [Samples.highIn222] has severity "High". *)
Lemma matchesFilters_is_conjunction_witness :
  matchesFilters Samples.highIn222 Samples.onlyHigh = true
  /\ matchesFilters Samples.splitTags zeroFilters = true.
Proof.
  split.
  - apply (proj1 (matchesFilters_is_conjunction Samples.highIn222 Samples.onlyHigh)).
    repeat split; simpl; intros H; try (exfalso; apply H; reflexivity).
    left; reflexivity.
  - apply (proj1 (proj2 (matchesFilters_is_conjunction Samples.splitTags zeroFilters)));
      reflexivity.
Defined.

(** C3: the resource-tags category holds exactly when one single resource
    of the finding carries every required pair; it fails when each
    required pair is carried by some resource but no resource carries
    them all, and when the finding has no resource. *)
Theorem matchesResourceTags_single_resource :
  forall (finding : SecurityHubV2Finding) (tagFilters : list ResourceTagFilter),
    (matchesResourceTags finding tagFilters = true <->
       exists r, In r (Resources finding) /\ Spec.carriesAll r tagFilters)
    /\ ((forall t, In t tagFilters -> exists r, In r (Resources finding) /\ Spec.carries r t) ->
        (forall r, In r (Resources finding) -> ~ Spec.carriesAll r tagFilters) ->
        matchesResourceTags finding tagFilters = false)
    /\ (Resources finding = [] -> matchesResourceTags finding tagFilters = false)
    /\ matchesResourceTags Samples.splitTags Samples.bothTags = false.
Proof.
  intros finding tagFilters.
  pose proof (matchesResourceTags_spec finding tagFilters) as Hiff.
  unfold Spec.resourceTagsSatisfied in Hiff.
  split; [exact Hiff|]. split; [|split].
  - intros _ Hnone. destruct (matchesResourceTags finding tagFilters) eqn:E; [|reflexivity].
    destruct (proj1 Hiff eq_refl) as (r & Hin & Hall).
    exfalso. exact (Hnone r Hin Hall).
  - intros Hnil. unfold matchesResourceTags. rewrite Hnil. reflexivity.
  - reflexivity.
Qed.

(** In [Samples.joinedTags] the second resource carries both tags. *)
Lemma matchesResourceTags_single_resource_witness :
  matchesResourceTags Samples.joinedTags Samples.bothTags = true
  /\ matchesResourceTags Samples.splitTags Samples.bothTags = false.
Proof.
  split.
  - apply (proj1 (matchesResourceTags_single_resource Samples.joinedTags Samples.bothTags)).
    exists (Samples.mkResource "AWS::EC2::Instance"
              [Samples.tag "team" "b"; Samples.tag "provider" "a"]).
    split; [right; left; reflexivity|].
    intros t [Ht|[Ht|[]]]; subst t.
    + exists (Samples.tag "provider" "a"). simpl. tauto.
    + exists (Samples.tag "team" "b"). simpl. tauto.
  - apply (proj1 (proj2 (matchesResourceTags_single_resource
                           Samples.splitTags Samples.bothTags))).
    + intros t [Ht|[Ht|[]]]; subst t.
      * exists (Samples.mkResource "AWS::EC2::Instance" [Samples.tag "provider" "a"]).
        split; [left; reflexivity|].
        exists (Samples.tag "provider" "a"). simpl. tauto.
      * exists (Samples.mkResource "AWS::EC2::Instance" [Samples.tag "team" "b"]).
        split; [right; left; reflexivity|].
        exists (Samples.tag "team" "b"). simpl. tauto.
    + intros r [Hr|[Hr|[]]] Hall; subst r.
      * destruct (Hall (Samples.want "team" "b")) as (tg & [Htg|[]] & Hn & _);
          [right; left; reflexivity|].
        subst tg. discriminate Hn.
      * destruct (Hall (Samples.want "provider" "a")) as (tg & [Htg|[]] & Hn & _);
          [left; reflexivity|].
        subst tg. discriminate Hn.
Defined.

(** *** First match wins *)

Section FirstMatch.

Variable finding : SecurityHubV2Finding.

Lemma loop_shape (rules : list AutoCloseRule) (i0 : nat) :
  (exists i rule, FindMatchingRule_loop i0 rules finding = (Some (i, rule), true))
  \/ FindMatchingRule_loop i0 rules finding = (None, false).
Proof.
  revert i0. induction rules as [|r rest IH]; intros i0; simpl.
  - right. reflexivity.
  - destruct (Enabled r); simpl; [|apply IH].
    destruct (matchesFilters finding (Filters r)); [|apply IH].
    left. exists i0, r. reflexivity.
Qed.

Lemma loop_some (rules : list AutoCloseRule) (i0 i : nat) (rule : AutoCloseRule) :
  FindMatchingRule_loop i0 rules finding = (Some (i, rule), true) <->
  exists k, i = i0 + k /\ nth_error rules k = Some rule /\ Spec.applies finding rule
            /\ forall j r, j < k -> nth_error rules j = Some r -> ~ Spec.applies finding r.
Proof.
  revert i0. induction rules as [|r rest IH]; intros i0; simpl.
  - split; [discriminate|]. intros (k & _ & Hk & _). destruct k; discriminate.
  - destruct (Enabled r && matchesFilters finding (Filters r)) eqn:E.
    + apply andb_true_iff in E. destruct E as [E1 E2]. rewrite E1, E2. simpl. split.
      * intros H. inversion H; subst. exists 0. rewrite Nat.add_0_r.
        split; [reflexivity|]. split; [reflexivity|]. split; [split; assumption|].
        intros j r' Hj. lia.
      * intros (k & Hi & Hk & Happ & Hmin). destruct k as [|k].
        -- simpl in Hk. inversion Hk; subst. rewrite Nat.add_0_r. reflexivity.
        -- exfalso. apply (Hmin 0 r); [lia | reflexivity | split; assumption].
    + assert (Hstep : (if negb (Enabled r) then FindMatchingRule_loop (S i0) rest finding
                       else if matchesFilters finding (Filters r) then (Some (i0, r), true)
                            else FindMatchingRule_loop (S i0) rest finding)
                      = FindMatchingRule_loop (S i0) rest finding).
      { destruct (Enabled r); simpl in *; [rewrite E|]; reflexivity. }
      rewrite Hstep, IH. split.
      * intros (k & Hi & Hk & Happ & Hmin). exists (S k).
        split; [lia|]. split; [exact Hk|]. split; [exact Happ|].
        intros j r' Hj Hnth [H1 H2]. destruct j as [|j].
        -- simpl in Hnth. inversion Hnth; subst. rewrite H1, H2 in E. discriminate.
        -- apply (Hmin j r'); [lia | exact Hnth | split; assumption].
      * intros (k & Hi & Hk & Happ & Hmin). destruct k as [|k].
        -- simpl in Hk. inversion Hk; subst. destruct Happ as [H1 H2].
           rewrite H1, H2 in E. discriminate.
        -- exists k. split; [lia|]. split; [exact Hk|]. split; [exact Happ|].
           intros j r' Hj Hnth. apply (Hmin (S j) r'); [lia | exact Hnth].
Qed.

Lemma loop_none (rules : list AutoCloseRule) (i0 : nat) :
  FindMatchingRule_loop i0 rules finding = (None, false) <->
  forall r, In r rules -> ~ Spec.applies finding r.
Proof.
  revert i0. induction rules as [|r rest IH]; intros i0; simpl.
  - split; [intros _ r [] | reflexivity].
  - destruct (Enabled r) eqn:E1; simpl.
    + destruct (matchesFilters finding (Filters r)) eqn:E2.
      * split; [discriminate|]. intros H. exfalso.
        apply (H r); [left; reflexivity | split; assumption].
      * rewrite IH. split.
        -- intros H r' [Heq|Hin]; [subst; intros [_ H2]; congruence | auto].
        -- intros H r' Hin. auto.
    + rewrite IH. split.
      * intros H r' [Heq|Hin]; [subst; intros [H1 _]; congruence | auto].
      * intros H r' Hin. auto.
Qed.

End FirstMatch.

(** C1: [FindMatchingRule] returns, with [matched = true], the rule of
    smallest index that is enabled and whose filters match the finding,
    and reports no match exactly when no enabled rule's filters match; it
    always returns one or the other.  So an empty rule sequence and one
    whose rules are all disabled never match, and a rule is not returned
    when an earlier rule applies. *)
Theorem FindMatchingRule_first_match :
  forall (e : FilterEngine) (finding : SecurityHubV2Finding),
    (forall i rule,
        FindMatchingRule e finding = (Some (i, rule), true) <->
        nth_error (Rules e) i = Some rule /\ Spec.applies finding rule
        /\ forall j r, j < i -> nth_error (Rules e) j = Some r -> ~ Spec.applies finding r)
    /\ (FindMatchingRule e finding = (None, false) <->
        forall r, In r (Rules e) -> ~ Spec.applies finding r)
    /\ ((exists i rule, FindMatchingRule e finding = (Some (i, rule), true))
        \/ FindMatchingRule e finding = (None, false))
    /\ (Rules e = [] -> FindMatchingRule e finding = (None, false))
    /\ ((forall r, In r (Rules e) -> Enabled r = false) ->
        FindMatchingRule e finding = (None, false))
    /\ (forall i j rule earlier,
           j < i -> nth_error (Rules e) j = Some earlier -> Spec.applies finding earlier ->
           FindMatchingRule e finding <> (Some (i, rule), true)).
Proof.
  intros e finding. unfold FindMatchingRule.
  assert (Hsome : forall i rule,
        FindMatchingRule_loop 0 (Rules e) finding = (Some (i, rule), true) <->
        nth_error (Rules e) i = Some rule /\ Spec.applies finding rule
        /\ forall j r, j < i -> nth_error (Rules e) j = Some r -> ~ Spec.applies finding r).
  { intros i rule. rewrite loop_some. split.
    - intros (k & Hi & H). simpl in Hi. subst k. exact H.
    - intros H. exists i. split; [reflexivity | exact H]. }
  split; [exact Hsome|]. split; [apply loop_none|]. split; [apply loop_shape|].
  split; [|split].
  - intros Hnil. rewrite Hnil. reflexivity.
  - intros Hoff. apply loop_none. intros r Hin [H1 _].
    rewrite (Hoff r Hin) in H1. discriminate.
  - intros i j rule earlier Hlt Hnth Happ Hret.
    apply Hsome in Hret. destruct Hret as (_ & _ & Hmin).
    exact (Hmin j earlier Hlt Hnth Happ).
Qed.

(** On [Samples.fourRules] the finding [Samples.highIn222] gets the rule
    at index 2: index 0 is disabled, index 1 asks for another account,
    and index 3, which matches too, comes later.  With every rule
    disabled nothing matches. *)
Lemma FindMatchingRule_first_match_witness :
  FindMatchingRule (NewFilterEngine Samples.fourRules) Samples.highIn222
  = (Some (2, Samples.mkRule "first" true Samples.onlyHigh 5%Z true), true)
  /\ Spec.applies Samples.highIn222 (Samples.mkRule "second" true zeroFilters 3%Z false)
  /\ FindMatchingRule (NewFilterEngine Samples.allOff) Samples.highIn222 = (None, false).
Proof.
  split; [|split].
  - apply (proj1 (FindMatchingRule_first_match
                    (NewFilterEngine Samples.fourRules) Samples.highIn222)).
    split; [reflexivity|]. split; [split; reflexivity|].
    intros j r Hj Hnth [H1 H2].
    destruct j as [|[|j]]; [| |lia]; simpl in Hnth; inversion Hnth; subst r;
      discriminate.
  - split; reflexivity.
  - apply (proj1 (proj2 (proj2 (proj2 (proj2 (FindMatchingRule_first_match
             (NewFilterEngine Samples.allOff) Samples.highIn222)))))).
    intros r [Hr|[Hr|[]]]; subst r; reflexivity.
Defined.

(** *** Alertability *)

Lemma slices_Contains_In (s : list string) (v : string) :
  slices_Contains s v = true <-> In v s.
Proof.
  induction s as [|x rest IH]; simpl.
  - split; [discriminate | tauto].
  - destruct (String.eqb v x) eqn:E.
    + apply String.eqb_eq in E. subst. tauto.
    + apply String.eqb_neq in E. rewrite IH. split; [tauto|].
      intros [H|H]; [congruence | exact H].
Qed.

(** C4: [IsAlertable] holds exactly when the status is "New" and either
    the compliance record is present with status "Fail" or the severity
    is one of Critical, High, Medium. *)
Theorem IsAlertable_iff :
  forall shf : SecurityHubV2Finding,
    IsAlertable shf = true <->
    Status shf = "New"
    /\ ((exists c, Compliance shf = Some c /\ Compliance_Status c = "Fail")
        \/ In (Severity shf) ["Critical"; "High"; "Medium"]).
Proof.
  intros shf. unfold IsAlertable.
  destruct (String.eqb (Status shf) "New") eqn:ES; simpl.
  - apply String.eqb_eq in ES.
    destruct (Compliance shf) as [c|] eqn:EC.
    + destruct (String.eqb (Compliance_Status c) "Fail") eqn:EF.
      * apply String.eqb_eq in EF. split; [|reflexivity].
        intros _. split; [exact ES|]. left. exists c. tauto.
      * apply String.eqb_neq in EF.
        rewrite (slices_Contains_In ["Critical"; "High"; "Medium"] (Severity shf)).
        split; [tauto|]. intros [_ [(c' & Hc & Hf)|H]]; [|exact H].
        inversion Hc; subst. contradiction.
    + rewrite (slices_Contains_In ["Critical"; "High"; "Medium"] (Severity shf)).
      split; [tauto|]. intros [_ [(c' & Hc & _)|H]]; [discriminate | exact H].
  - apply String.eqb_neq in ES. split; [discriminate | tauto].
Qed.

(** The four cases the specification lists. *)
Lemma IsAlertable_iff_witness :
  IsAlertable (Samples.mkFinding "New" "Medium" "1" "r" [] "p" None []) = true
  /\ IsAlertable (Samples.mkFinding "New" "Low" "1" "r" [] "p" None []) = false
  /\ IsAlertable (Samples.mkFinding "New" "Low" "1" "r" [] "p"
                    (Some {| Compliance_Status := "Fail" |}) []) = true
  /\ IsAlertable (Samples.mkFinding "Resolved" "Critical" "1" "r" [] "p" None []) = false.
Proof.
  split; [|split; [|split]].
  - apply (proj2 (IsAlertable_iff _)). simpl. tauto.
  - reflexivity.
  - apply (proj2 (IsAlertable_iff _)). simpl. split; [reflexivity|].
    left. eexists. split; reflexivity.
  - reflexivity.
Defined.

(** *** The pipeline *)

Section Pipeline.

Import app.

Variable p : Platform.
Variable a : App.
Variable evt : SecurityHubEventInput.

(** The event has the supported type and its first finding decodes. *)
Variable detail : EventDetail.
Variables (raw : RawMessage) (rest : list RawMessage).
Variable finding : SecurityHubV2Finding.

Hypothesis Htype : DetailType evt = "Findings Imported V2".
Hypothesis Hdetail : Unmarshal_EventDetail p (Detail evt) = (detail, None).
Hypothesis Hfirst : Findings detail = raw :: rest.
Hypothesis Hfinding : Unmarshal_Finding p raw = (finding, None).

Lemma ParseEvent_parsed (calls : list Call) :
  ParseEvent p a evt calls
  = ((Some finding, None), calls ++ [CallNewSecurityHubFinding raw]).
Proof.
  unfold ParseEvent. rewrite Htype. simpl. rewrite Hdetail, Hfirst.
  unfold bind, invoke, NewSecurityHubFinding. rewrite Hfinding. reflexivity.
Qed.

(** Once the finding is parsed, [Process] asks the engine and branches. *)
Lemma Process_parsed :
  run p a evt =
  let calls := [CallNewSecurityHubFinding raw; CallFindMatchingRule finding] in
  match FindMatchingRule (FilterEngine_ a) finding with
  | (None, true) => (Panic, calls)
  | (Some (_, matchedRule), true) =>
      let close := CallCloseFinding finding (StatusID (Action matchedRule))
                                    (Comment (Action matchedRule)) in
      match actions.CloseFinding (FindingCloser_ a) finding
              (StatusID (Action matchedRule)) (Comment (Action matchedRule)) with
      | Some err => (Return (Some (Wrap err "failed to auto-close finding")),
                     calls ++ [close])
      | None =>
          if negb (SkipNotification matchedRule) && negb (isNil (Notifier_ a))
          then SendNotification a finding (calls ++ [close])
          else (Return None, calls ++ [close])
      end
  | (_, false) =>
      if negb (isNil (Notifier_ a)) && IsAlertable finding
      then SendNotification a finding calls
      else (Return None, calls)
  end.
Proof.
  unfold run, Process, bind. rewrite ParseEvent_parsed. simpl.
  destruct (FindMatchingRule (FilterEngine_ a) finding) as [[[i rule]|] [|]];
    unfold CloseFinding, bind, invoke, ret; simpl;
    try destruct (actions.CloseFinding _ _ _ _);
    try destruct (negb (SkipNotification rule) && negb (isNil (Notifier_ a)));
    try destruct (negb (isNil (Notifier_ a)) && IsAlertable finding);
    reflexivity.
Qed.

Lemma SendNotification_some (n : notifiers.Notifier) (calls : list Call) :
  Notifier_ a = Some n ->
  SendNotification a finding calls
  = (Return (notifiers.Notify n finding), calls ++ [CallNotify finding]).
Proof. intros Hn. unfold SendNotification. rewrite Hn. reflexivity. Qed.

End Pipeline.

(** C5: when a rule matches the parsed finding, the closer is invoked,
    once, with the matched rule's status id and comment.  If the close
    fails, [Process] returns the error wrapped and the notifier is not
    invoked.  If it succeeds, the notifier is invoked exactly when the
    rule does not skip the notification and a notifier is configured, and
    what the notifier returns is what [Process] returns: a failure of the
    notifier is the error of [Process], after a close that was made and
    is followed by no other call. *)
Theorem Process_matched_closes_then_notifies :
  forall (p : app.Platform) (a : app.App) (evt : SecurityHubEventInput)
         (detail : app.EventDetail) (raw : RawMessage) (rest : list RawMessage)
         (finding : SecurityHubV2Finding) (i : nat) (rule : AutoCloseRule),
    DetailType evt = "Findings Imported V2" ->
    app.Unmarshal_EventDetail p (Detail evt) = (detail, None) ->
    app.Findings detail = raw :: rest ->
    app.Unmarshal_Finding p raw = (finding, None) ->
    FindMatchingRule (app.FilterEngine_ a) finding = (Some (i, rule), true) ->
    let statusID := StatusID (Action rule) in
    let comment := Comment (Action rule) in
    let close := app.CallCloseFinding finding statusID comment in
    let upToClose := [app.CallNewSecurityHubFinding raw; app.CallFindMatchingRule finding;
                      close] in
    let closed := actions.CloseFinding (app.FindingCloser_ a) finding statusID comment in
    Spec.closeCalls (snd (app.run p a evt)) = [close]
    /\ (forall err, closed = Some err ->
          app.run p a evt
          = (app.Return (Some (Wrap err "failed to auto-close finding")), upToClose)
          /\ Spec.notifyCalls (snd (app.run p a evt)) = [])
    /\ (closed = None ->
          (Spec.notifyCalls (snd (app.run p a evt)) = [app.CallNotify finding]
           <-> SkipNotification rule = false /\ app.Notifier_ a <> None)
          /\ (Spec.notifyCalls (snd (app.run p a evt)) = []
              <-> ~ (SkipNotification rule = false /\ app.Notifier_ a <> None))
          /\ (forall n, SkipNotification rule = false -> app.Notifier_ a = Some n ->
                app.run p a evt
                = (app.Return (notifiers.Notify n finding),
                   upToClose ++ [app.CallNotify finding]))
          /\ (SkipNotification rule = true \/ app.Notifier_ a = None ->
                app.run p a evt = (app.Return None, upToClose))).
Proof.
  intros p a evt detail raw rest finding i rule Htype Hdetail Hfirst Hfinding Hmatch
         statusID comment close upToClose closed.
  pose proof (Process_parsed p a evt detail raw rest finding
                Htype Hdetail Hfirst Hfinding) as Hrun.
  rewrite Hmatch in Hrun. cbv zeta in Hrun.
  fold statusID comment in Hrun. fold closed in Hrun. fold close in Hrun.
  destruct closed as [err|] eqn:Hclosed.
  - rewrite Hrun. simpl. split; [reflexivity|]. split.
    + intros err' Heq. inversion Heq; subst. split; reflexivity.
    + discriminate.
  - destruct (SkipNotification rule) eqn:Hskip; simpl in Hrun.
    + rewrite Hrun. simpl. split; [reflexivity|]. split; [discriminate|].
      intros _. split; [|split; [|split]].
      * split; [discriminate | intros [H _]; discriminate].
      * split; [intros _ [H _]; discriminate | reflexivity].
      * discriminate.
      * reflexivity.
    + destruct (app.Notifier_ a) as [n|] eqn:Hn; simpl in Hrun.
      * rewrite (SendNotification_some a finding n _ Hn) in Hrun.
        rewrite Hrun. simpl. split; [reflexivity|]. split; [discriminate|].
        intros _. split; [|split; [|split]].
        -- split; [intros _; split; [reflexivity | discriminate] | reflexivity].
        -- split; [discriminate | intros H; exfalso; apply H; split;
                                   [reflexivity | discriminate]].
        -- intros n' _ Heq. inversion Heq; subst. reflexivity.
        -- intros [H|H]; discriminate.
      * rewrite Hrun. simpl. split; [reflexivity|]. split; [discriminate|].
        intros _. split; [|split; [|split]].
        -- split; [discriminate | intros [_ H]; exfalso; apply H; reflexivity].
        -- split; [intros _ [_ H]; apply H; reflexivity | reflexivity].
        -- discriminate.
        -- reflexivity.
Qed.

(** With [Samples.closeAll] as the only rule: a closer that leaves the
    finding unprocessed makes [Process] fail before any notification; a
    closer that succeeds is followed by the notifier, whose failure is
    the result.  With [Samples.runnerRule], which skips the notification,
    the finding is closed with status 5 and the notifier is not invoked. *)
Lemma Process_matched_closes_then_notifies_witness :
  app.run (Samples.platform [Samples.rawFinding] Samples.highIn222)
          (Samples.mkApp [Samples.closeAll] Samples.closerUnprocessed
                         (Some Samples.notifierDown))
          Samples.importedEvent
  = (app.Return (Some (Wrap (Newf "failed to update finding finding-1: FindingNotFound - no such finding")
                            "failed to auto-close finding")),
     [app.CallNewSecurityHubFinding Samples.rawFinding;
      app.CallFindMatchingRule Samples.highIn222;
      app.CallCloseFinding Samples.highIn222 5%Z "Auto-closed"])
  /\ app.run (Samples.platform [Samples.rawFinding] Samples.highIn222)
             (Samples.mkApp [Samples.closeAll] Samples.closerOk
                            (Some Samples.notifierDown))
             Samples.importedEvent
     = (app.Return (Some (Foreign "slack: channel_not_found")),
        [app.CallNewSecurityHubFinding Samples.rawFinding;
         app.CallFindMatchingRule Samples.highIn222;
         app.CallCloseFinding Samples.highIn222 5%Z "Auto-closed";
         app.CallNotify Samples.highIn222])
  /\ app.run (Samples.platform [Samples.rawFinding] Samples.runnerFinding)
             (Samples.mkApp [Samples.runnerRule] Samples.closerOk
                            (Some Samples.notifierDown))
             Samples.importedEvent
     = (app.Return None,
        [app.CallNewSecurityHubFinding Samples.rawFinding;
         app.CallFindMatchingRule Samples.runnerFinding;
         app.CallCloseFinding Samples.runnerFinding 5%Z
           "Auto-closed: Expected behavior for GitHub Actions CI/CD runners"]).
Proof.
  split; [|split].
  - apply (proj1 (proj2 (Process_matched_closes_then_notifies
             (Samples.platform [Samples.rawFinding] Samples.highIn222)
             (Samples.mkApp [Samples.closeAll] Samples.closerUnprocessed
                            (Some Samples.notifierDown))
             Samples.importedEvent
             {| app.Findings := [Samples.rawFinding] |} Samples.rawFinding []
             Samples.highIn222 0 Samples.closeAll
             eq_refl eq_refl eq_refl eq_refl eq_refl)));
      reflexivity.
  - apply (proj1 (proj2 (proj2 (proj2 (proj2 (Process_matched_closes_then_notifies
             (Samples.platform [Samples.rawFinding] Samples.highIn222)
             (Samples.mkApp [Samples.closeAll] Samples.closerOk
                            (Some Samples.notifierDown))
             Samples.importedEvent
             {| app.Findings := [Samples.rawFinding] |} Samples.rawFinding []
             Samples.highIn222 0 Samples.closeAll
             eq_refl eq_refl eq_refl eq_refl eq_refl)) eq_refl)))
             Samples.notifierDown eq_refl eq_refl).
  - apply (proj2 (proj2 (proj2 (proj2 (proj2 (Process_matched_closes_then_notifies
             (Samples.platform [Samples.rawFinding] Samples.runnerFinding)
             (Samples.mkApp [Samples.runnerRule] Samples.closerOk
                            (Some Samples.notifierDown))
             Samples.importedEvent
             {| app.Findings := [Samples.rawFinding] |} Samples.rawFinding []
             Samples.runnerFinding 0 Samples.runnerRule
             eq_refl eq_refl eq_refl eq_refl eq_refl)) eq_refl)))).
    left. reflexivity.
Defined.

(** C6: when no rule matches the parsed finding, the closer is not
    invoked; the notifier is invoked, once, exactly when a notifier is
    configured and the finding is alertable, and its result is returned;
    otherwise neither collaborator is invoked and [Process] succeeds. *)
Theorem Process_unmatched_notifies_if_alertable :
  forall (p : app.Platform) (a : app.App) (evt : SecurityHubEventInput)
         (detail : app.EventDetail) (raw : RawMessage) (rest : list RawMessage)
         (finding : SecurityHubV2Finding),
    DetailType evt = "Findings Imported V2" ->
    app.Unmarshal_EventDetail p (Detail evt) = (detail, None) ->
    app.Findings detail = raw :: rest ->
    app.Unmarshal_Finding p raw = (finding, None) ->
    snd (FindMatchingRule (app.FilterEngine_ a) finding) = false ->
    let asked := [app.CallNewSecurityHubFinding raw; app.CallFindMatchingRule finding] in
    Spec.closeCalls (snd (app.run p a evt)) = []
    /\ (Spec.notifyCalls (snd (app.run p a evt)) = [app.CallNotify finding]
        <-> app.Notifier_ a <> None /\ IsAlertable finding = true)
    /\ (forall n, app.Notifier_ a = Some n -> IsAlertable finding = true ->
          app.run p a evt
          = (app.Return (notifiers.Notify n finding), asked ++ [app.CallNotify finding]))
    /\ (app.Notifier_ a = None \/ IsAlertable finding = false ->
          app.run p a evt = (app.Return None, asked)).
Proof.
  intros p a evt detail raw rest finding Htype Hdetail Hfirst Hfinding Hmatch asked.
  pose proof (Process_parsed p a evt detail raw rest finding
                Htype Hdetail Hfirst Hfinding) as Hrun.
  cbv zeta in Hrun. fold asked in Hrun.
  destruct (FindMatchingRule (app.FilterEngine_ a) finding) as [ptr matched].
  simpl in Hmatch. subst matched.
  assert (Hrun' : app.run p a evt =
                  if negb (app.isNil (app.Notifier_ a)) && IsAlertable finding
                  then app.SendNotification a finding asked
                  else (app.Return None, asked)).
  { rewrite Hrun. destruct ptr as [[i rule]|]; reflexivity. }
  clear Hrun. destruct (app.Notifier_ a) as [n|] eqn:Hn; simpl in Hrun'.
  - destruct (IsAlertable finding) eqn:Hal.
    + rewrite (SendNotification_some a finding n _ Hn) in Hrun'. rewrite Hrun'. simpl.
      split; [reflexivity|]. split; [|split].
      * split; [intros _; split; [discriminate | reflexivity] | reflexivity].
      * intros n' Heq _. inversion Heq; subst. reflexivity.
      * intros [H|H]; discriminate.
    + rewrite Hrun'. simpl. split; [reflexivity|]. split; [|split].
      * split; [discriminate | intros [_ H]; discriminate].
      * intros n' _ H. discriminate.
      * reflexivity.
  - rewrite Hrun'. simpl. split; [reflexivity|]. split; [|split].
    + split; [discriminate | intros [H _]; exfalso; apply H; reflexivity].
    + discriminate.
    + reflexivity.
Qed.

(** A "New", "High" finding, no rule, a notifier: one notification and
    no close.  A "New", "Low" finding without a compliance failure: no
    call to either. *)
Lemma Process_unmatched_notifies_if_alertable_witness :
  app.run (Samples.platform [Samples.rawFinding] Samples.highIn222)
          (Samples.mkApp [] Samples.closerOk (Some Samples.notifierOk))
          Samples.importedEvent
  = (app.Return None,
     [app.CallNewSecurityHubFinding Samples.rawFinding;
      app.CallFindMatchingRule Samples.highIn222;
      app.CallNotify Samples.highIn222])
  /\ app.run (Samples.platform [Samples.rawFinding] Samples.splitTags)
             (Samples.mkApp [] Samples.closerOk (Some Samples.notifierOk))
             Samples.importedEvent
     = (app.Return None,
        [app.CallNewSecurityHubFinding Samples.rawFinding;
         app.CallFindMatchingRule Samples.splitTags]).
Proof.
  split.
  - apply (proj1 (proj2 (proj2 (Process_unmatched_notifies_if_alertable
             (Samples.platform [Samples.rawFinding] Samples.highIn222)
             (Samples.mkApp [] Samples.closerOk (Some Samples.notifierOk))
             Samples.importedEvent
             {| app.Findings := [Samples.rawFinding] |} Samples.rawFinding []
             Samples.highIn222 eq_refl eq_refl eq_refl eq_refl eq_refl)))
             Samples.notifierOk eq_refl eq_refl).
  - apply (proj2 (proj2 (proj2 (Process_unmatched_notifies_if_alertable
             (Samples.platform [Samples.rawFinding] Samples.splitTags)
             (Samples.mkApp [] Samples.closerOk (Some Samples.notifierOk))
             Samples.importedEvent
             {| app.Findings := [Samples.rawFinding] |} Samples.rawFinding []
             Samples.splitTags eq_refl eq_refl eq_refl eq_refl eq_refl)))).
    right. reflexivity.
Defined.

(** C7: an event whose detail type is not "Findings Imported V2" makes
    [Process] fail with the unsupported-event-type error, and an event of
    that type whose decoded detail has no findings makes it fail with the
    no-findings error; in both cases no call has been made to the parser,
    the engine, the closer or the notifier. *)
Theorem Process_rejects_before_any_call :
  forall (p : app.Platform) (a : app.App) (evt : SecurityHubEventInput),
    (DetailType evt <> "Findings Imported V2" ->
     app.run p a evt
     = (app.Return (Some (Newf ("unsupported event type: " ++ DetailType evt
                                ++ " (expected 'Findings Imported V2')"))), []))
    /\ (forall detail,
          DetailType evt = "Findings Imported V2" ->
          app.Unmarshal_EventDetail p (Detail evt) = (detail, None) ->
          app.Findings detail = [] ->
          app.run p a evt
          = (app.Return (Some (Newf ("event contains no findings (event_id: "
                                     ++ EventID evt ++ ")"))), [])).
Proof.
  intros p a evt. split.
  - intros Hne. apply String.eqb_neq in Hne.
    unfold app.run, app.Process, app.bind, app.ParseEvent. rewrite Hne. reflexivity.
  - intros detail Htype Hdetail Hnil.
    unfold app.run, app.Process, app.bind, app.ParseEvent.
    rewrite Htype. simpl. rewrite Hdetail, Hnil. reflexivity.
Qed.

(** "Something Else" is refused, and so is an event without findings,
    whatever the rules and collaborators are. *)
Lemma Process_rejects_before_any_call_witness :
  app.run (Samples.platform [Samples.rawFinding] Samples.highIn222)
          (Samples.mkApp [Samples.closeAll] Samples.closerOk (Some Samples.notifierOk))
          Samples.otherEvent
  = (app.Return (Some (Newf "unsupported event type: Something Else (expected 'Findings Imported V2')")),
     [])
  /\ app.run (Samples.platform [] Samples.highIn222)
             (Samples.mkApp [Samples.closeAll] Samples.closerOk (Some Samples.notifierOk))
             Samples.importedEvent
     = (app.Return (Some (Newf "event contains no findings (event_id: evt-1)")), []).
Proof.
  split.
  - apply (proj1 (Process_rejects_before_any_call
                    (Samples.platform [Samples.rawFinding] Samples.highIn222)
                    (Samples.mkApp [Samples.closeAll] Samples.closerOk
                                   (Some Samples.notifierOk))
                    Samples.otherEvent)).
    discriminate.
  - apply (proj2 (Process_rejects_before_any_call
                    (Samples.platform [] Samples.highIn222)
                    (Samples.mkApp [Samples.closeAll] Samples.closerOk
                                   (Some Samples.notifierOk))
                    Samples.importedEvent)
                 {| app.Findings := [] |}); reflexivity.
Defined.

(** *** Trimming white space *)

Section Trim.

Import strings.

Variable sp2 : byte -> byte -> bool.
Variable sp3 : byte -> byte -> byte -> bool.

Lemma trimRunes_ascii (c0 : byte) (r : list byte) :
  asciiSpace c0 = true -> trimRunes sp2 sp3 (c0 :: r) = trimRunes sp2 sp3 r.
Proof. intros H. simpl. rewrite H. reflexivity. Qed.

Lemma trimRunes_two (c0 c1 : byte) (r : list byte) :
  asciiSpace c0 = false -> sp2 c0 c1 = true ->
  trimRunes sp2 sp3 (c0 :: c1 :: r) = trimRunes sp2 sp3 r.
Proof. intros H0 H1. simpl. rewrite H0, H1. reflexivity. Qed.

Lemma trimRunes_three (c0 c1 c2 : byte) (r : list byte) :
  asciiSpace c0 = false -> sp2 c0 c1 = false -> sp3 c0 c1 c2 = true ->
  trimRunes sp2 sp3 (c0 :: c1 :: c2 :: r) = trimRunes sp2 sp3 r.
Proof. intros H0 H1 H2. simpl. rewrite H0, H1, H2. reflexivity. Qed.

(** The loop, case by case: it drops a rune and goes on, or it stops
    at a list it returns whole. *)
Lemma trimRunes_cases (P : list byte -> Prop) :
  P [] ->
  (forall c0 r, asciiSpace c0 = true -> P r -> P (c0 :: r)) ->
  (forall c0 c1 r, asciiSpace c0 = false -> sp2 c0 c1 = true -> P r ->
                   P (c0 :: c1 :: r)) ->
  (forall c0 c1 c2 r, asciiSpace c0 = false -> sp2 c0 c1 = false ->
                      sp3 c0 c1 c2 = true -> P r -> P (c0 :: c1 :: c2 :: r)) ->
  (forall c0 r, trimRunes sp2 sp3 (c0 :: r) = c0 :: r -> P (c0 :: r)) ->
  forall l, P l.
Proof.
  intros Hnil Hascii Htwo Hthree Hstop l.
  remember (List.length l) as n eqn:Hn.
  assert (Hle : List.length l <= n) by lia. clear Hn.
  revert l Hle. induction n as [|n IH]; intros l Hle.
  - destruct l; [exact Hnil | simpl in Hle; lia].
  - destruct l as [|c0 r0]; [exact Hnil|]. simpl in Hle.
    destruct (asciiSpace c0) eqn:E0.
    + apply Hascii; [exact E0 | apply IH; lia].
    + destruct r0 as [|c1 r1].
      * apply Hstop. simpl. rewrite E0. reflexivity.
      * simpl in Hle. destruct (sp2 c0 c1) eqn:E1.
        -- apply Htwo; [exact E0 | exact E1 | apply IH; lia].
        -- destruct r1 as [|c2 r2].
           ++ apply Hstop. simpl. rewrite E0, E1. reflexivity.
           ++ simpl in Hle. destruct (sp3 c0 c1 c2) eqn:E2.
              ** apply Hthree; [exact E0 | exact E1 | exact E2 | apply IH; lia].
              ** apply Hstop. simpl. rewrite E0, E1, E2. reflexivity.
Qed.

Lemma trimRunes_suffix (l : list byte) :
  exists pre, l = pre ++ trimRunes sp2 sp3 l.
Proof.
  induction l using trimRunes_cases.
  - exists []. reflexivity.
  - destruct IHl as (pre & Hpre). exists (c0 :: pre).
    rewrite trimRunes_ascii by assumption. simpl. congruence.
  - destruct IHl as (pre & Hpre). exists (c0 :: c1 :: pre).
    rewrite trimRunes_two by assumption. simpl. congruence.
  - destruct IHl as (pre & Hpre). exists (c0 :: c1 :: c2 :: pre).
    rewrite trimRunes_three by assumption. simpl. congruence.
  - exists []. rewrite H. reflexivity.
Qed.

Lemma trimRunes_idempotent (l : list byte) :
  trimRunes sp2 sp3 (trimRunes sp2 sp3 l) = trimRunes sp2 sp3 l.
Proof.
  induction l using trimRunes_cases.
  - reflexivity.
  - rewrite trimRunes_ascii by assumption. exact IHl.
  - rewrite trimRunes_two by assumption. exact IHl.
  - rewrite trimRunes_three by assumption. exact IHl.
  - rewrite H. exact H.
Qed.

Lemma trimRunes_nil_runs (l : list byte) :
  trimRunes sp2 sp3 l = [] -> Spec.runsOf sp2 sp3 l.
Proof.
  induction l using trimRunes_cases.
  - intros _. constructor.
  - rewrite trimRunes_ascii by assumption. intros H'. apply Spec.runs_ascii; auto.
  - rewrite trimRunes_two by assumption. intros H'. apply Spec.runs_two; auto.
  - rewrite trimRunes_three by assumption. intros H'. apply Spec.runs_three; auto.
  - rewrite H. discriminate.
Qed.

Lemma runs_app (l1 l2 : list byte) :
  Spec.runsOf sp2 sp3 l1 -> Spec.runsOf sp2 sp3 l2 -> Spec.runsOf sp2 sp3 (l1 ++ l2).
Proof.
  intros H1 H2. induction H1; simpl.
  - exact H2.
  - apply Spec.runs_ascii; assumption.
  - apply Spec.runs_two; assumption.
  - apply Spec.runs_three; assumption.
Qed.

(** The first byte of a rune tells its length. *)
Hypothesis two_not_ascii : forall c0 c1, sp2 c0 c1 = true -> asciiSpace c0 = false.
Hypothesis three_not_ascii :
  forall c0 c1 c2, sp3 c0 c1 c2 = true -> asciiSpace c0 = false.
Hypothesis three_not_two :
  forall c0 c1 c2, sp3 c0 c1 c2 = true -> sp2 c0 c1 = false.

Lemma runs_trimmed (l t : list byte) :
  Spec.runsOf sp2 sp3 l -> trimRunes sp2 sp3 (l ++ t) = trimRunes sp2 sp3 t.
Proof.
  intros H. induction H.
  - reflexivity.
  - change ((c0 :: r) ++ t) with (c0 :: (r ++ t)).
    rewrite trimRunes_ascii by assumption. exact IHrunsOf.
  - change ((c0 :: c1 :: r) ++ t) with (c0 :: c1 :: (r ++ t)).
    rewrite trimRunes_two; eauto.
  - change ((c0 :: c1 :: c2 :: r) ++ t) with (c0 :: c1 :: c2 :: (r ++ t)).
    rewrite trimRunes_three; eauto.
Qed.

End Trim.

Section TrimSpace.

Import strings.

Lemma isSpace2_not_ascii (c0 c1 : byte) : isSpace2 c0 c1 = true -> asciiSpace c0 = false.
Proof. intros H. destruct c0; try reflexivity; simpl in H; discriminate H. Qed.

Lemma isSpace3_not_ascii (c0 c1 c2 : byte) :
  isSpace3 c0 c1 c2 = true -> asciiSpace c0 = false.
Proof. intros H. destruct c0; try reflexivity; simpl in H; discriminate H. Qed.

Lemma isSpace3_not_two (c0 c1 c2 : byte) :
  isSpace3 c0 c1 c2 = true -> isSpace2 c0 c1 = false.
Proof. intros H. destruct c0; try reflexivity; simpl in H; discriminate H. Qed.

Lemma runs_rev (sp2 : byte -> byte -> bool) (sp3 : byte -> byte -> byte -> bool)
      (l : list byte) :
  Spec.runsOf sp2 sp3 l ->
  Spec.runsOf (fun c0 c1 => sp2 c1 c0) (fun c0 c1 c2 => sp3 c2 c1 c0) (rev l).
Proof.
  intros H. induction H; simpl.
  - constructor.
  - apply runs_app; [assumption|]. apply Spec.runs_ascii; [assumption | constructor].
  - rewrite <- app_assoc. apply runs_app; [assumption|].
    apply Spec.runs_two; [assumption | constructor].
  - rewrite <- !app_assoc. apply runs_app; [assumption|].
    apply Spec.runs_three; [assumption | constructor].
Qed.

Lemma TrimLeftSpace_runs (data : list byte) :
  TrimLeftSpace data = [] <-> Spec.whitespaceOnly data.
Proof.
  unfold TrimLeftSpace, Spec.whitespaceOnly. split.
  - apply trimRunes_nil_runs.
  - intros H. rewrite <- (app_nil_r data).
    rewrite (runs_trimmed isSpace2 isSpace3 isSpace2_not_ascii isSpace3_not_ascii
               isSpace3_not_two data [] H).
    reflexivity.
Qed.

(** What the trailing trim leaves is a prefix. *)
Lemma TrimRightSpace_prefix (s : list byte) :
  exists post, s = TrimRightSpace s ++ post.
Proof.
  unfold TrimRightSpace.
  destruct (trimRunes_suffix (fun c0 c1 => isSpace2 c1 c0)
              (fun c0 c1 c2 => isSpace3 c2 c1 c0) (rev s)) as (pre & Hpre).
  exists (rev pre). rewrite <- rev_app_distr, <- Hpre, rev_involutive. reflexivity.
Qed.

(** A string the trailing trim empties is white space only. *)
Lemma TrimRightSpace_nil (s : list byte) :
  TrimRightSpace s = [] -> Spec.whitespaceOnly s.
Proof.
  unfold TrimRightSpace. intros H.
  apply (f_equal (@rev byte)) in H. rewrite rev_involutive in H. simpl in H.
  apply trimRunes_nil_runs in H. apply runs_rev in H.
  rewrite rev_involutive in H. exact H.
Qed.

Lemma TrimSpace_nil (data : list byte) :
  TrimSpace data = [] <-> Spec.whitespaceOnly data.
Proof.
  unfold TrimSpace. split.
  - intros H. apply TrimRightSpace_nil in H. apply TrimLeftSpace_runs in H.
    unfold TrimLeftSpace in H. rewrite trimRunes_idempotent in H.
    apply TrimLeftSpace_runs. exact H.
  - intros H. apply TrimLeftSpace_runs in H. rewrite H. reflexivity.
Qed.

(** The first byte of the trimmed content is the first byte after the
    leading white space. *)
Lemma TrimSpace_first (data : list byte) :
  hd_error (TrimSpace data) = Spec.firstNonSpace data.
Proof.
  unfold Spec.firstNonSpace.
  destruct (TrimSpace data) as [|c t] eqn:E.
  - apply TrimSpace_nil, TrimLeftSpace_runs in E. rewrite E. reflexivity.
  - unfold TrimSpace in E.
    destruct (TrimRightSpace_prefix (TrimLeftSpace data)) as (post & Hpost).
    rewrite E in Hpost. rewrite Hpost. reflexivity.
Qed.

End TrimSpace.

Example parseRules_samples :
  parseRules Samples.codec (Samples.blanks ++ Samples.docSingle ++ Samples.blanks)
  = ([Samples.r1], None)
  /\ parseRules Samples.codec (Samples.docArray ++ [x0a])
     = ([Samples.r2; Samples.r3], None)
  /\ parseRules Samples.codec Samples.docBroken
     = ([], Some (Wrap (Foreign "json: syntax error") "failed to parse single rule"))
  /\ LoadRules (Samples.loaderOf [("rules/a.json", Samples.docSingle);
                                  ("rules/README.md", Samples.docBroken);
                                  ("rules/b.json", Samples.docArray)]) "b" "rules/"
     = ([Samples.r1; Samples.r2; Samples.r3], None).
Proof. repeat split; vm_compute; reflexivity. Qed.

(** *** Loading rules *)

Section Loading.

Variable l : S3RulesLoader.
Variable bucket : string.

Lemma LoadRules_loop_app (pre rest : list string) (acc : list AutoCloseRule) :
  LoadRules_loop l bucket (pre ++ rest) acc =
  match LoadRules_loop l bucket pre acc with
  | inl err => inl err
  | inr acc' => LoadRules_loop l bucket rest acc'
  end.
Proof.
  revert acc. induction pre as [|key pre IH]; intros acc; simpl.
  - reflexivity.
  - destruct (negb (strings.HasSuffix key ".json")); [apply IH|].
    destruct (loadRulesFromObject l bucket key) as [rules [err|]]; [reflexivity | apply IH].
Qed.

Lemma LoadRules_not_empty (prefix : string) : LoadRules l bucket prefix <> ([], None).
Proof.
  unfold LoadRules.
  destruct (listObjects l bucket prefix) as [keys [err|]]; [discriminate|].
  destruct (Nat.eqb (List.length keys) 0); [discriminate|].
  destruct (LoadRules_loop l bucket keys []) as [err|allRules]; [discriminate|].
  destruct allRules as [|r rs]; simpl; discriminate.
Qed.

End Loading.

Lemma parseRules_by_first_byte (u : Unmarshaler) (data : list byte) :
  parseRules u data =
  match Spec.firstNonSpace data with
  | None => ([], None)
  | Some c =>
      if Byte.eqb c x5b then
        match Unmarshal_rules u (strings.TrimSpace data) with
        | (_, Some err) => ([], Some (Wrap err "failed to parse rules array"))
        | (rules, None) => (rules, None)
        end
      else
        match Unmarshal_rule u (strings.TrimSpace data) with
        | (_, Some err) => ([], Some (Wrap err "failed to parse single rule"))
        | (rule, None) => ([rule], None)
        end
  end.
Proof.
  rewrite <- TrimSpace_first. unfold parseRules.
  destruct (strings.TrimSpace data) as [|c t]; reflexivity.
Qed.

(** C8, as the code has it: the trimmed content of an object is decoded
    as an array of rules when the first byte after the leading white
    space is '[' and as a single rule when it is another byte; empty or
    white-space-only content gives no rule and no error; a parse error in
    an object under a ".json" key aborts the loading with that error
    wrapped.  When at least one key was listed and the scan of the keys
    produced no rule, [LoadRules] returns the no-rules-loaded error; when
    no key was listed it returns the no-objects-found error; it never
    returns an empty list without an error. *)
Theorem LoadRules_parses_by_first_byte_and_rejects_no_rules :
  forall (l : S3RulesLoader) (bucket prefix : string),
    (forall data,
        parseRules (unmarshaler l) data =
        match Spec.firstNonSpace data with
        | None => ([], None)
        | Some c =>
            if Byte.eqb c x5b then
              match Unmarshal_rules (unmarshaler l) (strings.TrimSpace data) with
              | (_, Some err) => ([], Some (Wrap err "failed to parse rules array"))
              | (rules, None) => (rules, None)
              end
            else
              match Unmarshal_rule (unmarshaler l) (strings.TrimSpace data) with
              | (_, Some err) => ([], Some (Wrap err "failed to parse single rule"))
              | (rule, None) => ([rule], None)
              end
        end)
    /\ (forall data, Spec.whitespaceOnly data ->
                     parseRules (unmarshaler l) data = ([], None))
    /\ (forall pre key post data rules err acc,
           listObjects l bucket prefix = (pre ++ key :: post, None) ->
           LoadRules_loop l bucket pre [] = inr acc ->
           strings.HasSuffix key ".json" = true ->
           GetObject (client l) bucket key = ((data, None), None) ->
           parseRules (unmarshaler l) data = (rules, Some err) ->
           LoadRules l bucket prefix
           = ([], Some (Wrap err ("failed to load rules from " ++ s3url bucket key))))
    /\ (forall keys,
           listObjects l bucket prefix = (keys, None) -> keys <> [] ->
           LoadRules_loop l bucket keys [] = inr [] ->
           LoadRules l bucket prefix
           = ([], Some (Newf ("no rules loaded from " ++ s3url bucket prefix))))
    /\ (listObjects l bucket prefix = ([], None) ->
        LoadRules l bucket prefix
        = ([], Some (Newf ("no objects found in " ++ s3url bucket prefix))))
    /\ LoadRules l bucket prefix <> ([], None).
Proof.
  intros l bucket prefix.
  split; [intros data; apply parseRules_by_first_byte|].
  split; [|split; [|split; [|split]]].
  - intros data Hws. rewrite parseRules_by_first_byte.
    apply TrimLeftSpace_runs in Hws. unfold Spec.firstNonSpace. rewrite Hws. reflexivity.
  - intros pre key post data rules err acc Hlist Hpre Hsuffix Hget Hparse.
    unfold LoadRules. rewrite Hlist.
    assert (Hlen : Nat.eqb (List.length (pre ++ key :: post)) 0 = false).
    { rewrite length_app. simpl. apply Nat.eqb_neq. lia. }
    rewrite Hlen, LoadRules_loop_app, Hpre. simpl. rewrite Hsuffix. simpl.
    unfold loadRulesFromObject. rewrite Hget, Hparse. reflexivity.
  - intros keys Hlist Hne Hloop. unfold LoadRules. rewrite Hlist.
    destruct keys as [|k ks]; [congruence|]. simpl Nat.eqb. cbv iota.
    rewrite Hloop. reflexivity.
  - intros Hlist. unfold LoadRules. rewrite Hlist. reflexivity.
  - apply LoadRules_not_empty.
Qed.

(** White space of several kinds gives no rule; a broken object after a
    good one aborts the loading; a bucket with no ".json" key gives the
    no-rules-loaded error, and so does one whose only rule file is an
    empty array. *)
Lemma LoadRules_parses_by_first_byte_and_rejects_no_rules_witness :
  parseRules Samples.codec Samples.blanks = ([], None)
  /\ LoadRules (Samples.loaderOf [("rules/a.json", Samples.docSingle);
                                  ("rules/bad.json", Samples.docBroken);
                                  ("rules/c.json", Samples.docArray)]) "b" "rules/"
     = ([], Some (Wrap (Wrap (Foreign "json: syntax error") "failed to parse single rule")
                       "failed to load rules from s3://b/rules/bad.json"))
  /\ LoadRules (Samples.loaderOf [("rules/README.md", Samples.docBroken)]) "b" "rules/"
     = ([], Some (Newf "no rules loaded from s3://b/rules/"))
  /\ LoadRules (Samples.loaderOf [("rules/empty.json", Samples.docEmptyArray)]) "b" "rules/"
     = ([], Some (Newf "no rules loaded from s3://b/rules/")).
Proof.
  split; [|split; [|split]].
  - apply (proj1 (proj2 (LoadRules_parses_by_first_byte_and_rejects_no_rules
                           (Samples.loaderOf []) "b" "rules/"))).
    unfold Samples.blanks.
    apply Spec.runs_ascii; [reflexivity|]. apply Spec.runs_two; [reflexivity|].
    apply Spec.runs_ascii; [reflexivity|]. apply Spec.runs_three; [reflexivity|].
    constructor.
  - apply (proj1 (proj2 (proj2 (LoadRules_parses_by_first_byte_and_rejects_no_rules
             (Samples.loaderOf [("rules/a.json", Samples.docSingle);
                                ("rules/bad.json", Samples.docBroken);
                                ("rules/c.json", Samples.docArray)]) "b" "rules/")))
             ["rules/a.json"] "rules/bad.json" ["rules/c.json"] Samples.docBroken
             [] (Wrap (Foreign "json: syntax error") "failed to parse single rule")
             [Samples.r1]); vm_compute; reflexivity.
  - apply (proj1 (proj2 (proj2 (proj2 (LoadRules_parses_by_first_byte_and_rejects_no_rules
             (Samples.loaderOf [("rules/README.md", Samples.docBroken)]) "b" "rules/"))))
             ["rules/README.md"]); [reflexivity | discriminate | reflexivity].
  - apply (proj1 (proj2 (proj2 (proj2 (LoadRules_parses_by_first_byte_and_rejects_no_rules
             (Samples.loaderOf [("rules/empty.json", Samples.docEmptyArray)]) "b" "rules/"))))
             ["rules/empty.json"]); [reflexivity | discriminate | vm_compute; reflexivity].
Defined.

(** C8 as stated fails where nothing is listed: the scan of no key
    produces no rule, and [LoadRules] returns the no-objects-found error,
    not the no-rules-loaded one. *)
Lemma LoadRules_empty_listing_not_no_rules_loaded :
  listObjects (Samples.loaderOf []) "b" "rules/" = ([], None)
  /\ LoadRules_loop (Samples.loaderOf []) "b" [] [] = inr []
  /\ LoadRules (Samples.loaderOf []) "b" "rules/"
     = ([], Some (Newf "no objects found in s3://b/rules/"))
  /\ LoadRules (Samples.loaderOf []) "b" "rules/"
     <> ([], Some (Newf ("no rules loaded from " ++ s3url "b" "rules/"))).
Proof.
  split; [reflexivity|]. split; [reflexivity|]. split; [reflexivity|].
  vm_compute. discriminate.
Qed.

(** *** Aggregating the rules *)

(** C9: the rules [New] hands to the filter engine are the configured
    (inline) rules followed by the rules loaded from S3, each in its own
    order and nothing dropped or moved: every inline rule keeps its index
    and every loaded rule comes after all of them.  Without a bucket the
    loaded rules are none. *)
Theorem New_rules_inline_then_loaded :
  forall (p : app.Platform) (cfg : app.Config),
    let loader := {| client := app.s3_NewFromConfig p;
                     unmarshaler := app.rulesUnmarshaler p |} in
    let loadedAs (s3Rules : list AutoCloseRule) :=
      (app.AutoCloseRulesS3Bucket cfg = "" /\ s3Rules = [])
      \/ (app.AutoCloseRulesS3Bucket cfg <> ""
          /\ LoadRules loader (app.AutoCloseRulesS3Bucket cfg)
                       (app.AutoCloseRulesS3Prefix cfg) = (s3Rules, None)) in
    (forall s3Rules,
        app.LoadDefaultConfig p = None -> loadedAs s3Rules ->
        exists a,
          app.New p cfg = (Some a, None)
          /\ Rules (app.FilterEngine_ a) = app.AutoCloseRules cfg ++ s3Rules
          /\ (forall i r, nth_error (app.AutoCloseRules cfg) i = Some r ->
                          nth_error (Rules (app.FilterEngine_ a)) i = Some r)
          /\ (forall j r, nth_error s3Rules j = Some r ->
                          nth_error (Rules (app.FilterEngine_ a))
                                    (List.length (app.AutoCloseRules cfg) + j) = Some r))
    /\ (forall a,
           app.New p cfg = (Some a, None) ->
           exists s3Rules,
             loadedAs s3Rules
             /\ Rules (app.FilterEngine_ a) = app.AutoCloseRules cfg ++ s3Rules).
Proof.
  intros p cfg loader loadedAs.
  assert (Hcat : forall s3Rules,
             (if nonEmpty (app.AutoCloseRules cfg)
              then @inr error _ (app.AutoCloseRules cfg ++ s3Rules) else inr s3Rules)
             = inr (app.AutoCloseRules cfg ++ s3Rules)).
  { intros s3Rules. destruct (app.AutoCloseRules cfg); reflexivity. }
  split.
  - intros s3Rules Haws Hloaded.
    assert (Hnew : exists a, app.New p cfg = (Some a, None)
                             /\ Rules (app.FilterEngine_ a)
                                = app.AutoCloseRules cfg ++ s3Rules).
    { unfold app.New. rewrite Haws.
      destruct Hloaded as [[Hb Hs]|[Hb Hload]].
      - rewrite Hb. simpl. eexists. split; [reflexivity|]. simpl.
        rewrite Hs, app_nil_r. reflexivity.
      - apply String.eqb_neq in Hb. rewrite Hb. simpl.
        fold loader. unfold app.LoadRulesFromS3. rewrite Hload. rewrite (Hcat s3Rules).
        eexists. split; reflexivity. }
    destruct Hnew as (a & Hnew & Hrules). exists a.
    split; [exact Hnew|]. split; [exact Hrules|]. rewrite Hrules. split.
    + intros i r Hnth. rewrite nth_error_app1; [exact Hnth|].
      apply nth_error_Some. congruence.
    + intros j r Hnth. rewrite nth_error_app2 by lia.
      replace (List.length (app.AutoCloseRules cfg) + j
               - List.length (app.AutoCloseRules cfg)) with j by lia.
      exact Hnth.
  - intros a Hnew. unfold app.New in Hnew.
    destruct (app.LoadDefaultConfig p); [discriminate|].
    destruct (String.eqb (app.AutoCloseRulesS3Bucket cfg) "") eqn:Hb; simpl in Hnew.
    + apply String.eqb_eq in Hb. exists []. split; [left; tauto|].
      inversion Hnew; subst. simpl. rewrite app_nil_r. reflexivity.
    + apply String.eqb_neq in Hb. fold loader in Hnew.
      unfold app.LoadRulesFromS3 in Hnew.
      destruct (LoadRules loader (app.AutoCloseRulesS3Bucket cfg)
                          (app.AutoCloseRulesS3Prefix cfg)) as [s3Rules [err|]] eqn:Hload;
        [discriminate|].
      exists s3Rules. split; [right; tauto|].
      rewrite (Hcat s3Rules) in Hnew. inversion Hnew; subst. reflexivity.
Qed.

(** Two inline rules and a bucket with a single-rule file and an array
    file: the engine gets the inline rules, then the loaded ones. *)
Lemma New_rules_inline_then_loaded_witness :
  exists a,
    app.New (Samples.s3Platform [("rules/a.json", Samples.docSingle);
                                 ("rules/b.json", Samples.docArray)])
            (Samples.config [Samples.closeAll; Samples.closeAllQuietly] "b" false)
    = (Some a, None)
    /\ Rules (app.FilterEngine_ a)
       = [Samples.closeAll; Samples.closeAllQuietly] ++ [Samples.r1; Samples.r2; Samples.r3].
Proof.
  destruct (proj1 (New_rules_inline_then_loaded
                     (Samples.s3Platform [("rules/a.json", Samples.docSingle);
                                          ("rules/b.json", Samples.docArray)])
                     (Samples.config [Samples.closeAll; Samples.closeAllQuietly] "b" false))
                  [Samples.r1; Samples.r2; Samples.r3])
    as (a & Hnew & Hrules & _).
  - reflexivity.
  - right. split; [discriminate | vm_compute; reflexivity].
  - exists a. split; [exact Hnew | exact Hrules].
Defined.

(** *** The enabled flag of a decoded rule *)

Section Enabled.

Variable u : Unmarshaler.

(** A key selects the [enabled] field exactly when it is "enabled" up to
    the case of its letters. *)
Lemma fieldFor_enabled (key : string) :
  json.fieldFor ruleFields key = Some F_enabled <-> json.foldName key = "ENABLED".
Proof.
  unfold json.fieldFor, ruleFields.
  cbn [json.fieldByExactName json.fieldByFoldedName].
  change (json.foldName "name") with "NAME".
  change (json.foldName "enabled") with "ENABLED".
  change (json.foldName "filters") with "FILTERS".
  change (json.foldName "action") with "ACTION".
  change (json.foldName "skip_notification") with "SKIP_NOTIFICATION".
  destruct (String.eqb "name" key) eqn:E1;
    [apply String.eqb_eq in E1; subst key; split; discriminate|].
  destruct (String.eqb "enabled" key) eqn:E2;
    [apply String.eqb_eq in E2; subst key; split; reflexivity|].
  destruct (String.eqb "filters" key) eqn:E3;
    [apply String.eqb_eq in E3; subst key; split; discriminate|].
  destruct (String.eqb "action" key) eqn:E4;
    [apply String.eqb_eq in E4; subst key; split; discriminate|].
  destruct (String.eqb "skip_notification" key) eqn:E5;
    [apply String.eqb_eq in E5; subst key; split; discriminate|].
  destruct (String.eqb "NAME" (json.foldName key)) eqn:F1;
    [apply String.eqb_eq in F1; rewrite <- F1; split; discriminate|].
  destruct (String.eqb "ENABLED" (json.foldName key)) eqn:F2;
    [apply String.eqb_eq in F2; rewrite <- F2; split; reflexivity|].
  apply String.eqb_neq in F2.
  destruct (String.eqb "FILTERS" (json.foldName key));
    [split; [discriminate | congruence]|].
  destruct (String.eqb "ACTION" (json.foldName key));
    [split; [discriminate | congruence]|].
  destruct (String.eqb "SKIP_NOTIFICATION" (json.foldName key));
    split; solve [discriminate | congruence].
Qed.

(** A member changes [Enabled] only through the [enabled] field, and
    then as [decodeBool] says. *)
Lemma decodeRuleMember_Enabled (rule : AutoCloseRule) (key : string) (v : json.value) :
  Enabled (fst (decodeRuleMember u rule (key, v))) =
  match json.fieldFor ruleFields key with
  | Some F_enabled =>
      fst (json.decodeBool "AutoCloseRule" "enabled" v (Enabled rule))
  | _ => Enabled rule
  end.
Proof.
  unfold decodeRuleMember.
  destruct (json.fieldFor ruleFields key) as [[| | | |]|]; try reflexivity.
  - destruct (decodeString u v (Name rule)); reflexivity.
  - destruct (json.decodeBool _ _ v (Enabled rule)); reflexivity.
  - destruct (decodeRuleFilters u v (Filters rule)); reflexivity.
  - destruct (decodeRuleAction u v (Action rule)); reflexivity.
  - destruct (json.decodeBool _ _ v (SkipNotification rule)); reflexivity.
Qed.

Lemma decodeRuleMembers_stays_disabled (members : list (string * json.value)) :
  (forall key v, In (key, v) members ->
                 json.fieldFor ruleFields key = Some F_enabled -> v <> json.JBool true) ->
  forall rule saved,
    Enabled rule = false ->
    Enabled (fst (decodeRuleMembers u members rule saved)) = false.
Proof.
  induction members as [|[key v] rest IH]; intros Hno rule saved Hoff;
    cbn [decodeRuleMembers].
  - exact Hoff.
  - pose proof (decodeRuleMember_Enabled rule key v) as Hstep.
    destruct (decodeRuleMember u rule (key, v)) as [rule' err]. cbn [fst] in Hstep.
    apply IH; [intros k w Hin; apply Hno; right; exact Hin|].
    rewrite Hstep.
    destruct (json.fieldFor ruleFields key) as [[| | | |]|] eqn:Hf; try exact Hoff.
    assert (Hv : v <> json.JBool true) by (apply (Hno key v); [left; reflexivity | exact Hf]).
    rewrite Hoff. destruct v as [|[|]| | | |]; try reflexivity. congruence.
Qed.

End Enabled.

Lemma FindMatchingRule_returns_enabled (e : FilterEngine) (finding : SecurityHubV2Finding)
      (i : nat) (rule : AutoCloseRule) :
  FindMatchingRule e finding = (Some (i, rule), true) -> Enabled rule = true.
Proof.
  unfold FindMatchingRule. intros H. apply loop_some in H.
  destruct H as (k & _ & _ & [Hen _] & _). exact Hen.
Qed.

(** C10, as the code has it: a JSON object stored in a fresh
    [AutoCloseRule] leaves [Enabled] false when no key of it selects the
    [enabled] field, a key selecting the field when it is "enabled" up to
    the case of its letters, and not only when it is "enabled" itself; it
    leaves it false as well when no such key comes with the value [true].
    [FindMatchingRule] returns enabled rules only, so the rule decoded
    from such an object is never the matching rule, for any finding and
    any rule sequence. *)
Theorem rule_not_set_enabled_never_matches :
  forall (u : Unmarshaler) (members : list (string * json.value)),
    let rule := fst (decodeAutoCloseRule u (json.JObject members) zeroRule) in
    (forall key, json.fieldFor ruleFields key = Some F_enabled
                 <-> json.foldName key = "ENABLED")
    /\ ((forall key v, In (key, v) members ->
                       json.fieldFor ruleFields key <> Some F_enabled) ->
        Enabled rule = false)
    /\ (forall (e : FilterEngine) (finding : SecurityHubV2Finding) i r,
           FindMatchingRule e finding = (Some (i, r), true) -> Enabled r = true)
    /\ ((forall key v, In (key, v) members ->
                       json.fieldFor ruleFields key = Some F_enabled ->
                       v <> json.JBool true) ->
        Enabled rule = false
        /\ forall (e : FilterEngine) (finding : SecurityHubV2Finding) i,
             FindMatchingRule e finding <> (Some (i, rule), true)).
Proof.
  intros u members rule.
  assert (Hoff : (forall key v, In (key, v) members ->
                                json.fieldFor ruleFields key = Some F_enabled ->
                                v <> json.JBool true) ->
                 Enabled rule = false).
  { intros Hno. unfold rule. simpl.
    apply decodeRuleMembers_stays_disabled; [exact Hno | reflexivity]. }
  split; [apply fieldFor_enabled|]. split; [|split].
  - intros Hnone. apply Hoff. intros key v Hin Hf. exfalso. exact (Hnone key v Hin Hf).
  - apply FindMatchingRule_returns_enabled.
  - intros Hno. split; [exact (Hoff Hno)|].
    intros e finding i Hret. apply FindMatchingRule_returns_enabled in Hret.
    rewrite (Hoff Hno) in Hret. discriminate.
Qed.

(** A rule object with a name and filters but no "enabled" member, as the
    only rule: nothing matches, though its empty filters match every
    finding. *)
Lemma rule_not_set_enabled_never_matches_witness :
  Enabled (fst (decodeAutoCloseRule Samples.codec
                  (json.JObject [("name", json.JString "r3");
                                 ("filters", json.JObject [])]) zeroRule)) = false
  /\ FindMatchingRule
       (NewFilterEngine
          [fst (decodeAutoCloseRule Samples.codec
                  (json.JObject [("name", json.JString "r3");
                                 ("filters", json.JObject [])]) zeroRule)])
       Samples.highIn222
     <> (Some (0, fst (decodeAutoCloseRule Samples.codec
                         (json.JObject [("name", json.JString "r3");
                                        ("filters", json.JObject [])]) zeroRule)), true).
Proof.
  assert (Hno : forall key v,
             In (key, v) [("name", json.JString "r3"); ("filters", json.JObject [])] ->
             json.fieldFor ruleFields key = Some F_enabled -> v <> json.JBool true).
  { intros key v [H|[H|[]]]; inversion H; subst; discriminate. }
  split.
  - apply (proj1 (proj2 (proj2 (proj2 (rule_not_set_enabled_never_matches Samples.codec
             [("name", json.JString "r3"); ("filters", json.JObject [])]))) Hno)).
  - apply (proj2 (proj2 (proj2 (proj2 (rule_not_set_enabled_never_matches Samples.codec
             [("name", json.JString "r3"); ("filters", json.JObject [])]))) Hno)).
Defined.

(** C10 as stated fails on a key in another case: the object with the
    one member "ENABLED": true has no "enabled" member, yet the rule
    decoded from it is enabled and is the rule returned. *)
Lemma upper_case_key_enables_rule :
  (forall key v, In (key, v) [("ENABLED", json.JBool true)] -> key <> "enabled")
  /\ Enabled (fst (decodeAutoCloseRule Samples.codec
                     (json.JObject [("ENABLED", json.JBool true)]) zeroRule)) = true
  /\ FindMatchingRule
       (NewFilterEngine
          [fst (decodeAutoCloseRule Samples.codec
                  (json.JObject [("ENABLED", json.JBool true)]) zeroRule)])
       Samples.highIn222
     = (Some (0, fst (decodeAutoCloseRule Samples.codec
                        (json.JObject [("ENABLED", json.JBool true)]) zeroRule)), true).
Proof.
  split; [|split].
  - intros key v [H|[]]. inversion H; subst. discriminate.
  - reflexivity.
  - reflexivity.
Qed.

(** Keys are matched ignoring case, later members are stored over
    earlier ones, and [null] stores nothing. *)
Example decode_enabled_samples :
  Enabled (fst (decodeAutoCloseRule Samples.codec
                  (json.JObject [("Enabled", json.JBool true)]) zeroRule)) = true
  /\ Enabled (fst (decodeAutoCloseRule Samples.codec
                     (json.JObject [("enabled", json.JBool true);
                                    ("enabled", json.JBool false)]) zeroRule)) = false
  /\ Enabled (fst (decodeAutoCloseRule Samples.codec
                     (json.JObject [("enabled", json.JBool true);
                                    ("enabled", json.JNull)]) zeroRule)) = true
  /\ decodeAutoCloseRule Samples.codec
       (json.JObject [("enabled", json.JString "yes")]) zeroRule
     = (zeroRule, Some (Foreign "json: cannot unmarshal string into Go struct field AutoCloseRule.enabled of type bool")).
Proof. repeat split; reflexivity. Qed.

(** * Further properties of the code *)

(** ** The closer *)



(** ** Listing and loading *)

Section Listing.

Variable l : S3RulesLoader.
Variable bucket : string.

Lemma pageKeys_spec (contents : list (option string)) (keys : list string) :
  pageKeys contents keys = keys ++ Spec.presentKeys contents.
Proof.
  revert keys. induction contents as [|[key|] rest IH]; intros keys; simpl.
  - rewrite app_nil_r. reflexivity.
  - rewrite IH, <- app_assoc. reflexivity.
  - apply IH.
Qed.

Lemma listObjects_loop_ok (pages : list (list (option string) * option error))
      (keys : list string) :
  (forall page, In page pages -> snd page = None) ->
  listObjects_loop pages keys
  = (keys ++ flat_map (fun page => Spec.presentKeys (fst page)) pages, None).
Proof.
  revert keys. induction pages as [|[contents err] rest IH]; intros keys Hok; simpl.
  - rewrite app_nil_r. reflexivity.
  - assert (Herr : err = None) by (apply (Hok (contents, err)); left; reflexivity).
    subst err. rewrite IH by (intros pg Hin; apply Hok; right; exact Hin).
    rewrite pageKeys_spec, <- app_assoc. reflexivity.
Qed.

Lemma listObjects_loop_fails (pre post : list (list (option string) * option error))
      (contents : list (option string)) (err : error) (keys : list string) :
  (forall page, In page pre -> snd page = None) ->
  listObjects_loop (pre ++ (contents, Some err) :: post) keys = ([], Some err).
Proof.
  revert keys. induction pre as [|[c e] rest IH]; intros keys Hok; simpl.
  - reflexivity.
  - assert (He : e = None) by (apply (Hok (c, e)); left; reflexivity).
    subst e. apply IH. intros pg Hin. apply Hok. right. exact Hin.
Qed.

(** The loop over the keys when every rule object loads: the rules of
    the rule keys, in the order of the keys. *)
Lemma LoadRules_loop_ok (keys : list string) (acc : list AutoCloseRule) :
  (forall key, In key keys -> Spec.isRuleKey key = true ->
               snd (loadRulesFromObject l bucket key) = None) ->
  LoadRules_loop l bucket keys acc
  = inr (acc ++ flat_map (fun key => fst (loadRulesFromObject l bucket key))
                         (filter Spec.isRuleKey keys)).
Proof.
  revert acc. induction keys as [|key rest IH]; intros acc Hok; simpl.
  - rewrite app_nil_r. reflexivity.
  - unfold Spec.isRuleKey at 1. fold (Spec.isRuleKey key).
    destruct (Spec.isRuleKey key) eqn:Hk; simpl.
    + assert (Hload : snd (loadRulesFromObject l bucket key) = None)
        by (apply Hok; [left; reflexivity | exact Hk]).
      destruct (loadRulesFromObject l bucket key) as [rules err]. simpl in Hload.
      subst err. rewrite IH by (intros k Hin; apply Hok; right; exact Hin).
      simpl. rewrite <- app_assoc. reflexivity.
    + apply IH. intros k Hin. apply Hok. right. exact Hin.
Qed.

End Listing.

(** X2: [listObjects] returns the keys of all pages in the order of the
    pages and of their objects, an object without a key contributing
    none, when no page fails; and when a page fails it returns the error
    of the first page that does, and no key. *)
Theorem listObjects_collects_or_fails :
  forall (l : S3RulesLoader) (bucket prefix : string),
    ((forall page, In page (ListPages (client l) bucket prefix) -> snd page = None) ->
     listObjects l bucket prefix
     = (flat_map (fun page => Spec.presentKeys (fst page))
                 (ListPages (client l) bucket prefix), None))
    /\ (forall pre contents err post,
           ListPages (client l) bucket prefix = pre ++ (contents, Some err) :: post ->
           (forall page, In page pre -> snd page = None) ->
           listObjects l bucket prefix = ([], Some err)).
Proof.
  intros l bucket prefix. unfold listObjects. split.
  - intros Hok. rewrite listObjects_loop_ok by exact Hok. reflexivity.
  - intros pre contents err post Hpages Hok. rewrite Hpages.
    apply listObjects_loop_fails. exact Hok.
Qed.

(** X3: when the listing and every object under a ".json" key load,
    [LoadRules] returns the rules of those objects concatenated in the
    order of the listing, provided there is at least one rule. *)
Theorem LoadRules_concatenates_in_listing_order :
  forall (l : S3RulesLoader) (bucket prefix : string) (keys : list string),
    listObjects l bucket prefix = (keys, None) ->
    (forall key, In key keys -> Spec.isRuleKey key = true ->
                 snd (loadRulesFromObject l bucket key) = None) ->
    let loaded := flat_map (fun key => fst (loadRulesFromObject l bucket key))
                           (filter Spec.isRuleKey keys) in
    loaded <> [] ->
    LoadRules l bucket prefix = (loaded, None).
Proof.
  intros l bucket prefix keys Hlist Hok loaded Hne.
  assert (Hloop : LoadRules_loop l bucket keys [] = inr loaded)
    by (rewrite LoadRules_loop_ok by exact Hok; reflexivity).
  clearbody loaded. unfold LoadRules. rewrite Hlist.
  destruct keys as [|k ks]; [simpl in Hloop; congruence|].
  simpl Nat.eqb. cbv iota. rewrite Hloop.
  destruct loaded as [|r rs]; [exfalso; apply Hne; reflexivity | reflexivity].
Qed.

(** Two rule files and a text file between them. *)
Lemma LoadRules_concatenates_in_listing_order_witness :
  LoadRules (Samples.loaderOf [("rules/b.json", Samples.docArray);
                               ("rules/notes.txt", Samples.docBroken);
                               ("rules/a.json", Samples.docSingle)]) "b" "rules/"
  = ([Samples.r2; Samples.r3; Samples.r1], None).
Proof.
  apply (LoadRules_concatenates_in_listing_order
           (Samples.loaderOf [("rules/b.json", Samples.docArray);
                              ("rules/notes.txt", Samples.docBroken);
                              ("rules/a.json", Samples.docSingle)]) "b" "rules/"
           ["rules/b.json"; "rules/notes.txt"; "rules/a.json"] eq_refl).
  - intros key [H|[H|[H|[]]]] Hk; subst key; try reflexivity; discriminate Hk.
  - discriminate.
Defined.

Lemma LoadRules_loop_agree (l1 l2 : S3RulesLoader) (bucket : string) (keys : list string)
      (acc : list AutoCloseRule) :
  unmarshaler l1 = unmarshaler l2 ->
  (forall key, In key keys -> Spec.isRuleKey key = true ->
               GetObject (client l1) bucket key = GetObject (client l2) bucket key) ->
  LoadRules_loop l1 bucket keys acc = LoadRules_loop l2 bucket keys acc.
Proof.
  intros Hu. revert acc. induction keys as [|key rest IH]; intros acc Hget; simpl.
  - reflexivity.
  - fold (Spec.isRuleKey key). destruct (Spec.isRuleKey key) eqn:Hk; simpl.
    + unfold loadRulesFromObject.
      rewrite <- (Hget key (or_introl eq_refl) Hk), <- Hu.
      destruct (GetObject (client l1) bucket key) as [[data [rerr|]] [gerr|]];
        try reflexivity.
      destruct (parseRules (unmarshaler l1) data) as [rules [perr|]]; [reflexivity|].
      apply IH. intros k Hin. apply Hget. right. exact Hin.
    + apply IH. intros k Hin. apply Hget. right. exact Hin.
Qed.

(** X4: [LoadRules] reads no object whose key does not end in ".json":
    two stores that list the same keys and hold the same objects under
    the ".json" keys give the same result, whatever they hold, or fail
    to return, under the other keys. *)
Theorem LoadRules_reads_only_json_keys :
  forall (l1 l2 : S3RulesLoader) (bucket prefix : string),
    unmarshaler l1 = unmarshaler l2 ->
    ListPages (client l1) bucket prefix = ListPages (client l2) bucket prefix ->
    (forall key, strings.HasSuffix key ".json" = true ->
                 GetObject (client l1) bucket key = GetObject (client l2) bucket key) ->
    LoadRules l1 bucket prefix = LoadRules l2 bucket prefix.
Proof.
  intros l1 l2 bucket prefix Hu Hpages Hget. unfold LoadRules, listObjects.
  rewrite <- Hpages.
  destruct (listObjects_loop (ListPages (client l1) bucket prefix) [])
    as [keys [err|]]; [reflexivity|].
  destruct (Nat.eqb (List.length keys) 0); [reflexivity|].
  rewrite (LoadRules_loop_agree l1 l2 bucket keys [] Hu
             (fun key _ Hk => Hget key Hk)).
  reflexivity.
Qed.

(** ** White space around a rule document *)

Section Padding.

Import strings.

Lemma asciiSpace_starts (c : byte) : asciiSpace c = true -> Spec.continuation c = false.
Proof. intros H. destruct c; try reflexivity; discriminate H. Qed.

Lemma isSpace2_bytes (c0 c1 : byte) :
  isSpace2 c0 c1 = true -> Spec.continuation c0 = false /\ Spec.continuation c1 = true.
Proof.
  intros H. destruct c0; simpl in H; try discriminate H.
  destruct c1; try discriminate H; split; reflexivity.
Qed.

Lemma isSpace3_bytes (c0 c1 c2 : byte) :
  isSpace3 c0 c1 c2 = true ->
  Spec.continuation c0 = false /\ Spec.continuation c1 = true
  /\ Spec.continuation c2 = true.
Proof.
  intros H. destruct c0; simpl in H; try discriminate H;
    destruct c1; simpl in H; try discriminate H;
    destruct c2; try discriminate H; repeat split; reflexivity.
Qed.

(** White space that is not empty starts with a byte that starts a
    sequence. *)
Lemma whitespace_starts (w : byte) (t : list byte) :
  Spec.whitespaceOnly (w :: t) -> Spec.continuation w = false.
Proof.
  unfold Spec.whitespaceOnly. intros H. inversion H; subst.
  - apply asciiSpace_starts. assumption.
  - eapply isSpace2_bytes. eassumption.
  - eapply isSpace3_bytes. eassumption.
Qed.

Lemma trimRunes_shorter (sp2 : byte -> byte -> bool) (sp3 : byte -> byte -> byte -> bool)
      (l : list byte) :
  List.length (trimRunes sp2 sp3 l) <= List.length l.
Proof.
  destruct (trimRunes_suffix sp2 sp3 l) as (pre & Hpre).
  rewrite Hpre at 2. rewrite length_app. lia.
Qed.

(** What the leading trim drops is white space. *)
Lemma TrimLeftSpace_split (data : list byte) :
  exists pre, Spec.whitespaceOnly pre /\ data = pre ++ TrimLeftSpace data.
Proof.
  unfold TrimLeftSpace, Spec.whitespaceOnly.
  induction data using (trimRunes_cases isSpace2 isSpace3).
  - exists []. split; [constructor | reflexivity].
  - destruct IHdata as (pre & Hw & Hpre). exists (c0 :: pre).
    rewrite trimRunes_ascii by assumption.
    split; [apply Spec.runs_ascii; assumption | simpl; congruence].
  - destruct IHdata as (pre & Hw & Hpre). exists (c0 :: c1 :: pre).
    rewrite trimRunes_two by assumption.
    split; [apply Spec.runs_two; assumption | simpl; congruence].
  - destruct IHdata as (pre & Hw & Hpre). exists (c0 :: c1 :: c2 :: pre).
    rewrite trimRunes_three by assumption.
    split; [apply Spec.runs_three; assumption | simpl; congruence].
  - exists []. split; [constructor | rewrite H; reflexivity].
Qed.

(** Where the leading trim stops, it still stops when white space
    follows. *)
Lemma TrimLeftSpace_stops (c0 : byte) (r ws : list byte) :
  TrimLeftSpace (c0 :: r) = c0 :: r ->
  Spec.whitespaceOnly ws ->
  TrimLeftSpace ((c0 :: r) ++ ws) = (c0 :: r) ++ ws.
Proof.
  unfold TrimLeftSpace. intros Hstop Hws.
  destruct ws as [|w t]; [rewrite app_nil_r; exact Hstop|].
  pose proof (whitespace_starts w t Hws) as Hw.
  assert (Hno2 : forall c, isSpace2 c w = false).
  { intros c. destruct (isSpace2 c w) eqn:E; [|reflexivity].
    apply isSpace2_bytes in E. destruct E as [_ E]. congruence. }
  assert (Hno3 : forall c x, isSpace3 c w x = false).
  { intros c x. destruct (isSpace3 c w x) eqn:E; [|reflexivity].
    apply isSpace3_bytes in E. destruct E as (_ & E & _). congruence. }
  assert (Hno3' : forall c c1, isSpace3 c c1 w = false).
  { intros c c1. destruct (isSpace3 c c1 w) eqn:E; [|reflexivity].
    apply isSpace3_bytes in E. destruct E as (_ & _ & E). congruence. }
  assert (Hlen : forall l, trimRunes isSpace2 isSpace3 l = c0 :: r ->
                           List.length l < List.length (c0 :: r) -> False).
  { intros l Hl Hlt. pose proof (trimRunes_shorter isSpace2 isSpace3 l) as Hs.
    rewrite Hl in Hs. lia. }
  destruct (asciiSpace c0) eqn:E0.
  { exfalso. rewrite trimRunes_ascii in Hstop by exact E0.
    apply (Hlen r Hstop). simpl. lia. }
  destruct r as [|c1 r1].
  { simpl. rewrite E0, Hno2. destruct t as [|x t']; [reflexivity|].
    rewrite Hno3. reflexivity. }
  destruct (isSpace2 c0 c1) eqn:E1.
  { exfalso. rewrite trimRunes_two in Hstop by assumption.
    apply (Hlen r1 Hstop). simpl. lia. }
  destruct r1 as [|c2 r2].
  { simpl. rewrite E0, E1, Hno3'. reflexivity. }
  destruct (isSpace3 c0 c1 c2) eqn:E2.
  { exfalso. rewrite trimRunes_three in Hstop by assumption.
    apply (Hlen r2 Hstop). simpl. lia. }
  simpl. rewrite E0, E1, E2. reflexivity.
Qed.

(** White space at the end is dropped by the trailing trim. *)
Lemma TrimRightSpace_drops (s ws : list byte) :
  Spec.whitespaceOnly ws -> TrimRightSpace (s ++ ws) = TrimRightSpace s.
Proof.
  unfold TrimRightSpace, Spec.whitespaceOnly. intros Hws.
  rewrite rev_app_distr. f_equal.
  apply (runs_trimmed (fun c0 c1 => isSpace2 c1 c0) (fun c0 c1 c2 => isSpace3 c2 c1 c0)).
  - intros c0 c1 H. apply isSpace2_bytes in H. destruct H as [_ H].
    destruct (asciiSpace c0) eqn:E; [|reflexivity].
    apply asciiSpace_starts in E. congruence.
  - intros c0 c1 c2 H. apply isSpace3_bytes in H. destruct H as (_ & _ & H).
    destruct (asciiSpace c0) eqn:E; [|reflexivity].
    apply asciiSpace_starts in E. congruence.
  - intros c0 c1 c2 H. apply isSpace3_bytes in H. destruct H as (_ & H & _).
    destruct (isSpace2 c1 c0) eqn:E; [|reflexivity].
    apply isSpace2_bytes in E. destruct E as [E _]. congruence.
  - apply runs_rev. exact Hws.
Qed.

Lemma TrimSpace_padded (ws1 data ws2 : list byte) :
  Spec.whitespaceOnly ws1 -> Spec.whitespaceOnly ws2 ->
  TrimSpace (ws1 ++ data ++ ws2) = TrimSpace data.
Proof.
  intros H1 H2. unfold TrimSpace.
  assert (Hleft : forall ws rest, Spec.whitespaceOnly ws ->
                                  TrimLeftSpace (ws ++ rest) = TrimLeftSpace rest).
  { intros ws rest Hws. unfold TrimLeftSpace.
    apply (runs_trimmed isSpace2 isSpace3 isSpace2_not_ascii isSpace3_not_ascii
             isSpace3_not_two). exact Hws. }
  rewrite (Hleft ws1 _ H1).
  destruct (TrimLeftSpace_split data) as (pre & Hpre & Hdata).
  rewrite Hdata at 1. rewrite <- app_assoc, (Hleft pre _ Hpre).
  destruct (TrimLeftSpace data) as [|c0 r] eqn:Hd.
  - simpl. rewrite <- (app_nil_r ws2), (Hleft ws2 [] H2). reflexivity.
  - assert (Hstop : TrimLeftSpace (c0 :: r) = c0 :: r).
    { rewrite <- Hd. unfold TrimLeftSpace. apply trimRunes_idempotent. }
    rewrite (TrimLeftSpace_stops c0 r ws2 Hstop H2).
    apply TrimRightSpace_drops. exact H2.
Qed.

(** What the trailing trim drops is white space. *)
Lemma TrimRightSpace_split (s : list byte) :
  exists post, Spec.whitespaceOnly post /\ s = TrimRightSpace s ++ post.
Proof.
  unfold TrimRightSpace, Spec.whitespaceOnly.
  assert (Hsplit : forall l,
             exists pre, Spec.runsOf (fun c0 c1 => isSpace2 c1 c0)
                                     (fun c0 c1 c2 => isSpace3 c2 c1 c0) pre
                         /\ l = pre ++ trimRunes (fun c0 c1 => isSpace2 c1 c0)
                                                 (fun c0 c1 c2 => isSpace3 c2 c1 c0) l).
  { intros l.
    induction l using (trimRunes_cases (fun c0 c1 => isSpace2 c1 c0)
                                       (fun c0 c1 c2 => isSpace3 c2 c1 c0)).
    - exists []. split; [constructor | reflexivity].
    - destruct IHl as (pre & Hw & Hpre). exists (c0 :: pre).
      rewrite trimRunes_ascii by assumption.
      split; [apply Spec.runs_ascii; assumption | simpl; congruence].
    - destruct IHl as (pre & Hw & Hpre). exists (c0 :: c1 :: pre).
      rewrite trimRunes_two by assumption.
      split; [apply Spec.runs_two; assumption | simpl; congruence].
    - destruct IHl as (pre & Hw & Hpre). exists (c0 :: c1 :: c2 :: pre).
      rewrite trimRunes_three by assumption.
      split; [apply Spec.runs_three; assumption | simpl; congruence].
    - exists []. split; [constructor | rewrite H; reflexivity]. }
  destruct (Hsplit (rev s)) as (pre & Hw & Hpre).
  exists (rev pre). split.
  - apply runs_rev in Hw. exact Hw.
  - rewrite <- rev_app_distr, <- Hpre, rev_involutive. reflexivity.
Qed.

End Padding.

(** X5: white space before and after the content of a rule object does
    not change what [parseRules] returns, white space being what Unicode
    calls so; in particular the content parses as its trimmed form. *)
Theorem parseRules_ignores_surrounding_space :
  forall (u : Unmarshaler) (data : list byte),
    (forall ws1 ws2,
        Spec.whitespaceOnly ws1 -> Spec.whitespaceOnly ws2 ->
        parseRules u (ws1 ++ data ++ ws2) = parseRules u data)
    /\ parseRules u (strings.TrimSpace data) = parseRules u data.
Proof.
  intros u data.
  assert (Hpad : forall d ws1 ws2,
             Spec.whitespaceOnly ws1 -> Spec.whitespaceOnly ws2 ->
             parseRules u (ws1 ++ d ++ ws2) = parseRules u d).
  { intros d ws1 ws2 H1 H2. unfold parseRules.
    rewrite (TrimSpace_padded ws1 d ws2 H1 H2). reflexivity. }
  split; [apply Hpad|].
  destruct (TrimLeftSpace_split data) as (pre & Hpre & Hdata).
  destruct (TrimRightSpace_split (strings.TrimLeftSpace data)) as (post & Hpost & Hleft).
  fold (strings.TrimSpace data) in Hleft.
  rewrite Hdata at 2. rewrite Hleft. symmetry. apply Hpad; assumption.
Qed.

(** A rule object with blanks before it and a carriage return and a line
    feed after it. *)
Lemma parseRules_ignores_surrounding_space_witness :
  parseRules Samples.codec (Samples.blanks ++ Samples.docSingle ++ [x0d; x0a])
  = parseRules Samples.codec Samples.docSingle.
Proof.
  apply (proj1 (parseRules_ignores_surrounding_space Samples.codec Samples.docSingle)).
  - unfold Samples.blanks.
    apply Spec.runs_ascii; [reflexivity|]. apply Spec.runs_two; [reflexivity|].
    apply Spec.runs_ascii; [reflexivity|]. apply Spec.runs_three; [reflexivity|].
    constructor.
  - apply Spec.runs_ascii; [reflexivity|]. apply Spec.runs_ascii; [reflexivity|].
    constructor.
Defined.

(** ** Settings *)

(** X6: [parseAutoCloseRules] takes its input as a JSON array of rules;
    failing that, as a JSON string whose text is a JSON array of rules,
    unwrapped once only.  When the input is neither, the error returned
    is the one of the attempt as a string, wrapped, not the one of the
    attempt as an array.  The rules variable the last attempt stores
    into is still empty. *)
Theorem parseAutoCloseRules_array_or_encoded_array :
  forall (u : Unmarshaler) (input : string),
    match scan u (list_byte_of_string input) with
    | inl err =>
        appconfig.parseAutoCloseRules u input
        = ([], Some (Wrap err "invalid JSON format - expected array or JSON-encoded string"))
    | inr (json.JString text) =>
        appconfig.parseAutoCloseRules u input
        = match Unmarshal_rules u (list_byte_of_string text) with
          | (_, Some err) => ([], Some (Wrap err "invalid JSON in encoded string"))
          | (rules, None) => (rules, None)
          end
    | inr v =>
        appconfig.parseAutoCloseRules u input
        = match decodeAutoCloseRules u v with
          | (rules, None) => (rules, None)
          | (_, Some _) =>
              ([], Some (Wrap (json.UnmarshalTypeError v "string")
                              "invalid JSON format - expected array or JSON-encoded string"))
          end
    end
    /\ (snd (Unmarshal_rules u (list_byte_of_string input)) <> None ->
        snd (appconfig.Unmarshal_string u (list_byte_of_string input)) = None ->
        fst (Unmarshal_rules u (list_byte_of_string input)) = []).
Proof.
  intros u input.
  unfold appconfig.parseAutoCloseRules, appconfig.Unmarshal_string, Unmarshal_rules.
  destruct (scan u (list_byte_of_string input)) as [err|v].
  - split; [reflexivity | intros _ H; discriminate H].
  - destruct v as [|b|lit|text|elems|members]; simpl.
    + split; [reflexivity | intros H; exfalso; apply H; reflexivity].
    + split; [reflexivity | intros _ H; discriminate H].
    + split; [reflexivity | intros _ H; discriminate H].
    + split; [reflexivity | reflexivity].
    + destruct (decodeRuleElems u elems None) as [rules [err|]];
        (split; [reflexivity | intros H1 H2; discriminate H2]).
    + split; [reflexivity | intros _ H; discriminate H].
Qed.

(** The rules of [Samples.docArray] are read from the array, from the
    array as a JSON string, and not from a string of a string. *)
Example parseAutoCloseRules_samples :
  appconfig.parseAutoCloseRules Samples.settingsCodec (string_of_list_byte Samples.docArray)
  = ([Samples.r2; Samples.r3], None)
  /\ appconfig.parseAutoCloseRules Samples.settingsCodec (Samples.dq Samples.encodedArray)
     = ([Samples.r2; Samples.r3], None)
  /\ appconfig.parseAutoCloseRules Samples.settingsCodec (Samples.dq Samples.twiceEncoded)
     = ([], Some (Wrap (json.UnmarshalTypeError (json.JString "[]") "[]filters.AutoCloseRule")
                       "invalid JSON in encoded string"))
  /\ appconfig.parseAutoCloseRules Samples.settingsCodec "not json"
     = ([], Some (Wrap (Foreign "json: syntax error")
                       "invalid JSON format - expected array or JSON-encoded string")).
Proof. repeat split; vm_compute; reflexivity. Qed.

Lemma ParseBool_true (str : string) :
  fst (appconfig.ParseBool str) = true
  <-> In str ["1"; "t"; "T"; "true"; "TRUE"; "True"].
Proof.
  unfold appconfig.ParseBool.
  destruct (String.eqb str "1") eqn:E1;
    [apply String.eqb_eq in E1; subst; simpl; tauto | apply String.eqb_neq in E1].
  destruct (String.eqb str "t") eqn:E2;
    [apply String.eqb_eq in E2; subst; simpl; tauto | apply String.eqb_neq in E2].
  destruct (String.eqb str "T") eqn:E3;
    [apply String.eqb_eq in E3; subst; simpl; tauto | apply String.eqb_neq in E3].
  destruct (String.eqb str "true") eqn:E4;
    [apply String.eqb_eq in E4; subst; simpl; tauto | apply String.eqb_neq in E4].
  destruct (String.eqb str "TRUE") eqn:E5;
    [apply String.eqb_eq in E5; subst; simpl; tauto | apply String.eqb_neq in E5].
  destruct (String.eqb str "True") eqn:E6;
    [apply String.eqb_eq in E6; subst; simpl; tauto | apply String.eqb_neq in E6].
  cbn [orb].
  destruct (String.eqb str "0" || String.eqb str "f" || String.eqb str "F"
            || String.eqb str "false" || String.eqb str "FALSE"
            || String.eqb str "False"); simpl;
    (split; [discriminate | intros H; intuition congruence]).
Qed.

(** X7: [NewConfig] fails exactly when the rules variable is set and
    does not parse, or when one of the Slack token and channel is set
    without the other.  The settings it returns have a console URL and a
    rules prefix that are not empty, no rules when the rules variable is
    unset, debugging on exactly for the six spellings of true, and Slack
    enabled exactly when the token and the channel are both set, both
    being empty otherwise. *)
Theorem NewConfig_settings :
  forall (getenv : string -> string) (u : Unmarshaler),
    let rulesParse :=
      getenv "APP_AUTO_CLOSE_RULES" = ""
      \/ snd (appconfig.parseAutoCloseRules u (getenv "APP_AUTO_CLOSE_RULES")) = None in
    let slackPaired :=
      getenv "APP_SLACK_TOKEN" = "" <-> getenv "APP_SLACK_CHANNEL" = "" in
    ((exists cfg, appconfig.NewConfig getenv u = (Some cfg, None))
     <-> rulesParse /\ slackPaired)
    /\ ((exists err, appconfig.NewConfig getenv u = (None, Some err))
        <-> ~ (rulesParse /\ slackPaired))
    /\ (forall cfg,
           appconfig.NewConfig getenv u = (Some cfg, None) ->
           app.AwsConsoleURL cfg <> ""
           /\ app.AutoCloseRulesS3Prefix cfg <> ""
           /\ (getenv "APP_AUTO_CLOSE_RULES" = "" -> app.AutoCloseRules cfg = [])
           /\ (app.DebugEnabled cfg = true
               <-> In (getenv "APP_DEBUG_ENABLED") ["1"; "t"; "T"; "true"; "TRUE"; "True"])
           /\ (app.SlackEnabled cfg = true
               <-> app.SlackToken cfg <> "" /\ app.SlackChannel cfg <> "")
           /\ (app.SlackEnabled cfg = false
               -> app.SlackToken cfg = "" /\ app.SlackChannel cfg = "")).
Proof.
  intros getenv u rulesParse slackPaired.
  unfold appconfig.NewConfig.
  set (parsed := if negb (String.eqb (getenv "APP_AUTO_CLOSE_RULES") "")
                 then appconfig.parseAutoCloseRules u (getenv "APP_AUTO_CLOSE_RULES")
                 else ([], None)).
  assert (Hparse : rulesParse <-> snd parsed = None).
  { unfold rulesParse, parsed.
    destruct (String.eqb (getenv "APP_AUTO_CLOSE_RULES") "") eqn:E; simpl.
    - apply String.eqb_eq in E. tauto.
    - apply String.eqb_neq in E. tauto. }
  assert (Hunset : getenv "APP_AUTO_CLOSE_RULES" = "" -> fst parsed = []).
  { intros H. unfold parsed. rewrite H. reflexivity. }
  assert (Hurl : (if String.eqb (getenv "APP_AWS_CONSOLE_URL") ""
                  then "https://console.aws.amazon.com"
                  else getenv "APP_AWS_CONSOLE_URL") <> "").
  { destruct (String.eqb (getenv "APP_AWS_CONSOLE_URL") "") eqn:E;
      [discriminate | apply String.eqb_neq in E; exact E]. }
  assert (Hprefix : (if String.eqb (getenv "APP_AUTO_CLOSE_RULES_S3_PREFIX") ""
                     then "rules/"
                     else getenv "APP_AUTO_CLOSE_RULES_S3_PREFIX") <> "").
  { destruct (String.eqb (getenv "APP_AUTO_CLOSE_RULES_S3_PREFIX") "") eqn:E;
      [discriminate | apply String.eqb_neq in E; exact E]. }
  pose proof (ParseBool_true (getenv "APP_DEBUG_ENABLED")) as Hdebug.
  clearbody parsed. unfold slackPaired. clear slackPaired.
  destruct parsed as [rules [perr|]]; simpl in Hparse, Hunset.
  - split; [|split].
    + split; [intros (cfg & H); discriminate H|].
      intros [H _]. apply Hparse in H. discriminate H.
    + split; [intros _ [H _]; apply Hparse in H; discriminate H|].
      intros _. eexists. reflexivity.
    + intros cfg H. discriminate H.
  - assert (Hok : rulesParse) by (apply Hparse; reflexivity).
    destruct (String.eqb (getenv "APP_SLACK_TOKEN") "") eqn:Et;
      [apply String.eqb_eq in Et | apply String.eqb_neq in Et];
      (destruct (String.eqb (getenv "APP_SLACK_CHANNEL") "") eqn:Ec;
       [apply String.eqb_eq in Ec | apply String.eqb_neq in Ec]); simpl.
    + split; [|split].
      * split; [intros _; split; [exact Hok | tauto] | intros _; eexists; reflexivity].
      * split; [intros (e & H); discriminate H | intros H; exfalso; apply H; tauto].
      * intros cfg H. inversion H; subst cfg; clear H. simpl.
        split; [exact Hurl|]. split; [exact Hprefix|]. split; [exact Hunset|].
        split; [exact Hdebug|].
        split; [split; [discriminate | intros [H _]; contradiction] | tauto].
    + split; [|split].
      * split; [intros (cfg & H); discriminate H | intros [_ H]; tauto].
      * split; [intros _ [_ H]; tauto | intros _; eexists; reflexivity].
      * intros cfg H. discriminate H.
    + split; [|split].
      * split; [intros (cfg & H); discriminate H | intros [_ H]; tauto].
      * split; [intros _ [_ H]; tauto | intros _; eexists; reflexivity].
      * intros cfg H. discriminate H.
    + split; [|split].
      * split; [intros _; split; [exact Hok | tauto] | intros _; eexists; reflexivity].
      * split; [intros (e & H); discriminate H | intros H; exfalso; apply H; tauto].
      * intros cfg H. inversion H; subst cfg; clear H. simpl.
        split; [exact Hurl|]. split; [exact Hprefix|]. split; [exact Hunset|].
        split; [exact Hdebug|].
        split; [split; [intros _; split; assumption | reflexivity] | discriminate].
Qed.

(** ** The pipeline as a whole *)



(** *** With the pointers of the application *)








(** X10: when the detail of a supported event does not decode, [Process]
    returns the decoding error wrapped and calls nothing; when its first
    finding does not decode, [Process] returns the parser's error as it
    is, after the one call to the parser, without asking the engine. *)
Theorem Process_decode_errors :
  forall (p : app.Platform) (a : app.App) (evt : SecurityHubEventInput),
    DetailType evt = "Findings Imported V2" ->
    (forall detail err,
        app.Unmarshal_EventDetail p (Detail evt) = (detail, Some err) ->
        app.run p a evt
        = (app.Return (Some (Wrap err "failed to unmarshal event detail")), []))
    /\ (forall detail raw rest shf err,
           app.Unmarshal_EventDetail p (Detail evt) = (detail, None) ->
           app.Findings detail = raw :: rest ->
           app.Unmarshal_Finding p raw = (shf, Some err) ->
           app.run p a evt
           = (app.Return (Some err), [app.CallNewSecurityHubFinding raw])).
Proof.
  intros p a evt Htype. split.
  - intros detail err Hdetail.
    unfold app.run, app.Process, app.bind, app.ParseEvent.
    rewrite Htype, Hdetail. reflexivity.
  - intros detail raw rest shf err Hdetail Hfirst Hfinding.
    unfold app.run, app.Process, app.bind, app.ParseEvent.
    rewrite Htype, Hdetail, Hfirst. simpl.
    unfold app.bind, app.invoke, app.NewSecurityHubFinding. rewrite Hfinding.
    reflexivity.
Qed.

(** X11: of the findings of an event [Process] reads the first only: two
    decodings of the detail that have the same first finding, or both
    none, give the same run. *)
Theorem Process_reads_first_finding_only :
  forall (p1 p2 : app.Platform) (a : app.App) (evt : SecurityHubEventInput)
         (d1 d2 : app.EventDetail),
    (forall raw, app.Unmarshal_Finding p1 raw = app.Unmarshal_Finding p2 raw) ->
    app.Unmarshal_EventDetail p1 (Detail evt) = (d1, None) ->
    app.Unmarshal_EventDetail p2 (Detail evt) = (d2, None) ->
    hd_error (app.Findings d1) = hd_error (app.Findings d2) ->
    app.run p1 a evt = app.run p2 a evt.
Proof.
  intros p1 p2 a evt d1 d2 Hf H1 H2 Hhd.
  unfold app.run, app.Process, app.bind, app.ParseEvent.
  destruct (negb (String.eqb (DetailType evt) "Findings Imported V2")); [reflexivity|].
  rewrite H1, H2.
  destruct (app.Findings d1) as [|r1 rest1]; destruct (app.Findings d2) as [|r2 rest2];
    simpl in Hhd; try discriminate Hhd; [reflexivity|].
  inversion Hhd; subst r2.
  unfold app.bind, app.invoke, app.NewSecurityHubFinding. rewrite (Hf r1).
  reflexivity.
Qed.

(** ** More on matching *)

Lemma matchesFilters_iff (finding : SecurityHubV2Finding) (filters : RuleFilters) :
  matchesFilters finding filters = true <->
  (FindingTypes filters <> [] -> Spec.typesSatisfied finding (FindingTypes filters))
  /\ (Filter_Severity filters <> [] -> In (Severity finding) (Filter_Severity filters))
  /\ (ProductName filters <> [] ->
      In (Product_Name (Product (Metadata_ finding))) (ProductName filters))
  /\ (ResourceTypes filters <> [] ->
      Spec.resourceTypesSatisfied finding (ResourceTypes filters))
  /\ (ResourceTags filters <> [] ->
      Spec.resourceTagsSatisfied finding (ResourceTags filters))
  /\ (Accounts filters <> [] ->
      In (Account_UID (Cloud_Account (Cloud_ finding))) (Accounts filters))
  /\ (Regions filters <> [] -> In (Region (Cloud_ finding)) (Regions filters)).
Proof.
  rewrite matchesFilters_guards.
  rewrite (guard_false (FindingTypes filters) _ _
             (matchesFindingTypes_spec finding (FindingTypes filters))).
  rewrite (guard_false (Filter_Severity filters) _ _
             (contains_In (Filter_Severity filters) (Severity finding))).
  rewrite (guard_false (ProductName filters) _ _ (contains_In (ProductName filters) _)).
  rewrite (guard_false (ResourceTypes filters) _ _
             (matchesResourceTypes_loop_spec (Resources finding) (ResourceTypes filters))).
  rewrite (guard_false (ResourceTags filters) _ _
             (matchesResourceTags_spec finding (ResourceTags filters))).
  rewrite (guard_false (Accounts filters) _ _ (contains_In (Accounts filters) _)).
  rewrite (guard_false (Regions filters) _ _ (contains_In (Regions filters) _)).
  reflexivity.
Qed.

Section MoreMatching.

Variable finding : SecurityHubV2Finding.

Lemma loop_shift (rules : list AutoCloseRule) (n i : nat) :
  FindMatchingRule_loop (n + i) rules finding
  = Spec.shifted n (FindMatchingRule_loop i rules finding).
Proof.
  revert i. induction rules as [|r rest IH]; intros i; simpl.
  - reflexivity.
  - rewrite (plus_n_Sm n i).
    destruct (Enabled r); simpl; [|apply IH].
    destruct (matchesFilters finding (Filters r)); [reflexivity | apply IH].
Qed.

Lemma loop_app (first second : list AutoCloseRule) (i : nat) :
  FindMatchingRule_loop i (first ++ second) finding
  = match FindMatchingRule_loop i first finding with
    | (Some ptr, true) => (Some ptr, true)
    | _ => FindMatchingRule_loop (List.length first + i) second finding
    end.
Proof.
  revert i. induction first as [|r rest IH]; intros i; simpl.
  - reflexivity.
  - rewrite (plus_n_Sm (List.length rest) i).
    destruct (Enabled r); simpl; [|apply IH].
    destruct (matchesFilters finding (Filters r)); [reflexivity | apply IH].
Qed.

Lemma loop_without_disabled (rules : list AutoCloseRule) (i j : nat) :
  Spec.pointee (FindMatchingRule_loop i rules finding)
  = Spec.pointee (FindMatchingRule_loop j (filter Enabled rules) finding)
  /\ snd (FindMatchingRule_loop i rules finding)
     = snd (FindMatchingRule_loop j (filter Enabled rules) finding).
Proof.
  revert i j. induction rules as [|r rest IH]; intros i j; simpl.
  - split; reflexivity.
  - destruct (Enabled r) eqn:E; simpl; [|apply IH].
    rewrite E. simpl.
    destruct (matchesFilters finding (Filters r)); [split; reflexivity | apply IH].
Qed.

End MoreMatching.

(** X12: a disabled rule is as good as absent: the rule
    [FindMatchingRule] returns, and whether it returns one, are the same
    once the disabled rules are taken out of the sequence. *)
Theorem FindMatchingRule_disabled_as_absent :
  forall (rules : list AutoCloseRule) (finding : SecurityHubV2Finding),
    Spec.pointee (FindMatchingRule (NewFilterEngine rules) finding)
    = Spec.pointee (FindMatchingRule (NewFilterEngine (filter Enabled rules)) finding)
    /\ snd (FindMatchingRule (NewFilterEngine rules) finding)
       = snd (FindMatchingRule (NewFilterEngine (filter Enabled rules)) finding).
Proof.
  intros rules finding. unfold FindMatchingRule. simpl.
  apply loop_without_disabled.
Qed.

(** X13: on a sequence made of two, a match in the first is the result,
    whatever the second holds; only when the first has none is the
    result the match of the second, its index counted after the first.
    So rules added at the end never change the rule a finding already
    gets. *)
Theorem FindMatchingRule_first_sequence_wins :
  forall (first second : list AutoCloseRule) (finding : SecurityHubV2Finding),
    FindMatchingRule (NewFilterEngine (first ++ second)) finding
    = match FindMatchingRule (NewFilterEngine first) finding with
      | (Some ptr, true) => (Some ptr, true)
      | _ => Spec.shifted (List.length first)
                          (FindMatchingRule (NewFilterEngine second) finding)
      end.
Proof.
  intros first second finding. unfold FindMatchingRule. simpl.
  rewrite loop_app, loop_shift. reflexivity.
Qed.

Lemma widens_In {A : Type} (narrow wide : list A) (x : A) :
  Spec.widens narrow wide ->
  (narrow <> [] -> In x narrow) -> (wide <> [] -> In x wide).
Proof.
  intros [Hnil|[Hne Hincl]] Hn Hw; [contradiction|]. apply Hincl, Hn, Hne.
Qed.

(** X14: filters that ask less match more.  If in each category of
    alternatives the second filters are empty or list all the entries of
    the first, which are then not empty, and if every tag the second
    require is required by the first, then every finding the first match
    is matched by the second. *)
Theorem matchesFilters_widening :
  forall (finding : SecurityHubV2Finding) (narrow wide : RuleFilters),
    Spec.widens (FindingTypes narrow) (FindingTypes wide) ->
    Spec.widens (Filter_Severity narrow) (Filter_Severity wide) ->
    Spec.widens (ProductName narrow) (ProductName wide) ->
    Spec.widens (ResourceTypes narrow) (ResourceTypes wide) ->
    Spec.widens (Accounts narrow) (Accounts wide) ->
    Spec.widens (Regions narrow) (Regions wide) ->
    incl (ResourceTags wide) (ResourceTags narrow) ->
    matchesFilters finding narrow = true ->
    matchesFilters finding wide = true.
Proof.
  intros finding narrow wide Ht Hs Hp Hr Ha Hg Htags Hm.
  apply matchesFilters_iff in Hm.
  destruct Hm as (M1 & M2 & M3 & M4 & M5 & M6 & M7).
  apply matchesFilters_iff. repeat split.
  - intros Hne. destruct Ht as [Hnil|[Hn Hincl]]; [contradiction|].
    destruct (M1 Hn) as (t & Hin & Hf). exists t. split; [apply Hincl, Hin | exact Hf].
  - exact (widens_In _ _ _ Hs M2).
  - exact (widens_In _ _ _ Hp M3).
  - intros Hne. destruct Hr as [Hnil|[Hn Hincl]]; [contradiction|].
    destruct (M4 Hn) as (r & Hin & Hty). exists r. split; [exact Hin | apply Hincl, Hty].
  - intros Hne.
    assert (Hn : ResourceTags narrow <> []).
    { destruct (ResourceTags wide) as [|t ts] eqn:E; [contradiction|].
      intros Hnil. rewrite Hnil in Htags. apply (Htags t). left. reflexivity. }
    destruct (M5 Hn) as (r & Hin & Hall). exists r. split; [exact Hin|].
    intros t Hint. apply Hall, Htags, Hint.
  - exact (widens_In _ _ _ Ha M6).
  - exact (widens_In _ _ _ Hg M7).
Qed.

(** A "High" finding matched on severity and account is matched on
    severity "High" or "Critical" alone. *)
Lemma matchesFilters_widening_witness :
  matchesFilters Samples.highIn222
    {| FindingTypes := []; Filter_Severity := ["Critical"; "High"]; ProductName := [];
       ResourceTypes := []; ResourceTags := []; Accounts := []; Regions := [] |} = true.
Proof.
  apply (matchesFilters_widening Samples.highIn222
           {| FindingTypes := []; Filter_Severity := ["High"]; ProductName := [];
              ResourceTypes := []; ResourceTags := []; Accounts := ["222222222222"];
              Regions := [] |}).
  - left. reflexivity.
  - right. split; [discriminate|]. intros x [H|[]]. subst. right. left. reflexivity.
  - left. reflexivity.
  - left. reflexivity.
  - left. reflexivity.
  - left. reflexivity.
  - intros x [].
  - reflexivity.
Defined.

(** X15: a finding without resources is matched by no filters that list
    resource types or require tags, and a finding without types by no
    filters that list finding types, whatever its other attributes. *)
Theorem matchesFilters_needs_resources_and_types :
  forall (finding : SecurityHubV2Finding) (filters : RuleFilters),
    (Resources finding = [] ->
     ResourceTypes filters <> [] \/ ResourceTags filters <> [] ->
     matchesFilters finding filters = false)
    /\ (Types (FindingInfo_ finding) = [] ->
        FindingTypes filters <> [] ->
        matchesFilters finding filters = false).
Proof.
  intros finding filters. split.
  - intros Hnil Hsome.
    destruct (matchesFilters finding filters) eqn:E; [|reflexivity].
    apply matchesFilters_iff in E. destruct E as (_ & _ & _ & M4 & M5 & _).
    exfalso. destruct Hsome as [H|H].
    + destruct (M4 H) as (r & Hin & _). rewrite Hnil in Hin. exact Hin.
    + destruct (M5 H) as (r & Hin & _). rewrite Hnil in Hin. exact Hin.
  - intros Hnil Hsome.
    destruct (matchesFilters finding filters) eqn:E; [|reflexivity].
    apply matchesFilters_iff in E. destruct E as (M1 & _).
    exfalso. destruct (M1 Hsome) as (t & _ & Hin). rewrite Hnil in Hin. exact Hin.
Qed.

(** [Samples.highIn222] has no resource: the runner rule, which requires
    a tag, does not match it, though it has the finding type. *)
Lemma matchesFilters_needs_resources_and_types_witness :
  matchesFilters Samples.highIn222 (Filters Samples.runnerRule) = false.
Proof.
  apply (proj1 (matchesFilters_needs_resources_and_types
                  Samples.highIn222 (Filters Samples.runnerRule))).
  - reflexivity.
  - right. discriminate.
Defined.

(** ** The category and the console address of a finding *)

Lemma prefix_app (sub s : string) :
  String.prefix sub s = true <-> exists after, s = (sub ++ after)%string.
Proof.
  revert s. induction sub as [|a sub IH]; intros s; simpl.
  - destruct s; split; intros; try reflexivity; eexists; reflexivity.
  - destruct s as [|b s]; simpl.
    + split; [discriminate | intros (after & H); discriminate H].
    + destruct (ascii_dec a b) as [Heq|Hne].
      * subst b. rewrite IH. split.
        -- intros (after & H). exists after. rewrite H. reflexivity.
        -- intros (after & H). inversion H. exists after. reflexivity.
      * split; [discriminate|]. intros (after & H). inversion H. congruence.
Qed.

Lemma strings_Contains_occurs (s sub : string) :
  presentation.strings_Contains s sub = true <-> Spec.occursIn sub s.
Proof.
  unfold Spec.occursIn.
  induction s as [|c r IH]; cbn [presentation.strings_Contains].
  - destruct (String.prefix sub "") eqn:E.
    + apply prefix_app in E. destruct E as (after & H).
      split; [|reflexivity]. intros _. exists "", after. exact H.
    + split; [discriminate|]. intros (before & after & H).
      destruct before; simpl in H; [|discriminate H].
      assert (Hp : String.prefix sub "" = true) by (apply prefix_app; exists after; exact H).
      congruence.
  - destruct (String.prefix sub (String c r)) eqn:E.
    + apply prefix_app in E. destruct E as (after & H).
      split; [|reflexivity]. intros _. exists "", after. exact H.
    + rewrite IH. split.
      * intros (before & after & H). exists (String c before), after.
        simpl. rewrite H. reflexivity.
      * intros (before & after & H). destruct before as [|c' before]; simpl in H.
        -- assert (Hp : String.prefix sub (String c r) = true)
             by (apply prefix_app; exists after; exact H).
           congruence.
        -- inversion H. exists before, after. reflexivity.
Qed.

Lemma categoryOfType_none (findingType : string) :
  presentation.categoryOfType findingType = None
  <-> forall word, In word Spec.categoryWords -> ~ Spec.occursIn word findingType.
Proof.
  unfold presentation.categoryOfType, Spec.categoryWords.
  destruct (presentation.strings_Contains findingType "Threats") eqn:E1;
    [apply strings_Contains_occurs in E1; split; [discriminate|];
     intros H; exfalso; apply (H "Threats"); simpl; tauto|].
  destruct (presentation.strings_Contains findingType "Posture Management") eqn:E2;
    [apply strings_Contains_occurs in E2; split; [discriminate|];
     intros H; exfalso; apply (H "Posture Management"); simpl; tauto|].
  destruct (presentation.strings_Contains findingType "Exposure") eqn:E3;
    [apply strings_Contains_occurs in E3; split; [discriminate|];
     intros H; exfalso; apply (H "Exposure"); simpl; tauto|].
  destruct (presentation.strings_Contains findingType "Vulnerabilities") eqn:E4;
    [apply strings_Contains_occurs in E4; split; [discriminate|];
     intros H; exfalso; apply (H "Vulnerabilities"); simpl; tauto|].
  destruct (presentation.strings_Contains findingType "Sensitive data") eqn:E5;
    [apply strings_Contains_occurs in E5; split; [discriminate|];
     intros H; exfalso; apply (H "Sensitive data"); simpl; tauto|].
  split; [|reflexivity]. intros _ word [H|[H|[H|[H|[H|[]]]]]] Hocc; subst word;
    apply strings_Contains_occurs in Hocc; congruence.
Qed.

Lemma categoryOfType_range (findingType category : string) :
  presentation.categoryOfType findingType = Some category ->
  In category ["Threats"; "Posture Management"; "Exposure"; "Vulnerabilities";
               "Sensitive Data"].
Proof.
  unfold presentation.categoryOfType.
  repeat match goal with
         | |- context [if ?b then _ else _] => destruct b
         end; intros H; inversion H; simpl; tauto.
Qed.

Lemma GetFindingCategory_loop_first (pre post : list string) (t category name : string) :
  (forall t', In t' pre -> presentation.categoryOfType t' = None) ->
  presentation.categoryOfType t = Some category ->
  presentation.GetFindingCategory_loop (pre ++ t :: post) name = category.
Proof.
  intros Hpre Ht. induction pre as [|t' pre IH]; simpl.
  - rewrite Ht. reflexivity.
  - rewrite (Hpre t' (or_introl eq_refl)). apply IH.
    intros x Hin. apply Hpre. right. exact Hin.
Qed.

Lemma GetFindingCategory_loop_none (types : list string) (name : string) :
  (forall t, In t types -> presentation.categoryOfType t = None) ->
  presentation.GetFindingCategory_loop types name = name.
Proof.
  intros Hnone. induction types as [|t rest IH]; simpl; [reflexivity|].
  rewrite (Hnone t (or_introl eq_refl)). apply IH.
  intros x Hin. apply Hnone. right. exact Hin.
Qed.

Lemma GetFindingCategory_unfold (shf : SecurityHubV2Finding) (name : string) :
  presentation.GetFindingCategory shf name
  = presentation.GetFindingCategory_loop (Types (FindingInfo_ shf)) name.
Proof.
  unfold presentation.GetFindingCategory.
  destruct (Types (FindingInfo_ shf)); reflexivity.
Qed.

(** X16: [GetFindingCategory] returns one of the five categories or the
    finding's category name.  It returns the category name when none of
    the five words occurs in any type of the finding, in particular when
    there is no type; otherwise the first type in which one of the words
    occurs decides, "Threats" going before the other words in it. *)
Theorem GetFindingCategory_first_type_decides :
  forall (shf : SecurityHubV2Finding) (CategoryName : string),
    (presentation.GetFindingCategory shf CategoryName = CategoryName
     \/ In (presentation.GetFindingCategory shf CategoryName)
           ["Threats"; "Posture Management"; "Exposure"; "Vulnerabilities";
            "Sensitive Data"])
    /\ ((forall t word, In t (Types (FindingInfo_ shf)) -> In word Spec.categoryWords ->
                        ~ Spec.occursIn word t) ->
        presentation.GetFindingCategory shf CategoryName = CategoryName)
    /\ (forall pre t post category,
           Types (FindingInfo_ shf) = pre ++ t :: post ->
           (forall t' word, In t' pre -> In word Spec.categoryWords ->
                            ~ Spec.occursIn word t') ->
           presentation.categoryOfType t = Some category ->
           presentation.GetFindingCategory shf CategoryName = category)
    /\ (forall t, Spec.occursIn "Threats" t ->
                  presentation.categoryOfType t = Some "Threats")
    /\ (forall t, presentation.categoryOfType t = None
                  <-> forall word, In word Spec.categoryWords -> ~ Spec.occursIn word t).
Proof.
  intros shf name. rewrite GetFindingCategory_unfold.
  split; [|split; [|split; [|split]]].
  - induction (Types (FindingInfo_ shf)) as [|t rest IH]; simpl; [left; reflexivity|].
    destruct (presentation.categoryOfType t) as [c|] eqn:E; [|exact IH].
    right. exact (categoryOfType_range t c E).
  - intros Hnone. apply GetFindingCategory_loop_none.
    intros t Hin. apply categoryOfType_none. intros word Hw. apply Hnone; assumption.
  - intros pre t post category Htypes Hpre Ht. rewrite Htypes.
    apply GetFindingCategory_loop_first; [|exact Ht].
    intros t' Hin. apply categoryOfType_none. intros word Hw. apply Hpre; assumption.
  - intros t Hocc. apply strings_Contains_occurs in Hocc.
    unfold presentation.categoryOfType. rewrite Hocc. reflexivity.
  - apply categoryOfType_none.
Qed.

(** A finding typed "Software and Configuration Checks" and then
    "Exposure/Vulnerabilities": the second type decides, and in it
    "Exposure" goes before "Vulnerabilities". *)
Lemma GetFindingCategory_first_type_decides_witness :
  presentation.GetFindingCategory
    (Samples.mkFinding "New" "Low" "1" "r"
       ["Software and Configuration Checks"; "Exposure/Vulnerabilities"; "Threats"]
       "p" None [])
    "Findings"
  = "Exposure".
Proof.
  apply (proj1 (proj2 (proj2 (GetFindingCategory_first_type_decides
           (Samples.mkFinding "New" "Low" "1" "r"
              ["Software and Configuration Checks"; "Exposure/Vulnerabilities"; "Threats"]
              "p" None [])
           "Findings")))
           ["Software and Configuration Checks"] "Exposure/Vulnerabilities" ["Threats"]
           "Exposure" eq_refl).
  - intros t' word [Ht|[]] Hw. subst t'.
    apply (proj1 (categoryOfType_none "Software and Configuration Checks") eq_refl).
    exact Hw.
  - reflexivity.
Defined.

Lemma unescaped_is_queryChar (c : ascii) :
  presentation.shouldEscape c = false -> Spec.queryChar c = true.
Proof.
  destruct c as [[] [] [] [] [] [] [] []]; vm_compute; intros H;
    first [reflexivity | discriminate H].
Qed.

Lemma upperhex_is_queryChar (c : ascii) :
  Spec.queryChar (presentation.upperhex (nat_of_ascii c / 16)) = true
  /\ Spec.queryChar (presentation.upperhex (nat_of_ascii c mod 16)) = true.
Proof.
  destruct c as [[] [] [] [] [] [] [] []]; vm_compute; split; reflexivity.
Qed.

Lemma url_QueryEscape_chars (s : string) :
  Spec.allChars Spec.queryChar (presentation.url_QueryEscape s) = true.
Proof.
  induction s as [|c r IH]; cbn [presentation.url_QueryEscape]; [reflexivity|].
  destruct (presentation.shouldEscape c) eqn:E.
  - destruct (Ascii.eqb c " "); cbn [Spec.allChars].
    + rewrite IH. reflexivity.
    + destruct (upperhex_is_queryChar c) as [H1 H2]. rewrite H1, H2, IH. reflexivity.
  - cbn [Spec.allChars]. rewrite (unescaped_is_queryChar c E), IH. reflexivity.
Qed.

(** X17: [BuildConsoleUrl] returns the console address of the finding
    unless an access portal URL and a role name are both given; then it
    returns the portal address with the console address as its
    destination, escaped so that it holds only letters, digits and
    [-_.~+%], whatever the finding's UID and region hold.  The console
    address has an empty view when the category of the finding is none
    of Exposure, Posture Management, Threats and Vulnerabilities. *)
Theorem BuildConsoleUrl_portal_wraps_escaped_destination :
  forall (shf : SecurityHubV2Finding)
         (CategoryName consoleURL accessPortalURL accessRoleName shRegion : string),
    let dst := presentation.consoleDestination shf CategoryName consoleURL shRegion in
    let region := if String.eqb shRegion "" then Region (Cloud_ shf) else shRegion in
    (accessPortalURL = "" \/ accessRoleName = "" ->
     presentation.BuildConsoleUrl shf CategoryName consoleURL accessPortalURL
                                  accessRoleName shRegion = dst)
    /\ (accessPortalURL <> "" -> accessRoleName <> "" ->
        presentation.BuildConsoleUrl shf CategoryName consoleURL accessPortalURL
                                     accessRoleName shRegion
        = (accessPortalURL ++ "/#/console?account_id="
                           ++ Account_UID (Cloud_Account (Cloud_ shf))
                           ++ "&role_name=" ++ accessRoleName ++ "&destination="
                           ++ presentation.url_QueryEscape dst)%string
        /\ Spec.allChars Spec.queryChar (presentation.url_QueryEscape dst) = true)
    /\ (~ In (presentation.GetFindingCategory shf CategoryName)
             ["Exposure"; "Posture Management"; "Threats"; "Vulnerabilities"] ->
        dst = (consoleURL ++ "/securityhub/v2/home?region=" ++ region
                          ++ "#/?findingDetailId=" ++ UID (Metadata_ shf))%string).
Proof.
  intros shf name consoleURL portal role shRegion dst region.
  unfold presentation.BuildConsoleUrl. fold dst. split; [|split].
  - intros [H|H]; rewrite H; simpl; [reflexivity|].
    destruct (negb (String.eqb portal "")); reflexivity.
  - intros Hp Hr. apply String.eqb_neq in Hp, Hr. rewrite Hp, Hr. simpl.
    split; [reflexivity | apply url_QueryEscape_chars].
  - intros Hnot. unfold dst, presentation.consoleDestination. fold region.
    unfold presentation.viewOf.
    destruct (String.eqb (presentation.GetFindingCategory shf name) "Exposure") eqn:E1;
      [apply String.eqb_eq in E1; exfalso; apply Hnot; rewrite E1; simpl; tauto|].
    destruct (String.eqb (presentation.GetFindingCategory shf name) "Posture Management")
      eqn:E2;
      [apply String.eqb_eq in E2; exfalso; apply Hnot; rewrite E2; simpl; tauto|].
    destruct (String.eqb (presentation.GetFindingCategory shf name) "Threats") eqn:E3;
      [apply String.eqb_eq in E3; exfalso; apply Hnot; rewrite E3; simpl; tauto|].
    destruct (String.eqb (presentation.GetFindingCategory shf name) "Vulnerabilities")
      eqn:E4;
      [apply String.eqb_eq in E4; exfalso; apply Hnot; rewrite E4; simpl; tauto|].
    reflexivity.
Qed.

(** The runner finding through an access portal: the console address,
    whose view is empty, is escaped. *)
Lemma BuildConsoleUrl_portal_wraps_escaped_destination_witness :
  presentation.BuildConsoleUrl Samples.runnerFinding "Findings"
    "https://console.aws.amazon.com" "https://portal.example" "SecurityAudit" ""
  = "https://portal.example/#/console?account_id=111111111111&role_name=SecurityAudit&destination=https%3A%2F%2Fconsole.aws.amazon.com%2Fsecurityhub%2Fv2%2Fhome%3Fregion%3Dus-east-1%23%2F%3FfindingDetailId%3Dfinding-1".
Proof.
  apply (proj1 (proj1 (proj2 (BuildConsoleUrl_portal_wraps_escaped_destination
           Samples.runnerFinding "Findings"
           "https://console.aws.amazon.com" "https://portal.example" "SecurityAudit" ""))
           ltac:(discriminate) ltac:(discriminate))).
Defined.

(** ** Building the application *)

Lemma New_shape (p : app.Platform) (cfg : app.Config) :
  (exists a, app.New p cfg = (Some a, None))
  \/ (exists err, app.New p cfg = (None, Some err)).
Proof.
  unfold app.New. destruct (app.LoadDefaultConfig p); [right; eexists; reflexivity|].
  destruct (negb (String.eqb (app.AutoCloseRulesS3Bucket cfg) ""));
    [|left; eexists; reflexivity].
  destruct (app.LoadRulesFromS3 _ _ _) as [s3Rules [err|]];
    [right; eexists; reflexivity|].
  destruct (nonEmpty (app.AutoCloseRules cfg)); left; eexists; reflexivity.
Qed.

(** X18: [New] fails exactly when the AWS configuration does not load
    or a bucket is set and the rules do not load from it, the error
    being wrapped in either case.  The application it returns keeps the
    settings, has a notifier exactly when Slack is enabled, has the
    configured rules alone when no bucket is set, and at least one rule
    more than those when one is. *)
Theorem New_application :
  forall (p : app.Platform) (cfg : app.Config),
    let loader := {| client := app.s3_NewFromConfig p;
                     unmarshaler := app.rulesUnmarshaler p |} in
    let loaded := LoadRules loader (app.AutoCloseRulesS3Bucket cfg)
                            (app.AutoCloseRulesS3Prefix cfg) in
    (forall err, app.LoadDefaultConfig p = Some err ->
                 app.New p cfg
                 = (None, Some (Wrap err "failed to load aws config - check credentials and region")))
    /\ (forall err, app.LoadDefaultConfig p = None ->
                    app.AutoCloseRulesS3Bucket cfg <> "" ->
                    snd loaded = Some err ->
                    app.New p cfg
                    = (None, Some (Wrap err ("failed to load rules from "
                                             ++ s3url (app.AutoCloseRulesS3Bucket cfg)
                                                      (app.AutoCloseRulesS3Prefix cfg)))))
    /\ ((exists a, app.New p cfg = (Some a, None))
        <-> app.LoadDefaultConfig p = None
            /\ (app.AutoCloseRulesS3Bucket cfg = "" \/ snd loaded = None))
    /\ (forall a,
           app.New p cfg = (Some a, None) ->
           app.Config_ a = cfg
           /\ (app.Notifier_ a <> None <-> app.SlackEnabled cfg = true)
           /\ (app.AutoCloseRulesS3Bucket cfg = "" ->
               Rules (app.FilterEngine_ a) = app.AutoCloseRules cfg)
           /\ (app.AutoCloseRulesS3Bucket cfg <> "" ->
               List.length (app.AutoCloseRules cfg)
               < List.length (Rules (app.FilterEngine_ a)))).
Proof.
  intros p cfg loader loaded.
  assert (Hnew : app.New p cfg =
    match app.LoadDefaultConfig p with
    | Some err =>
        (None, Some (Wrap err "failed to load aws config - check credentials and region"))
    | None =>
        let notifier :=
          if app.SlackEnabled cfg
          then Some (app.NewSlackNotifier p (app.SlackToken cfg) (app.SlackChannel cfg)
                       (app.AwsConsoleURL cfg) (app.AwsAccessPortalURL cfg)
                       (app.AwsAccessRoleName cfg) (app.AWSSecurityHubv2Region cfg))
          else None in
        if String.eqb (app.AutoCloseRulesS3Bucket cfg) "" then
          (Some {| app.Config_ := cfg;
                   app.FilterEngine_ := NewFilterEngine (app.AutoCloseRules cfg);
                   app.FindingCloser_ := app.securityhub_NewFromConfig p;
                   app.Notifier_ := notifier |}, None)
        else
          match loaded with
          | (_, Some err) =>
              (None, Some (Wrap err ("failed to load rules from "
                                     ++ s3url (app.AutoCloseRulesS3Bucket cfg)
                                              (app.AutoCloseRulesS3Prefix cfg))))
          | (s3Rules, None) =>
              (Some {| app.Config_ := cfg;
                       app.FilterEngine_ :=
                         NewFilterEngine (app.AutoCloseRules cfg ++ s3Rules);
                       app.FindingCloser_ := app.securityhub_NewFromConfig p;
                       app.Notifier_ := notifier |}, None)
          end
    end).
  { unfold app.New, app.LoadRulesFromS3. fold loader. fold loaded.
    destruct (app.LoadDefaultConfig p); [reflexivity|].
    destruct (String.eqb (app.AutoCloseRulesS3Bucket cfg) ""); simpl; [reflexivity|].
    destruct loaded as [s3Rules [err|]]; [reflexivity|].
    destruct (app.AutoCloseRules cfg); reflexivity. }
  pose proof (LoadRules_not_empty loader (app.AutoCloseRulesS3Bucket cfg)
                (app.AutoCloseRulesS3Prefix cfg)) as Hne.
  fold loaded in Hne.
  rewrite Hnew. clear Hnew. split; [|split; [|split]].
  - intros err H. rewrite H. reflexivity.
  - intros err Haws Hb Hl. rewrite Haws. apply String.eqb_neq in Hb. rewrite Hb.
    destruct loaded as [s3Rules [e|]]; simpl in Hl; inversion Hl; subst. reflexivity.
  - destruct (app.LoadDefaultConfig p) as [e|].
    { split; [intros (a & H); discriminate H | intros [H _]; discriminate H]. }
    destruct (String.eqb (app.AutoCloseRulesS3Bucket cfg) "") eqn:Hb.
    { apply String.eqb_eq in Hb. split; [tauto|]. intros _. eexists. reflexivity. }
    apply String.eqb_neq in Hb. destruct loaded as [s3Rules [e|]]; simpl.
    + split; [intros (a & H); discriminate H|].
      intros [_ [H|H]]; [contradiction | discriminate H].
    + split; [tauto|]. intros _. eexists. reflexivity.
  - intros a Ha. destruct (app.LoadDefaultConfig p) as [e|]; [discriminate Ha|].
    cbv zeta in Ha.
    destruct (String.eqb (app.AutoCloseRulesS3Bucket cfg) "") eqn:Hb.
    + apply String.eqb_eq in Hb. inversion Ha; subst a; clear Ha. simpl.
      split; [reflexivity|]. split; [|split; [reflexivity | contradiction]].
      destruct (app.SlackEnabled cfg); split; intros H; try reflexivity;
        try discriminate; try (exfalso; apply H; reflexivity).
    + apply String.eqb_neq in Hb. destruct loaded as [s3Rules [e|]]; [discriminate Ha|].
      inversion Ha; subst a; clear Ha. simpl.
      split; [reflexivity|]. split; [|split; [contradiction|]].
      * destruct (app.SlackEnabled cfg); split; intros H; try reflexivity;
          try discriminate; try (exfalso; apply H; reflexivity).
      * intros _. rewrite length_app.
        destruct s3Rules as [|r rs]; [exfalso; apply Hne; reflexivity | simpl; lia].
Qed.

(** ** The Lambda handler *)

Lemma NewConfig_shape (getenv : string -> string) (u : Unmarshaler) :
  (exists cfg, appconfig.NewConfig getenv u = (Some cfg, None))
  \/ (exists err, appconfig.NewConfig getenv u = (None, Some err)).
Proof.
  unfold appconfig.NewConfig.
  destruct (if negb (String.eqb (getenv "APP_AUTO_CLOSE_RULES") "")
            then appconfig.parseAutoCloseRules u (getenv "APP_AUTO_CLOSE_RULES")
            else ([], None)) as [rules [err|]]; [right; eexists; reflexivity|].
  destruct (negb (String.eqb (getenv "APP_SLACK_TOKEN") "")
            && String.eqb (getenv "APP_SLACK_CHANNEL") "");
    [right; eexists; reflexivity|].
  destruct (String.eqb (getenv "APP_SLACK_TOKEN") ""
            && negb (String.eqb (getenv "APP_SLACK_CHANNEL") ""));
    [right; eexists; reflexivity | left; eexists; reflexivity].
Qed.

Section Lambda.

Variable p : app.Platform.
Variable getenv : string -> string.

Lemma initialize_done : lambda.onceDone (lambda.initialize p getenv) = true.
Proof.
  unfold lambda.initialize.
  destruct (appconfig.NewConfig getenv (app.rulesUnmarshaler p)) as [[cfg|] [err|]];
    try reflexivity.
  destruct (app.New p cfg). reflexivity.
Qed.

Lemma initialize_built :
  (exists err, lambda.initErr (lambda.initialize p getenv) = Some err)
  \/ (lambda.initErr (lambda.initialize p getenv) = None
      /\ exists application, lambda.a (lambda.initialize p getenv) = Some application).
Proof.
  unfold lambda.initialize.
  destruct (NewConfig_shape getenv (app.rulesUnmarshaler p)) as [(cfg & H)|(err & H)];
    rewrite H; [|left; eexists; reflexivity].
  destruct (New_shape p cfg) as [(application & H')|(err & H')]; rewrite H'; simpl.
  - right. split; [reflexivity | eexists; reflexivity].
  - left. eexists. reflexivity.
Qed.

Lemma LambdaHandler_done (g : lambda.Globals) (evt : lambda.CloudWatchEvent) :
  lambda.onceDone g = true ->
  lambda.LambdaHandler p getenv g evt = (g, Spec.handled p g evt).
Proof.
  intros Hdone. unfold lambda.LambdaHandler, Spec.handled. rewrite Hdone.
  destruct (lambda.initErr g); [reflexivity|].
  destruct (lambda.a g); reflexivity.
Qed.

Lemma LambdaHandler_first (evt : lambda.CloudWatchEvent) :
  lambda.LambdaHandler p getenv lambda.start evt
  = (lambda.initialize p getenv, Spec.handled p (lambda.initialize p getenv) evt).
Proof.
  unfold lambda.LambdaHandler, Spec.handled. simpl lambda.onceDone. cbv iota.
  destruct (lambda.initErr (lambda.initialize p getenv)); [reflexivity|].
  destruct (lambda.a (lambda.initialize p getenv)); reflexivity.
Qed.

End Lambda.

Lemma serve_done (g : lambda.Globals) (invocations : list lambda.Invocation) :
  lambda.onceDone g = true ->
  lambda.serve g invocations
  = map (fun inv => Spec.handled (lambda.inv_platform inv) g (lambda.inv_event inv))
        invocations.
Proof.
  intros Hdone. induction invocations as [|inv rest IH]; simpl; [reflexivity|].
  rewrite (LambdaHandler_done _ _ g _ Hdone), IH. reflexivity.
Qed.

(** X19: in one process [LambdaHandler] reads the settings and builds
    the application at the first invocation and at no later one.
    Whatever the environment and the platform have become when a later
    invocation arrives, it is answered from what the first invocation
    built out of its own environment and platform: with the error of
    that build and no call when it failed, a failed build being never
    tried again, and otherwise with [Process] of that one application on
    the event, with the event's id, detail type and detail.  The handler
    changes the package variables at the first invocation only, and the
    build leaves an error or an application. *)
Theorem LambdaHandler_builds_once :
  forall (first : lambda.Invocation) (later : list lambda.Invocation),
    let built := lambda.initialize (lambda.inv_platform first) (lambda.inv_getenv first) in
    lambda.serve lambda.start (first :: later)
    = map (fun inv =>
             match lambda.initErr built with
             | Some err => (app.Return (Some err), [])
             | None =>
                 match lambda.a built with
                 | Some application =>
                     app.run (lambda.inv_platform inv) application
                             {| EventID := lambda.ID (lambda.inv_event inv);
                                DetailType := lambda.CloudWatch_DetailType (lambda.inv_event inv);
                                Detail := lambda.CloudWatch_Detail (lambda.inv_event inv) |}
                 | None => (app.Panic, [])
                 end
             end) (first :: later)
    /\ (forall p getenv evt,
           fst (lambda.LambdaHandler p getenv lambda.start evt) = lambda.initialize p getenv)
    /\ (forall p getenv g evt,
           lambda.onceDone g = true ->
           fst (lambda.LambdaHandler p getenv g evt) = g)
    /\ ((exists err, lambda.initErr built = Some err)
        \/ (lambda.initErr built = None
            /\ exists application, lambda.a built = Some application)).
Proof.
  intros first later built. split; [|split; [|split]].
  - cbn [lambda.serve map]. rewrite LambdaHandler_first.
    rewrite (serve_done _ later (initialize_done _ _)). reflexivity.
  - intros p getenv evt. rewrite LambdaHandler_first. reflexivity.
  - intros p getenv g evt Hdone. rewrite (LambdaHandler_done _ _ g evt Hdone). reflexivity.
  - apply initialize_built.
Qed.

(** ** The properties above on concrete inputs *)

(** Two pages with an object that has no key; the same with a page that
    fails between them. *)
Lemma listObjects_collects_or_fails_witness :
  listObjects {| client := Samples.twoPages; unmarshaler := Samples.codec |} "b" "rules/"
  = (["rules/a.json"; "rules/b.txt"; "rules/c.json"], None)
  /\ listObjects {| client := Samples.secondPageFails; unmarshaler := Samples.codec |}
                 "b" "rules/"
     = ([], Some (Foreign "AccessDenied")).
Proof.
  split.
  - apply (proj1 (listObjects_collects_or_fails
                    {| client := Samples.twoPages; unmarshaler := Samples.codec |}
                    "b" "rules/")).
    intros page [H|[H|[]]]; subst page; reflexivity.
  - apply (proj2 (listObjects_collects_or_fails
                    {| client := Samples.secondPageFails; unmarshaler := Samples.codec |}
                    "b" "rules/")
                 [([Some "rules/a.json"; None; Some "rules/b.txt"], None)]
                 [] (Foreign "AccessDenied") [([Some "rules/c.json"], None)] eq_refl).
    intros page [H|[]]; subst page; reflexivity.
Defined.

(** The text file beside the rule file may hold anything. *)
Lemma LoadRules_reads_only_json_keys_witness :
  LoadRules (Samples.loaderOf [("rules/a.json", Samples.docSingle);
                               ("rules/notes.txt", Samples.docBroken)]) "b" "rules/"
  = LoadRules (Samples.loaderOf [("rules/a.json", Samples.docSingle);
                                 ("rules/notes.txt", Samples.docArray)]) "b" "rules/".
Proof.
  apply LoadRules_reads_only_json_keys; [reflexivity | reflexivity|].
  intros key Hk. unfold Samples.loaderOf, Samples.bucketOf.
  cbn [client GetObject Samples.lookup].
  destruct (String.eqb "rules/a.json" key); [reflexivity|].
  destruct (String.eqb "rules/notes.txt" key) eqn:E; [|reflexivity].
  apply String.eqb_eq in E. subst key. discriminate Hk.
Defined.

(** The encoded array: the attempt as an array fails on it and has
    stored nothing when the attempt as a string succeeds. *)
Lemma parseAutoCloseRules_array_or_encoded_array_witness :
  fst (Unmarshal_rules Samples.settingsCodec
         (list_byte_of_string (Samples.dq Samples.encodedArray))) = [].
Proof.
  apply (proj2 (parseAutoCloseRules_array_or_encoded_array
                  Samples.settingsCodec (Samples.dq Samples.encodedArray))).
  - vm_compute. discriminate.
  - vm_compute. reflexivity.
Defined.

(** With a bucket and nothing else set the settings are returned; with a
    token and no channel they are not. *)
Lemma NewConfig_settings_witness :
  (exists cfg, appconfig.NewConfig Samples.bucketEnv Samples.settingsCodec = (Some cfg, None))
  /\ (exists err,
         appconfig.NewConfig Samples.tokenOnlyEnv Samples.settingsCodec = (None, Some err)).
Proof.
  split.
  - apply (proj1 (NewConfig_settings Samples.bucketEnv Samples.settingsCodec)).
    split; [left; reflexivity | split; reflexivity].
  - apply (proj1 (proj2 (NewConfig_settings Samples.tokenOnlyEnv Samples.settingsCodec))).
    intros [_ [_ H]]. discriminate (H eq_refl).
Defined.


(** A detail that does not decode, and a finding that does not. *)
Lemma Process_decode_errors_witness :
  app.run Samples.detailBroken
          (Samples.mkApp [Samples.closeAll] Samples.closerOk (Some Samples.notifierOk))
          Samples.importedEvent
  = (app.Return (Some (Wrap (Foreign "json: syntax error")
                            "failed to unmarshal event detail")), [])
  /\ app.run Samples.findingBroken
             (Samples.mkApp [Samples.closeAll] Samples.closerOk (Some Samples.notifierOk))
             Samples.importedEvent
     = (app.Return (Some (Foreign "json: syntax error")),
        [app.CallNewSecurityHubFinding Samples.rawFinding]).
Proof.
  split.
  - apply (proj1 (Process_decode_errors Samples.detailBroken
                    (Samples.mkApp [Samples.closeAll] Samples.closerOk
                                   (Some Samples.notifierOk))
                    Samples.importedEvent eq_refl)
                 {| app.Findings := [Samples.rawFinding] |}).
    reflexivity.
  - apply (proj2 (Process_decode_errors Samples.findingBroken
                    (Samples.mkApp [Samples.closeAll] Samples.closerOk
                                   (Some Samples.notifierOk))
                    Samples.importedEvent eq_refl)
                 {| app.Findings := [Samples.rawFinding] |} Samples.rawFinding []
                 zeroFinding); reflexivity.
Defined.

(** A second finding in the event changes nothing. *)
Lemma Process_reads_first_finding_only_witness :
  app.run (Samples.platform [Samples.rawFinding; [x5b; x5d]] Samples.highIn222)
          (Samples.mkApp [Samples.closeAll] Samples.closerOk None) Samples.importedEvent
  = app.run (Samples.platform [Samples.rawFinding] Samples.highIn222)
            (Samples.mkApp [Samples.closeAll] Samples.closerOk None) Samples.importedEvent.
Proof.
  apply (Process_reads_first_finding_only
           (Samples.platform [Samples.rawFinding; [x5b; x5d]] Samples.highIn222)
           (Samples.platform [Samples.rawFinding] Samples.highIn222)
           (Samples.mkApp [Samples.closeAll] Samples.closerOk None) Samples.importedEvent
           {| app.Findings := [Samples.rawFinding; [x5b; x5d]] |}
           {| app.Findings := [Samples.rawFinding] |});
    reflexivity.
Defined.

(** With a bucket holding one rule file and two configured rules, the
    engine has more than two rules. *)
Lemma New_application_witness :
  exists a,
    app.New (Samples.s3Platform [("rules/a.json", Samples.docSingle)])
            (Samples.config [Samples.closeAll; Samples.closeAllQuietly] "b" false)
    = (Some a, None)
    /\ 2 < List.length (Rules (app.FilterEngine_ a)).
Proof.
  pose proof (New_application
                (Samples.s3Platform [("rules/a.json", Samples.docSingle)])
                (Samples.config [Samples.closeAll; Samples.closeAllQuietly] "b" false))
    as (_ & _ & Hiff & Hbuilt).
  destruct (proj2 Hiff) as (a & Ha).
  - split; [reflexivity | right; vm_compute; reflexivity].
  - exists a. split; [exact Ha|].
    destruct (Hbuilt a Ha) as (_ & _ & _ & Hmore). apply Hmore. discriminate.
Defined.

(** Two invocations in one process.  The rule comes from the bucket the
    first invocation finds; the second finds no bucket and settings that
    [NewConfig] refuses, and closes the finding with the rule's zero
    status all the same.  With the environments the other way round
    both invocations return the error of the first. *)
Lemma LambdaHandler_builds_once_witness :
  lambda.serve lambda.start
    [ Samples.invocation (Samples.lambdaPlatform Samples.highIn222) Samples.bucketEnv "e1";
      Samples.invocation (Samples.platform [Samples.rawFinding] Samples.highIn222)
                         Samples.tokenOnlyEnv "e2" ]
  = [ (app.Return None,
       [app.CallNewSecurityHubFinding Samples.rawFinding;
        app.CallFindMatchingRule Samples.highIn222;
        app.CallCloseFinding Samples.highIn222 0%Z ""]);
      (app.Return None,
       [app.CallNewSecurityHubFinding Samples.rawFinding;
        app.CallFindMatchingRule Samples.highIn222;
        app.CallCloseFinding Samples.highIn222 0%Z ""]) ]
  /\ lambda.serve lambda.start
       [ Samples.invocation (Samples.platform [Samples.rawFinding] Samples.highIn222)
                            Samples.tokenOnlyEnv "e1";
         Samples.invocation (Samples.lambdaPlatform Samples.highIn222) Samples.bucketEnv "e2" ]
     = [ (app.Return (Some (Newf "APP_SLACK_TOKEN requires APP_SLACK_CHANNEL")), []);
         (app.Return (Some (Newf "APP_SLACK_TOKEN requires APP_SLACK_CHANNEL")), []) ].
Proof.
  split.
  - rewrite (proj1 (LambdaHandler_builds_once
                      (Samples.invocation (Samples.lambdaPlatform Samples.highIn222)
                                          Samples.bucketEnv "e1")
                      [Samples.invocation
                         (Samples.platform [Samples.rawFinding] Samples.highIn222)
                         Samples.tokenOnlyEnv "e2"])).
    vm_compute. reflexivity.
  - rewrite (proj1 (LambdaHandler_builds_once
                      (Samples.invocation
                         (Samples.platform [Samples.rawFinding] Samples.highIn222)
                         Samples.tokenOnlyEnv "e1")
                      [Samples.invocation (Samples.lambdaPlatform Samples.highIn222)
                                          Samples.bucketEnv "e2"])).
    vm_compute. reflexivity.
Defined.

(** ** Errors of the loader *)

(** X20: [LoadRules] returns rules or an error, never both and never
    neither: with an error there is no rule, without one there is at
    least one.  A listing error is wrapped as a listing failure; the
    first ".json" object that cannot be fetched, or whose body cannot be
    read, ends the loading, the fetch error wrapped with the object's
    address and the read error wrapped as a read failure first; objects
    listed after it are not looked at. *)
Theorem LoadRules_all_or_nothing :
  forall (l : S3RulesLoader) (bucket prefix : string),
    ((exists err, LoadRules l bucket prefix = ([], Some err))
     \/ (exists rule rules, LoadRules l bucket prefix = (rule :: rules, None)))
    /\ (forall keys err,
           listObjects l bucket prefix = (keys, Some err) ->
           LoadRules l bucket prefix = ([], Some (Wrap err "failed to list S3 objects")))
    /\ (forall pre key post acc body err,
           listObjects l bucket prefix = (pre ++ key :: post, None) ->
           LoadRules_loop l bucket pre [] = inr acc ->
           strings.HasSuffix key ".json" = true ->
           GetObject (client l) bucket key = (body, Some err) ->
           LoadRules l bucket prefix
           = ([], Some (Wrap err ("failed to load rules from " ++ s3url bucket key))))
    /\ (forall pre key post acc data err,
           listObjects l bucket prefix = (pre ++ key :: post, None) ->
           LoadRules_loop l bucket pre [] = inr acc ->
           strings.HasSuffix key ".json" = true ->
           GetObject (client l) bucket key = ((data, Some err), None) ->
           LoadRules l bucket prefix
           = ([], Some (Wrap (Wrap err "failed to read object body")
                             ("failed to load rules from " ++ s3url bucket key)))).
Proof.
  intros l bucket prefix.
  assert (Hlen : forall (pre : list string) key post,
             Nat.eqb (List.length (pre ++ key :: post)) 0 = false).
  { intros pre key post. rewrite length_app. simpl. apply Nat.eqb_neq. lia. }
  split; [|split; [|split]].
  - unfold LoadRules.
    destruct (listObjects l bucket prefix) as [keys [err|]]; [left; eexists; reflexivity|].
    destruct (Nat.eqb (List.length keys) 0); [left; eexists; reflexivity|].
    destruct (LoadRules_loop l bucket keys []) as [err|allRules];
      [left; eexists; reflexivity|].
    destruct allRules as [|r rs]; [left | right]; simpl; eexists; try eexists; reflexivity.
  - intros keys err Hlist. unfold LoadRules. rewrite Hlist. reflexivity.
  - intros pre key post acc body err Hlist Hpre Hsuffix Hget. destruct body as [data rerr].
    unfold LoadRules. rewrite Hlist, Hlen, LoadRules_loop_app, Hpre. simpl.
    rewrite Hsuffix. simpl. unfold loadRulesFromObject. rewrite Hget.
    destruct rerr; reflexivity.
  - intros pre key post acc data err Hlist Hpre Hsuffix Hget.
    unfold LoadRules. rewrite Hlist, Hlen, LoadRules_loop_app, Hpre. simpl.
    rewrite Hsuffix. simpl. unfold loadRulesFromObject. rewrite Hget. reflexivity.
Qed.

(** A ".json" key that is listed and cannot be fetched, after a rule
    file that loads. *)
Lemma LoadRules_all_or_nothing_witness :
  LoadRules {| client := Samples.twoPages; unmarshaler := Samples.codec |} "b" "rules/"
  = ([], Some (Wrap (Foreign "NoSuchKey") "failed to load rules from s3://b/rules/a.json")).
Proof.
  apply (proj1 (proj2 (proj2 (LoadRules_all_or_nothing
           {| client := Samples.twoPages; unmarshaler := Samples.codec |} "b" "rules/")))
           [] "rules/a.json" ["rules/b.txt"; "rules/c.json"] [] ([], None)
           (Foreign "NoSuchKey")); reflexivity.
Defined.
